(** * Detection and alert dispatch engine: a shallow embedding

    The Python sources embedded here are
      - [app/config.py]            (module [Config]),
      - [app/audio_engine.py]      (module [Audio]),
      - [app/vision_engine.py]     (module [Vision]),
      - [app/service_connector.py] (module [Connector]),
      - [app/main.py]              (module [Main]).

    Python values are modelled as follows: [int] is [Z], [float] is the
    kernel's binary64 [float], a [numpy.float32] is a binary64 that holds a
    binary32 value, [str] is [string], [bytes] is [list byte],
    [Optional[T]] is [option T], a [dict] is an insertion-ordered association
    list with unique keys.  A Python call that may raise returns a [result];
    a method that mutates [self] returns the new [self] next to its result.
    Everything the operating system or a third-party library decides (does the
    camera open, does a release throw, what the HTTP server answers) is read
    from an explicit environment record. *)

From Stdlib Require Import ZArith List String Ascii Bool Lia Floats Sorted.
Import ListNotations.
Local Open Scope string_scope.
Local Open Scope list_scope.
Local Open Scope Z_scope.
(* Decimal literals such as 0.9 denote the nearest binary64 value, as they do
   in Python. *)
Set Warnings "-inexact-float".

(* ===================================================================== *)
(** * Python semantics used by the sources *)
(* ===================================================================== *)
Module Py.

(** The exception classes that occur; all of them derive from [Exception]. *)
Inductive exn : Type :=
| RuntimeError
| ValueError
| OverflowError
| ZeroDivisionError
| RequestError          (* httpx.RequestError *)
| OtherException.       (* any other subclass of Exception *)

Inductive result (A : Type) : Type :=
| Return (a : A)
| Raise (e : exn).
Arguments Return {A} a.
Arguments Raise {A} e.

Definition bind {A B} (c : result A) (k : A -> result B) : result B :=
  match c with
  | Return a => k a
  | Raise e => Raise e
  end.

(** [try: c  except Exception as e: h e] *)
Definition try_except {A} (c : result A) (h : exn -> result A) : result A :=
  match c with
  | Return a => Return a
  | Raise e => h e
  end.

Definition raises {A} (c : result A) : bool :=
  match c with Return _ => false | Raise _ => true end.

(** [isinstance(e, httpx.RequestError)] *)
Definition is_RequestError (e : exn) : bool :=
  match e with RequestError => true | _ => false end.

(** [a % b] on ints: the sign follows the divisor, as [Z.modulo] does, and a
    zero divisor raises. *)
Definition mod_ (a b : Z) : result Z :=
  if b =? 0 then Raise ZeroDivisionError else Return (a mod b).

(** [int(x)] on a float: truncation toward zero; [nan] and the infinities
    raise. *)
Definition int_of_float (x : float) : result Z :=
  match Prim2SF x with
  | S754_zero _ => Return 0
  | S754_infinity _ => Raise OverflowError
  | S754_nan => Raise ValueError
  | S754_finite s m e =>
      let mag := if 0 <=? e then Z.pos m * 2 ^ e else Z.pos m / 2 ^ (- e) in
      Return (if s then - mag else mag)
  end.

(** [numpy.float32(x)]: the binary32 value nearest to [x], ties to even,
    held in a binary64 (every binary32 value is one). *)
Definition float32 (x : float) : float :=
  match Prim2SF x with
  | S754_finite s m e => SF2Prim (binary_round 24 128 s m e)
  | _ => x
  end.

(** [a >= c] where [a] is a [numpy.float32] and [c] a Python float.  Under
    NumPy's promotion rules (version 2, NEP 50) the Python float takes the
    type of the array scalar: [c] is converted to float32 and the two
    binary32 values are compared. *)
Definition ge32 (a c : float) : bool := (float32 c <=? a)%float.

(** [slice(start, stop).indices(len)] for the default step 1: a negative
    index counts from the end, and the result is clipped to [0, len]. *)
Definition adjust_index (len i : Z) : Z :=
  let i := if i <? 0 then i + len else i in
  if i <? 0 then 0 else if len <? i then len else i.

Definition slice_indices (len start stop : Z) : Z * Z :=
  (adjust_index len start, adjust_index len stop).

(** [l[start:stop]] *)
Definition slice {A} (l : list A) (start stop : Z) : list A :=
  let '(lo, hi) := slice_indices (Z.of_nat (List.length l)) start stop in
  firstn (Z.to_nat (hi - lo)) (skipn (Z.to_nat lo) l).

(** [d.get(k)], [k in d], [d[k] = v] and [del d[k]] on an insertion-ordered
    dict with string keys. *)
Section Dict.
Context {V : Type}.

Fixpoint get (d : list (string * V)) (k : string) : option V :=
  match d with
  | [] => None
  | (k', v) :: d' => if String.eqb k' k then Some v else get d' k
  end.

Definition contains (d : list (string * V)) (k : string) : bool :=
  match get d k with Some _ => true | None => false end.

Fixpoint setitem (d : list (string * V)) (k : string) (v : V)
  : list (string * V) :=
  match d with
  | [] => [(k, v)]
  | (k', v') :: d' =>
      if String.eqb k' k then (k', v) :: d' else (k', v') :: setitem d' k v
  end.

Fixpoint delitem (d : list (string * V)) (k : string) : list (string * V) :=
  match d with
  | [] => []
  | (k', v') :: d' =>
      if String.eqb k' k then d' else (k', v') :: delitem d' k
  end.

Definition values (d : list (string * V)) : list V := map snd d.
Definition keys (d : list (string * V)) : list string := map fst d.
End Dict.

End Py.
Import Py.

Notation "x <- c ;; k" := (Py.bind c (fun x => k))
  (at level 100, c at next level, right associativity).

(* ===================================================================== *)
(** * app/config.py *)
(* ===================================================================== *)
Module Config.

Record Settings : Type := {
  backend_url : string;
  api_key : string;
  model_path : string;
  detection_confidence : float;
  target_classes : list Z;
  frame_skip : Z;
  audio_threshold : float;
  audio_sample_rate : Z;
  audio_chunk_size : Z;
  default_camera_url : option string
}.

(** The field defaults of [class Settings]. *)
Definition defaults : Settings := {|
  backend_url := "http://management-server:8080";
  api_key := "changeme-api-key";
  model_path := "yolov8n.pt";
  detection_confidence := 0.6%float;
  target_classes := [0];
  frame_skip := 2;
  audio_threshold := 0.7%float;
  audio_sample_rate := 44100;
  audio_chunk_size := 1024;
  default_camera_url := None
|}.

End Config.

(* ===================================================================== *)
(** * threading.Thread, as far as the handlers use it *)
(* ===================================================================== *)
Module Threading.

Record Thread : Type := { thread_name : string; started : bool }.

(** [threading.Thread(target=..., daemon=True, name=name)] *)
Definition Thread_new (name : string) : Thread :=
  {| thread_name := name; started := false |}.

Definition mark_started (t : Thread) : Thread :=
  {| thread_name := thread_name t; started := true |}.

(** [t.join(timeout=5.0)]: returns once the thread has ended or the timeout
    has passed; joining a thread that was never started raises. *)
Definition join (t : Thread) : result unit :=
  if started t then Return tt else Raise RuntimeError.

End Threading.
Import Threading.

(* ===================================================================== *)
(** * app/audio_engine.py *)
(* ===================================================================== *)
Module Audio.

(** [@dataclass class AudioEvent] *)
Record AudioEvent : Type := {
  timestamp : Z;            (* Unix timestamp in milliseconds *)
  amplitude : float;
  description : string;
  device_id : string
}.

(** Handles of the PyAudio library. *)
Record PyAudioH : Type := { pa_handle : Z }.
Record StreamH : Type := { stream_handle : Z }.

(** What the audio subsystem and the thread library do when called. *)
Record Env : Type := {
  PYAUDIO_AVAILABLE : bool;
  pyaudio_PyAudio : result PyAudioH;
  pyaudio_open : PyAudioH -> Z -> option Z -> Z -> result StreamH;
  stream_stop_stream : StreamH -> result unit;
  stream_close : StreamH -> result unit;
  pyaudio_terminate : PyAudioH -> result unit;
  thread_start : Thread -> result unit
}.

Section Listener.
(** [W] is whatever the installed callback acts on. *)
Variable W : Type.

Definition Callback : Type := AudioEvent -> W -> result unit * W.

Record AudioListener : Type := {
  l_device_id : string;     (* self.device_id *)
  device_index : option Z;
  on_event : option Callback;
  _running : bool;
  _thread : option Thread;
  _pyaudio : option PyAudioH;
  _stream : option StreamH;
  threshold : float;
  sample_rate : Z;
  chunk_size : Z;
  _last_event_time : Z;
  _cooldown_ms : Z
}.

(** [AudioListener.__init__] *)
Definition init (settings : Config.Settings) (device_id : string)
    (device_index : option Z) (on_event : option Callback) : AudioListener := {|
  l_device_id := device_id;
  device_index := device_index;
  on_event := on_event;
  _running := false;
  _thread := None;
  _pyaudio := None;
  _stream := None;
  threshold := Config.audio_threshold settings;
  sample_rate := Config.audio_sample_rate settings;
  chunk_size := Config.audio_chunk_size settings;
  _last_event_time := 0;
  _cooldown_ms := 2000
|}.

Definition set_running (b : bool) (l : AudioListener) : AudioListener := {|
  l_device_id := l_device_id l; device_index := device_index l;
  on_event := on_event l; _running := b; _thread := _thread l;
  _pyaudio := _pyaudio l; _stream := _stream l; threshold := threshold l;
  sample_rate := sample_rate l; chunk_size := chunk_size l;
  _last_event_time := _last_event_time l; _cooldown_ms := _cooldown_ms l |}.

Definition set_thread (t : option Thread) (l : AudioListener) : AudioListener := {|
  l_device_id := l_device_id l; device_index := device_index l;
  on_event := on_event l; _running := _running l; _thread := t;
  _pyaudio := _pyaudio l; _stream := _stream l; threshold := threshold l;
  sample_rate := sample_rate l; chunk_size := chunk_size l;
  _last_event_time := _last_event_time l; _cooldown_ms := _cooldown_ms l |}.

Definition set_pyaudio (p : option PyAudioH) (l : AudioListener) : AudioListener := {|
  l_device_id := l_device_id l; device_index := device_index l;
  on_event := on_event l; _running := _running l; _thread := _thread l;
  _pyaudio := p; _stream := _stream l; threshold := threshold l;
  sample_rate := sample_rate l; chunk_size := chunk_size l;
  _last_event_time := _last_event_time l; _cooldown_ms := _cooldown_ms l |}.

Definition set_stream (s : option StreamH) (l : AudioListener) : AudioListener := {|
  l_device_id := l_device_id l; device_index := device_index l;
  on_event := on_event l; _running := _running l; _thread := _thread l;
  _pyaudio := _pyaudio l; _stream := s; threshold := threshold l;
  sample_rate := sample_rate l; chunk_size := chunk_size l;
  _last_event_time := _last_event_time l; _cooldown_ms := _cooldown_ms l |}.

Definition set_last_event_time (t : Z) (l : AudioListener) : AudioListener := {|
  l_device_id := l_device_id l; device_index := device_index l;
  on_event := on_event l; _running := _running l; _thread := _thread l;
  _pyaudio := _pyaudio l; _stream := _stream l; threshold := threshold l;
  sample_rate := sample_rate l; chunk_size := chunk_size l;
  _last_event_time := t; _cooldown_ms := _cooldown_ms l |}.

(** [AudioListener._cleanup]: each release runs under its own
    [try ... except Exception: pass]; the field is cleared after the
    [try] statement. *)
Definition _cleanup_pyaudio (env : Env) (l : AudioListener)
  : result unit * AudioListener :=
  match _pyaudio l with
  | Some p =>
      match try_except (pyaudio_terminate env p) (fun _ => Return tt) with
      | Raise e => (Raise e, l)
      | Return _ => (Return tt, set_pyaudio None l)
      end
  | None => (Return tt, l)
  end.

Definition _cleanup (env : Env) (l : AudioListener) : result unit * AudioListener :=
  match _stream l with
  | Some s =>
      match try_except (_ <- stream_stop_stream env s ;; stream_close env s)
                       (fun _ => Return tt) with
      | Raise e => (Raise e, l)
      | Return _ => _cleanup_pyaudio env (set_stream None l)
      end
  | None => _cleanup_pyaudio env l
  end.

(** [AudioListener.start] *)
Definition start (env : Env) (l : AudioListener) : bool * AudioListener :=
  if negb (PYAUDIO_AVAILABLE env) then (false, l)
  else if _running l then (true, l)
  else
    match pyaudio_PyAudio env with
    | Raise _ => (false, snd (_cleanup env l))
    | Return p =>
        let l1 := set_pyaudio (Some p) l in
        match pyaudio_open env p (sample_rate l1) (device_index l1)
                (chunk_size l1) with
        | Raise _ => (false, snd (_cleanup env l1))
        | Return s =>
            let l2 := set_running true (set_stream (Some s) l1) in
            let t := Thread_new (String.append "audio-" (l_device_id l2)) in
            let l3 := set_thread (Some t) l2 in
            match thread_start env t with
            | Raise _ => (false, snd (_cleanup env l3))
            | Return _ => (true, set_thread (Some (mark_started t)) l3)
            end
        end
    end.

(** [AudioListener.stop] *)
Definition stop (env : Env) (l : AudioListener) : result unit * AudioListener :=
  let l1 := set_running false l in
  match _thread l1 with
  | Some t =>
      match join t with
      | Raise e => (Raise e, l1)
      | Return _ => _cleanup env (set_thread None l1)
      end
  | None => _cleanup env l1
  end.

(** The amplitude bands of [_handle_detection].  The amplitude that
    [_listen_loop] passes in is a [numpy.float32] (the square root of a
    float32 mean, divided by 32768.0), so [amplitude >= 0.9] and
    [amplitude >= 0.8] are float32 comparisons. *)
Definition describe (amplitude : float) : string :=
  if Py.ge32 amplitude 0.9 then
    "Loud noise detected - possible scream or alarm"
  else if Py.ge32 amplitude 0.8 then
    "High amplitude sound detected"
  else
    "Audio threshold exceeded".

(** [AudioListener._handle_detection]; [current_time] is the value read
    from the wall clock, [int(datetime.now().timestamp() * 1000)]. *)
Definition _handle_detection (current_time : Z) (amplitude : float)
    (l : AudioListener) (w : W) : AudioListener * W :=
  if current_time - _last_event_time l <? _cooldown_ms l then (l, w)
  else
    let l' := set_last_event_time current_time l in
    let event := {| timestamp := current_time;
                    amplitude := amplitude;
                    description := describe amplitude;
                    device_id := l_device_id l' |} in
    match on_event l' with
    | Some cb =>
        (* try: self.on_event(event)  except Exception: log *)
        let '(_, w') := cb event w in (l', w')
    | None => (l', w)
    end.

(** One turn of [_listen_loop] from the point where the chunk has been
    read and [normalized_amplitude] computed from it: the threshold
    test, [normalized_amplitude >= self.threshold], of a [numpy.float32]
    against the Python float of the settings. *)
Definition listen_step (current_time : Z) (normalized_amplitude : float)
    (l : AudioListener) (w : W) : AudioListener * W :=
  if Py.ge32 normalized_amplitude (threshold l)
  then _handle_detection current_time normalized_amplitude l w
  else (l, w).

(** A run of above-threshold detections, each with the clock value read
    when it is handled. *)
Fixpoint handle_detections (ds : list (Z * float)) (l : AudioListener) (w : W)
  : AudioListener * W :=
  match ds with
  | [] => (l, w)
  | (t, a) :: ds' =>
      let '(l', w') := _handle_detection t a l w in
      handle_detections ds' l' w'
  end.

(** [class AudioEngine] *)
Record AudioEngine : Type := {
  listeners : list (string * AudioListener);
  _event_callback : option Callback
}.

(** [AudioEngine.__init__] *)
Definition engine_init : AudioEngine :=
  {| listeners := []; _event_callback := None |}.

Definition set_event_callback (callback : Callback) (e : AudioEngine)
  : AudioEngine :=
  {| listeners := listeners e; _event_callback := Some callback |}.

(** [AudioEngine.add_listener] *)
Definition add_listener (env : Env) (settings : Config.Settings)
    (device_id : string) (device_index : option Z) (e : AudioEngine)
  : bool * AudioEngine :=
  if Py.contains (listeners e) device_id then (false, e)
  else
    let listener := init settings device_id device_index (_event_callback e) in
    let '(ok, listener') := start env listener in
    if ok then
      (true, {| listeners := Py.setitem (listeners e) device_id listener';
                _event_callback := _event_callback e |})
    else (false, e).

(** [AudioEngine.remove_listener] *)
Definition remove_listener (env : Env) (device_id : string) (e : AudioEngine)
  : result bool * AudioEngine :=
  match Py.get (listeners e) device_id with
  | None => (Return false, e)
  | Some l =>
      let '(r, l') := stop env l in
      match r with
      | Raise ex =>
          (Raise ex, {| listeners := Py.setitem (listeners e) device_id l';
                        _event_callback := _event_callback e |})
      | Return _ =>
          (Return true, {| listeners := Py.delitem (listeners e) device_id;
                           _event_callback := _event_callback e |})
      end
  end.

(** The loop of [stop_all]: the handlers are stopped in the dict's
    iteration order, each one mutated in place; an exception leaves the
    loop at once. *)
Fixpoint stop_each (env : Env) (d : list (string * AudioListener))
  : result unit * list (string * AudioListener) :=
  match d with
  | [] => (Return tt, [])
  | (k, l) :: d' =>
      let '(r, l') := stop env l in
      match r with
      | Raise ex => (Raise ex, (k, l') :: d')
      | Return _ =>
          let '(r', d'') := stop_each env d' in (r', (k, l') :: d'')
      end
  end.

(** [AudioEngine.stop_all] *)
Definition stop_all (env : Env) (e : AudioEngine) : result unit * AudioEngine :=
  let '(r, d) := stop_each env (listeners e) in
  match r with
  | Raise ex => (Raise ex, {| listeners := d;
                              _event_callback := _event_callback e |})
  | Return _ => (Return tt, {| listeners := [];
                               _event_callback := _event_callback e |})
  end.

End Listener.

Arguments l_device_id {W}. Arguments device_index {W}. Arguments on_event {W}.
Arguments _running {W}. Arguments _thread {W}. Arguments _pyaudio {W}.
Arguments _stream {W}. Arguments threshold {W}. Arguments sample_rate {W}.
Arguments chunk_size {W}. Arguments _last_event_time {W}.
Arguments _cooldown_ms {W}.
Arguments init {W}. Arguments _cleanup {W}. Arguments start {W}.
Arguments stop {W}. Arguments _handle_detection {W}.
Arguments listen_step {W}. Arguments handle_detections {W}.
Arguments set_running {W}. Arguments set_thread {W}.
Arguments set_pyaudio {W}. Arguments set_stream {W}.
Arguments set_last_event_time {W}.
Arguments _cleanup_pyaudio {W}.
Arguments listeners {W}. Arguments _event_callback {W}.
Arguments engine_init {W}. Arguments set_event_callback {W}.
Arguments add_listener {W}. Arguments remove_listener {W}.
Arguments stop_each {W}. Arguments stop_all {W}.

Section Loop.
Context {W : Type}.

(** [AudioListener.is_running] *)
Definition is_running (l : AudioListener W) : bool := _running l.

(** The [while] loop of [_listen_loop].  Each turn is given what reading
    the chunk and computing its normalized RMS amplitude produced (an
    exception there is logged and the loop goes on) and the clock value
    that [_handle_detection] would read in that turn.  The run stops when
    the turns are used up. *)
Fixpoint _listen_loop (turns : list (result float * Z))
    (l : AudioListener W) (w : W) : AudioListener W * W :=
  match turns with
  | [] => (l, w)
  | (reading, now) :: turns' =>
      if _running l && match _stream l with Some _ => true | None => false end
      then
        match reading with
        | Raise _ => _listen_loop turns' l w
        | Return normalized_amplitude =>
            let '(l', w') := listen_step now normalized_amplitude l w in
            _listen_loop turns' l' w'
        end
      else (l, w)
  end.

(** [AudioEngine.get_listener_status]: the dict with keys [device_id],
    [is_running] and [threshold]. *)
Definition get_listener_status (device_id : string) (e : AudioEngine W)
  : option (string * bool * float) :=
  match Py.get (listeners e) device_id with
  | None => None
  | Some listener => Some (device_id, is_running listener, threshold listener)
  end.

(** [AudioEngine.get_all_listeners] *)
Definition get_all_listeners (e : AudioEngine W)
  : list (option (string * bool * float)) :=
  map (fun lid => get_listener_status lid e) (Py.keys (listeners e)).

End Loop.

(** What [p.get_device_info_by_index(i)] returns, as far as
    [list_devices] reads it; a key may be missing. *)
Record DeviceInfo : Type := {
  maxInputChannels : option Z;
  name : option string;
  defaultSampleRate : option float
}.

(** One dict of the list [list_devices] returns. *)
Record Device : Type := {
  index : Z;
  device_name : string;
  device_sample_rate : Z
}.

(** The device queries of a [PyAudio] object. *)
Record Queries : Type := {
  get_device_count : PyAudioH -> result Z;
  get_device_info_by_index : PyAudioH -> Z -> result DeviceInfo
}.

(** The body of the [for] of [list_devices] for index [i]: the device to
    append, if any. *)
Definition device_at (q : Queries) (p : PyAudioH) (i : Z)
  : result (option Device) :=
  info <- get_device_info_by_index q p i ;;
  if 0 <? match maxInputChannels info with Some n => n | None => 0 end
  then
    rate <- match defaultSampleRate info with
            | Some f => Py.int_of_float f
            | None => Return 44100
            end ;;
    Return (Some {| index := i;
                    device_name := match name info with
                                   | Some s => s
                                   | None => "Unknown"
                                   end;
                    device_sample_rate := rate |})
  else Return None.

(** The [for] loop over [range(count)]: the devices appended, and whether
    the loop ran to its end. *)
Fixpoint collect_devices (q : Queries) (p : PyAudioH) (indices : list Z)
  : list Device * bool :=
  match indices with
  | [] => ([], true)
  | i :: indices' =>
      match device_at q p i with
      | Raise _ => ([], false)
      | Return None => collect_devices q p indices'
      | Return (Some d) =>
          let '(ds, finished) := collect_devices q p indices' in
          (d :: ds, finished)
      end
  end.

(** [range(n)] *)
Definition range (n : Z) : list Z :=
  map Z.of_nat (seq 0 (Z.to_nat n)).

(** [AudioEngine.list_devices] (a static method): the list built so far is
    what is returned when anything inside the [try] raises. *)
Definition list_devices (env : Env) (q : Queries) : list Device :=
  if negb (PYAUDIO_AVAILABLE env) then []
  else
    match pyaudio_PyAudio env with
    | Raise _ => []
    | Return p =>
        match get_device_count q p with
        | Raise _ => []
        | Return count => fst (collect_devices q p (range count))
        end
    end.

(** A callback that appends every event it receives to a list: the
    observer through which emitted events are counted. *)
Definition recorder : Callback (list AudioEvent) :=
  fun e w => (Return tt, w ++ [e]).

End Audio.

(* ===================================================================== *)
(** * base64.b64encode *)
(* ===================================================================== *)
Module Base64.

Definition alphabet : string :=
  "ABCDEFGHIJKLMNOPQRSTUVWXYZabcdefghijklmnopqrstuvwxyz0123456789+/".

Definition digit (n : N) : ascii :=
  match String.get (N.to_nat n) alphabet with
  | Some c => c
  | None => "="%char
  end.

(** Three bytes become four digits; a last group of one or two bytes is
    padded with [=]. *)
Fixpoint b64encode (bs : list Byte.byte) : string :=
  match bs with
  | [] => EmptyString
  | [a] =>
      let a := Byte.to_N a in
      String (digit (a / 4))
        (String (digit ((a mod 4) * 16)) "==")
  | [a; b] =>
      let a := Byte.to_N a in
      let b := Byte.to_N b in
      String (digit (a / 4))
        (String (digit ((a mod 4) * 16 + b / 16))
           (String (digit ((b mod 16) * 4)) "="))
  | a :: b :: c :: rest =>
      let a := Byte.to_N a in
      let b := Byte.to_N b in
      let c := Byte.to_N c in
      String (digit (a / 4))
        (String (digit ((a mod 4) * 16 + b / 16))
           (String (digit ((b mod 16) * 4 + c / 64))
              (String (digit (c mod 64)) (b64encode rest))))
  end%N.

End Base64.

(* ===================================================================== *)
(** * app/vision_engine.py *)
(* ===================================================================== *)
Module Vision.

(** [@dataclass class Detection] *)
Record Detection : Type := {
  class_id : Z;
  class_name : string;
  confidence : float;
  bbox : Z * Z * Z * Z;          (* x1, y1, x2, y2 *)
  cropped_image_base64 : string
}.

(** [source: str | int] *)
Inductive Source : Type :=
| SourceStr (s : string)
| SourceInt (i : Z).

(** A [cv2.VideoCapture] object. *)
Record Capture : Type := { cap_source : Source }.

(** An image is an array of rows of pixels, a pixel three channel values. *)
Definition Pixel : Type := (Z * Z * Z)%type.
Definition Frame : Type := list (list Pixel).

Definition height (f : Frame) : Z := Z.of_nat (List.length f).
Definition width (f : Frame) : Z :=
  match f with
  | [] => 0
  | row :: _ => Z.of_nat (List.length row)
  end.

(** [frame[y1:y2, x1:x2]] *)
Definition crop (frame : Frame) (x1 y1 x2 y2 : Z) : Frame :=
  map (fun row => Py.slice row x1 x2) (Py.slice frame y1 y2).

(** One box of an inference result: [box.cls[0]], [box.conf[0]] and
    [box.xyxy[0].tolist()]. *)
Record Box : Type := {
  cls : float;
  conf : float;
  xyxy : float * float * float * float
}.

Record Result : Type := { boxes : option (list Box) }.

(** The inference collaborator: calling the model on a frame, and its
    [names] dict. *)
Record YOLO : Type := {
  infer : Frame -> result (list Result);
  names : Z -> option string
}.

(** What OpenCV, PIL, ultralytics and the thread library do when called. *)
Record Env : Type := {
  cv2_VideoCapture : Source -> result Capture;
  isOpened : Capture -> bool;
  capture_release : Capture -> result unit;
  thread_start : Thread -> result unit;
  YOLO_load : string -> result YOLO;
  cv2_cvtColor_BGR2RGB : Frame -> result Frame;
  Image_fromarray : Frame -> result Frame;
  Image_save_JPEG : Frame -> Z -> result (list Byte.byte)
}.

(** [CameraHandler._encode_image] (a static method) *)
Definition _encode_image (env : Env) (image : Frame) : string :=
  match
    rgb_image <- cv2_cvtColor_BGR2RGB env image ;;
    pil_image <- Image_fromarray env rgb_image ;;
    buffer <- Image_save_JPEG env pil_image 85 ;;
    Return (Base64.b64encode buffer)
  with
  | Return s => s
  | Raise _ => EmptyString      (* except Exception: log, return "" *)
  end.

(** [k in l] on a list of ints *)
Definition mem (k : Z) (l : list Z) : bool := existsb (Z.eqb k) l.

Section Handler.
Variable W : Type.

Definition Callback : Type := string -> Detection -> W -> result unit * W.

Record CameraHandler : Type := {
  camera_id : string;
  source : Source;
  on_detection : option Callback;
  _capture : option Capture;
  _running : bool;
  _thread : option Thread;
  _frame_count : Z;
  _model : option YOLO
}.

(** [CameraHandler.__init__] *)
Definition init (camera_id : string) (source : Source)
    (on_detection : option Callback) : CameraHandler := {|
  camera_id := camera_id;
  source := source;
  on_detection := on_detection;
  _capture := None;
  _running := false;
  _thread := None;
  _frame_count := 0;
  _model := None
|}.

Definition set_capture (c : option Capture) (h : CameraHandler) : CameraHandler := {|
  camera_id := camera_id h; source := source h;
  on_detection := on_detection h; _capture := c; _running := _running h;
  _thread := _thread h; _frame_count := _frame_count h; _model := _model h |}.

Definition set_running (b : bool) (h : CameraHandler) : CameraHandler := {|
  camera_id := camera_id h; source := source h;
  on_detection := on_detection h; _capture := _capture h; _running := b;
  _thread := _thread h; _frame_count := _frame_count h; _model := _model h |}.

Definition set_thread (t : option Thread) (h : CameraHandler) : CameraHandler := {|
  camera_id := camera_id h; source := source h;
  on_detection := on_detection h; _capture := _capture h;
  _running := _running h; _thread := t; _frame_count := _frame_count h;
  _model := _model h |}.

Definition set_frame_count (n : Z) (h : CameraHandler) : CameraHandler := {|
  camera_id := camera_id h; source := source h;
  on_detection := on_detection h; _capture := _capture h;
  _running := _running h; _thread := _thread h; _frame_count := n;
  _model := _model h |}.

Definition set_model (m : option YOLO) (h : CameraHandler) : CameraHandler := {|
  camera_id := camera_id h; source := source h;
  on_detection := on_detection h; _capture := _capture h;
  _running := _running h; _thread := _thread h;
  _frame_count := _frame_count h; _model := m |}.

(** [CameraHandler._get_model] *)
Definition _get_model (env : Env) (settings : Config.Settings)
    (h : CameraHandler) : result YOLO * CameraHandler :=
  match _model h with
  | Some m => (Return m, h)
  | None =>
      match YOLO_load env (Config.model_path settings) with
      | Raise e => (Raise e, h)
      | Return m => (Return m, set_model (Some m) h)
      end
  end.

(** [CameraHandler.start] *)
Definition start (env : Env) (h : CameraHandler) : bool * CameraHandler :=
  if _running h then (true, h)
  else
    match cv2_VideoCapture env (source h) with
    | Raise _ => (false, h)
    | Return c =>
        let h1 := set_capture (Some c) h in
        if negb (isOpened env c) then (false, h1)
        else
          let h2 := set_running true h1 in
          let t := Thread_new (String.append "camera-" (camera_id h2)) in
          let h3 := set_thread (Some t) h2 in
          match thread_start env t with
          | Raise _ => (false, h3)
          | Return _ => (true, set_thread (Some (mark_started t)) h3)
          end
    end.

(** [CameraHandler.stop]: no statement of it is under a [try]. *)
Definition stop (env : Env) (h : CameraHandler) : result unit * CameraHandler :=
  let h1 := set_running false h in
  let '(r, h2) :=
    match _thread h1 with
    | Some t =>
        match join t with
        | Raise e => (Raise e, h1)
        | Return _ => (Return tt, set_thread None h1)
        end
    | None => (Return tt, h1)
    end in
  match r with
  | Raise e => (Raise e, h2)
  | Return _ =>
      match _capture h2 with
      | Some c =>
          match capture_release env c with
          | Raise e => (Raise e, h2)
          | Return _ => (Return tt, set_capture None h2)
          end
      | None => (Return tt, h2)
      end
  end.

(** The body of the inner [for] of [_process_frame], for one box. *)
Definition process_box (env : Env) (settings : Config.Settings)
    (h : CameraHandler) (frame : Frame) (model : YOLO) (box : Box) (w : W)
  : result unit * W :=
  match Py.int_of_float (cls box) with
  | Raise e => (Raise e, w)
  | Return class_id =>
      let confidence := conf box in
      if mem class_id (Config.target_classes settings)
         && (Config.detection_confidence settings <=? confidence)%float
      then
        let '(fx1, fy1, fx2, fy2) := xyxy box in
        match (x1 <- Py.int_of_float fx1 ;;
               y1 <- Py.int_of_float fy1 ;;
               x2 <- Py.int_of_float fx2 ;;
               y2 <- Py.int_of_float fy2 ;;
               Return (x1, y1, x2, y2)) with
        | Raise e => (Raise e, w)
        | Return (x1, y1, x2, y2) =>
            let cropped := crop frame x1 y1 x2 y2 in
            let image_base64 := _encode_image env cropped in
            let class_name :=
              match names model class_id with
              | Some n => n
              | None => "unknown"
              end in
            let detection := {| class_id := class_id;
                                class_name := class_name;
                                confidence := confidence;
                                bbox := (x1, y1, x2, y2);
                                cropped_image_base64 := image_base64 |} in
            match on_detection h with
            | Some cb =>
                (* try: cb(camera_id, detection)  except Exception: log *)
                let '(_, w') := cb (camera_id h) detection w in
                (Return tt, w')
            | None => (Return tt, w)
            end
        end
      else (Return tt, w)
  end.

Fixpoint process_boxes (env : Env) (settings : Config.Settings)
    (h : CameraHandler) (frame : Frame) (model : YOLO) (bs : list Box) (w : W)
  : result unit * W :=
  match bs with
  | [] => (Return tt, w)
  | box :: bs' =>
      let '(r, w') := process_box env settings h frame model box w in
      match r with
      | Raise e => (Raise e, w')
      | Return _ => process_boxes env settings h frame model bs' w'
      end
  end.

Fixpoint process_results (env : Env) (settings : Config.Settings)
    (h : CameraHandler) (frame : Frame) (model : YOLO) (rs : list Result)
    (w : W) : result unit * W :=
  match rs with
  | [] => (Return tt, w)
  | r :: rs' =>
      match boxes r with
      | None => process_results env settings h frame model rs' w
      | Some bs =>
          let '(res, w') := process_boxes env settings h frame model bs w in
          match res with
          | Raise e => (Raise e, w')
          | Return _ => process_results env settings h frame model rs' w'
          end
      end
  end.

(** [CameraHandler._process_frame] *)
Definition _process_frame (env : Env) (settings : Config.Settings)
    (h : CameraHandler) (frame : Frame) (model : YOLO) (w : W)
  : result unit * W :=
  match infer model frame with
  | Raise e => (Raise e, w)
  | Return results => process_results env settings h frame model results w
  end.

(** The condition of the [while] of [_capture_loop]. *)
Definition loop_condition (env : Env) (h : CameraHandler) : bool :=
  _running h &&
  match _capture h with
  | Some c => isOpened env c
  | None => false
  end.

(** What a run of the capture loop leaves behind: how the thread ended, the
    handler, the world, and the frames that were handed to
    [_process_frame], in order. *)
Record LoopRun : Type := {
  ended : result unit;
  handler : CameraHandler;
  world : W;
  submitted : list Frame
}.

(** The [while] loop of [_capture_loop], over the successive outcomes of
    [self._capture.read()]: [None] is a failed read ([ret] false).  The
    run stops when the outcomes are used up. *)
Fixpoint capture_iterations (env : Env) (settings : Config.Settings)
    (model : YOLO) (reads : list (option Frame)) (h : CameraHandler) (w : W)
  : LoopRun :=
  match reads with
  | [] => {| ended := Return tt; handler := h; world := w; submitted := [] |}
  | rd :: reads' =>
      if loop_condition env h then
        match rd with
        | None => capture_iterations env settings model reads' h w
        | Some frame =>
            let h1 := set_frame_count (_frame_count h + 1) h in
            match Py.mod_ (_frame_count h1) (Config.frame_skip settings) with
            | Raise e =>
                {| ended := Raise e; handler := h1; world := w;
                   submitted := [] |}
            | Return m =>
                if negb (m =? 0) then
                  capture_iterations env settings model reads' h1 w
                else
                  (* try: self._process_frame(frame, model)
                     except Exception: log *)
                  let '(_, w') := _process_frame env settings h1 frame model w in
                  let run := capture_iterations env settings model reads' h1 w' in
                  {| ended := ended run; handler := handler run;
                     world := world run;
                     submitted := frame :: submitted run |}
            end
        end
      else {| ended := Return tt; handler := h; world := w; submitted := [] |}
  end.

(** [CameraHandler._capture_loop] *)
Definition _capture_loop (env : Env) (settings : Config.Settings)
    (reads : list (option Frame)) (h : CameraHandler) (w : W) : LoopRun :=
  let '(r, h') := _get_model env settings h in
  match r with
  | Raise e => {| ended := Raise e; handler := h'; world := w; submitted := [] |}
  | Return model => capture_iterations env settings model reads h' w
  end.

(** [class VisionEngine] *)
Record VisionEngine : Type := {
  cameras : list (string * CameraHandler);
  _detection_callback : option Callback
}.

(** [VisionEngine.__init__] *)
Definition engine_init : VisionEngine :=
  {| cameras := []; _detection_callback := None |}.

Definition set_detection_callback (callback : Callback) (e : VisionEngine)
  : VisionEngine :=
  {| cameras := cameras e; _detection_callback := Some callback |}.

(** [VisionEngine.add_camera] *)
Definition add_camera (env : Env) (camera_id : string) (source : Source)
    (e : VisionEngine) : bool * VisionEngine :=
  if Py.contains (cameras e) camera_id then (false, e)
  else
    let handler := init camera_id source (_detection_callback e) in
    let '(ok, handler') := start env handler in
    if ok then
      (true, {| cameras := Py.setitem (cameras e) camera_id handler';
                _detection_callback := _detection_callback e |})
    else (false, e).

(** [VisionEngine.remove_camera] *)
Definition remove_camera (env : Env) (camera_id : string) (e : VisionEngine)
  : result bool * VisionEngine :=
  match Py.get (cameras e) camera_id with
  | None => (Return false, e)
  | Some h =>
      let '(r, h') := stop env h in
      match r with
      | Raise ex =>
          (Raise ex, {| cameras := Py.setitem (cameras e) camera_id h';
                        _detection_callback := _detection_callback e |})
      | Return _ =>
          (Return true, {| cameras := Py.delitem (cameras e) camera_id;
                           _detection_callback := _detection_callback e |})
      end
  end.

(** [VisionEngine.get_camera_status] *)
Definition get_camera_status (camera_id : string) (e : VisionEngine)
  : option (string * Source * bool) :=
  match Py.get (cameras e) camera_id with
  | None => None
  | Some h => Some (camera_id, source h, _running h)
  end.

(** The loop of [stop_all]: the handlers are stopped in the dict's
    iteration order, each one mutated in place; an exception leaves the
    loop at once. *)
Fixpoint stop_each (env : Env) (d : list (string * CameraHandler))
  : result unit * list (string * CameraHandler) :=
  match d with
  | [] => (Return tt, [])
  | (k, h) :: d' =>
      let '(r, h') := stop env h in
      match r with
      | Raise ex => (Raise ex, (k, h') :: d')
      | Return _ =>
          let '(r', d'') := stop_each env d' in (r', (k, h') :: d'')
      end
  end.

(** [VisionEngine.stop_all] *)
Definition stop_all (env : Env) (e : VisionEngine) : result unit * VisionEngine :=
  let '(r, d) := stop_each env (cameras e) in
  match r with
  | Raise ex => (Raise ex, {| cameras := d;
                              _detection_callback := _detection_callback e |})
  | Return _ => (Return tt, {| cameras := [];
                               _detection_callback := _detection_callback e |})
  end.

End Handler.

Arguments camera_id {W}. Arguments source {W}. Arguments on_detection {W}.
Arguments _capture {W}. Arguments _running {W}. Arguments _thread {W}.
Arguments _frame_count {W}. Arguments _model {W}.
Arguments init {W}. Arguments set_capture {W}. Arguments set_running {W}.
Arguments set_thread {W}. Arguments set_frame_count {W}.
Arguments set_model {W}. Arguments _get_model {W}. Arguments start {W}.
Arguments stop {W}. Arguments process_box {W}. Arguments process_boxes {W}.
Arguments process_results {W}. Arguments _process_frame {W}.
Arguments loop_condition {W}. Arguments capture_iterations {W}.
Arguments _capture_loop {W}.
Arguments ended {W}. Arguments handler {W}. Arguments world {W}.
Arguments submitted {W}.
Arguments cameras {W}. Arguments _detection_callback {W}.
Arguments engine_init {W}. Arguments set_detection_callback {W}.
Arguments add_camera {W}. Arguments remove_camera {W}.
Arguments get_camera_status {W}. Arguments stop_each {W}.
Arguments stop_all {W}.

Section Listing.
Context {W : Type}.

(** [CameraHandler.is_running] *)
Definition is_running (h : CameraHandler W) : bool := _running h.

(** [VisionEngine.get_all_cameras] *)
Definition get_all_cameras (e : VisionEngine W)
  : list (option (string * Source * bool)) :=
  map (fun cid => get_camera_status cid e) (Py.keys (cameras e)).

End Listing.

End Vision.

(* ===================================================================== *)
(** * app/service_connector.py *)
(* ===================================================================== *)
Module Connector.

(** An [httpx.AsyncClient] with its construction arguments. *)
Record Client : Type := {
  timeout_seconds : Z;
  headers : list (string * string)
}.

Record Response : Type := { status_code : Z; text : string }.

(** The JSON body of an alert. *)
Record Payload : Type := {
  cameraId : string;
  alertType : string;
  description : string;
  imageBase64 : string;
  timestamp : Z
}.

(** What the network and the clock do when called. *)
Record Env : Type := {
  post : Client -> string -> Payload -> result Response;
  get : Client -> string -> result Response;
  aclose : Client -> result unit;
  now_ms : Z                 (* int(datetime.now().timestamp() * 1000) *)
}.

Record ServiceConnector : Type := {
  backend_url : string;
  api_key : string;
  client : option Client
}.

(** [ServiceConnector.__init__] *)
Definition init (settings : Config.Settings) : ServiceConnector := {|
  backend_url := Config.backend_url settings;
  api_key := Config.api_key settings;
  client := None
|}.

(** [ServiceConnector._get_client] *)
Definition _get_client (self : ServiceConnector) : Client * ServiceConnector :=
  match client self with
  | Some c => (c, self)
  | None =>
      let c := {| timeout_seconds := 30;
                  headers := [("Content-Type", "application/json");
                              ("X-API-KEY", api_key self)] |} in
      (c, {| backend_url := backend_url self; api_key := api_key self;
             client := Some c |})
  end.

Definition alerts_url (self : ServiceConnector) : string :=
  String.append (backend_url self) "/api/v1/alerts".

Definition health_url (self : ServiceConnector) : string :=
  String.append (backend_url self) "/actuator/health".

(** The dict built by [send_alert] before the request. *)
Definition build_payload (env : Env) (camera_id alert_type description
    image_base64 : string) (timestamp : option Z) : Payload :=
  let timestamp := match timestamp with
                   | None => now_ms env
                   | Some t => t
                   end in
  {| cameraId := camera_id; alertType := alert_type;
     description := description; imageBase64 := image_base64;
     timestamp := timestamp |}.

(** [ServiceConnector.send_alert] *)
Definition send_alert (env : Env) (self : ServiceConnector)
    (camera_id alert_type description image_base64 : string)
    (timestamp : option Z) : result bool * ServiceConnector :=
  let payload := build_payload env camera_id alert_type description
                   image_base64 timestamp in
  let '(client, self') := _get_client self in
  match post env client (alerts_url self') payload with
  | Return response =>
      if (status_code response =? 200) || (status_code response =? 201)
      then (Return true, self')
      else (Return false, self')
  | Raise e =>
      if Py.is_RequestError e
      then (Return false, self')     (* except httpx.RequestError *)
      else (Return false, self')     (* except Exception *)
  end.

(** [ServiceConnector.health_check] *)
Definition health_check (env : Env) (self : ServiceConnector)
  : result bool * ServiceConnector :=
  let '(client, self') := _get_client self in
  match get env client (health_url self') with
  | Return response => (Return (status_code response =? 200), self')
  | Raise _ => (Return false, self')
  end.

(** [ServiceConnector.close] *)
Definition close (env : Env) (self : ServiceConnector)
  : result unit * ServiceConnector :=
  match client self with
  | Some c =>
      match aclose env c with
      | Raise e => (Raise e, self)
      | Return _ => (Return tt, {| backend_url := backend_url self;
                                   api_key := api_key self; client := None |})
      end
  | None => (Return tt, self)
  end.

End Connector.

(* ===================================================================== *)
(** * app/main.py: the event handlers and their synchronous wrappers *)
(* ===================================================================== *)
Module Main.

(** A coroutine object made by calling one of the two [async def]
    handlers. *)
Inductive Coroutine : Type :=
| handle_visual_detection_call (camera_id : string) (detection : Vision.Detection)
| handle_audio_event_call (event : Audio.AudioEvent).

(** The part of the process the callbacks act on: whether the code now
    running is on the thread that runs the event loop, and the tasks
    scheduled on that loop so far. *)
Record World : Type := {
  on_loop_thread : bool;
  tasks : list Coroutine
}.

(** [asyncio.create_task(coro)]: schedules [coro] on the loop running in
    the current thread, and raises [RuntimeError] when the current thread
    runs no loop. *)
Definition asyncio_create_task (coro : Coroutine) (w : World)
  : result unit * World :=
  if on_loop_thread w
  then (Return tt, {| on_loop_thread := true; tasks := tasks w ++ [coro] |})
  else (Raise RuntimeError, w).

(** [sync_visual_callback] *)
Definition sync_visual_callback : Vision.Callback World :=
  fun camera_id detection w =>
    asyncio_create_task (handle_visual_detection_call camera_id detection) w.

(** [sync_audio_callback] *)
Definition sync_audio_callback : Audio.Callback World :=
  fun event w => asyncio_create_task (handle_audio_event_call event) w.

Section Handlers.
(** [s.capitalize()] and [f"{x:.1%}"], as Python computes them. *)
Variable capitalize : string -> string.
Variable format_percent : float -> string.

(** The body of [handle_visual_detection], run on the event loop.  The
    coroutine has no [return]: what [send_alert] answers is dropped and
    [None] is given back. *)
Definition handle_visual_detection (env : Connector.Env)
    (connector : Connector.ServiceConnector) (camera_id : string)
    (detection : Vision.Detection)
  : result unit * Connector.ServiceConnector :=
  let description :=
    String.append (capitalize (Vision.class_name detection))
      (String.append " detected with "
         (String.append (format_percent (Vision.confidence detection))
            " confidence")) in
  let '(sent, connector') :=
    Connector.send_alert env connector camera_id "VISUAL" description
      (Vision.cropped_image_base64 detection) None in
  (_ <- sent ;; Return tt, connector').

(** The body of [handle_audio_event], run on the event loop; it gives
    back [None] as well. *)
Definition handle_audio_event (env : Connector.Env)
    (connector : Connector.ServiceConnector) (event : Audio.AudioEvent)
  : result unit * Connector.ServiceConnector :=
  let '(sent, connector') :=
    Connector.send_alert env connector (Audio.device_id event) "AUDIO"
      (Audio.description event) EmptyString
      (Some (Audio.timestamp event)) in
  (_ <- sent ;; Return tt, connector').

(** Running one scheduled task. *)
Definition run_task (env : Connector.Env)
    (connector : Connector.ServiceConnector) (c : Coroutine)
  : result unit * Connector.ServiceConnector :=
  match c with
  | handle_visual_detection_call camera_id detection =>
      handle_visual_detection env connector camera_id detection
  | handle_audio_event_call event => handle_audio_event env connector event
  end.
End Handlers.

(** The module-level singletons [vision_engine], [audio_engine] and
    [connector]. *)
Record App : Type := {
  vision_engine : Vision.VisionEngine World;
  audio_engine : Audio.AudioEngine World;
  connector : Connector.ServiceConnector
}.

(** The process at import time. *)
Definition app_init (settings : Config.Settings) : App := {|
  vision_engine := Vision.engine_init;
  audio_engine := Audio.engine_init;
  connector := Connector.init settings
|}.

(** Everything outside the process that the endpoints reach. *)
Record Outside : Type := {
  cameras_env : Vision.Env;
  audio_env : Audio.Env;
  audio_queries : Audio.Queries;
  backend : Connector.Env
}.

(** How a request ends: with a response body, with an [HTTPException], or
    with another exception leaving the endpoint function. *)
Inductive Reply (A : Type) : Type :=
| Respond (body : A)
| HTTPException (status_code : Z) (detail : string)
| Unhandled (e : exn).
Arguments Respond {A} body.
Arguments HTTPException {A} status_code detail.
Arguments Unhandled {A} e.

Record StatusResponse : Type := { success : bool; message : string }.

Record HealthResponse : Type := {
  status : string;
  version : string;
  backend_connected : bool;
  cameras_active : Z;
  audio_listeners_active : Z
}.

Section Endpoints.
(** [int(s)] on a string, and [settings.app_version]. *)
Variable int_of_str : string -> result Z.
Variable app_version : string.
Variable settings : Config.Settings.

(** [GET /health] *)
Definition health_check (out : Outside) (app : App)
  : Reply HealthResponse * App :=
  let '(r, connector') := Connector.health_check (backend out) (connector app) in
  let app' := {| vision_engine := vision_engine app;
                 audio_engine := audio_engine app;
                 connector := connector' |} in
  match r with
  | Raise e => (Unhandled e, app')
  | Return backend_connected =>
      (Respond {| status := "healthy";
                  version := app_version;
                  backend_connected := backend_connected;
                  cameras_active :=
                    Z.of_nat (List.length (Vision.cameras (vision_engine app)));
                  audio_listeners_active :=
                    Z.of_nat (List.length (Audio.listeners (audio_engine app)))
               |}, app')
  end.

(** [GET /api/cameras] *)
Definition list_cameras (app : App)
  : list (option (string * Vision.Source * bool)) :=
  Vision.get_all_cameras (vision_engine app).

(** [POST /api/cameras] *)
Definition add_camera (out : Outside) (camera_id source : string) (app : App)
  : Reply StatusResponse * App :=
  match
    match int_of_str source with
    | Return n => Return (Vision.SourceInt n)
    | Raise ValueError => Return (Vision.SourceStr source)
    | Raise e => Raise e
    end
  with
  | Raise e => (Unhandled e, app)
  | Return src =>
      let '(ok, vision') :=
        Vision.add_camera (cameras_env out) camera_id src (vision_engine app) in
      let app' := {| vision_engine := vision';
                     audio_engine := audio_engine app;
                     connector := connector app |} in
      if ok then
        (Respond {| success := true;
                    message := String.append "Camera "
                                 (String.append camera_id " added successfully")
                 |}, app')
      else
        (HTTPException 400 (String.append "Failed to add camera " camera_id),
         app')
  end.

(** [DELETE /api/cameras/{camera_id}] *)
Definition remove_camera (out : Outside) (camera_id : string) (app : App)
  : Reply StatusResponse * App :=
  let '(r, vision') :=
    Vision.remove_camera (cameras_env out) camera_id (vision_engine app) in
  let app' := {| vision_engine := vision';
                 audio_engine := audio_engine app;
                 connector := connector app |} in
  match r with
  | Raise e => (Unhandled e, app')
  | Return true =>
      (Respond {| success := true;
                  message := String.append "Camera "
                               (String.append camera_id " removed successfully")
               |}, app')
  | Return false =>
      (HTTPException 404
         (String.append "Camera " (String.append camera_id " not found")),
       app')
  end.

(** [GET /api/cameras/{camera_id}] *)
Definition get_camera (camera_id : string) (app : App)
  : Reply (string * Vision.Source * bool) :=
  match Vision.get_camera_status camera_id (vision_engine app) with
  | Some st => Respond st
  | None =>
      HTTPException 404
        (String.append "Camera " (String.append camera_id " not found"))
  end.

(** [GET /api/audio/devices] *)
Definition list_audio_devices (out : Outside) : list Audio.Device :=
  Audio.list_devices (audio_env out) (audio_queries out).

(** [GET /api/audio/listeners] *)
Definition list_audio_listeners (app : App)
  : list (option (string * bool * float)) :=
  Audio.get_all_listeners (audio_engine app).

(** [POST /api/audio/listeners] *)
Definition add_audio_listener (out : Outside) (device_id : string)
    (device_index : option Z) (app : App) : Reply StatusResponse * App :=
  let '(ok, audio') :=
    Audio.add_listener (audio_env out) settings device_id device_index
      (audio_engine app) in
  let app' := {| vision_engine := vision_engine app;
                 audio_engine := audio';
                 connector := connector app |} in
  if ok then
    (Respond {| success := true;
                message := String.append "Audio listener "
                             (String.append device_id " added successfully")
             |}, app')
  else
    (HTTPException 400
       (String.append "Failed to add audio listener " device_id), app').

(** [DELETE /api/audio/listeners/{device_id}] *)
Definition remove_audio_listener (out : Outside) (device_id : string)
    (app : App) : Reply StatusResponse * App :=
  let '(r, audio') :=
    Audio.remove_listener (audio_env out) device_id (audio_engine app) in
  let app' := {| vision_engine := vision_engine app;
                 audio_engine := audio';
                 connector := connector app |} in
  match r with
  | Raise e => (Unhandled e, app')
  | Return true =>
      (Respond {| success := true;
                  message := String.append "Audio listener "
                               (String.append device_id " removed successfully")
               |}, app')
  | Return false =>
      (HTTPException 404
         (String.append "Audio listener "
            (String.append device_id " not found")), app')
  end.

(** [lifespan], up to the [yield]. *)
Definition lifespan_startup (out : Outside) (app : App) : App :=
  let vision := Vision.set_detection_callback sync_visual_callback
                  (vision_engine app) in
  let audio := Audio.set_event_callback sync_audio_callback
                 (audio_engine app) in
  let vision' :=
    match Config.default_camera_url settings with
    | Some (String c url) =>
        snd (Vision.add_camera (cameras_env out) "default"
               (Vision.SourceStr (String c url)) vision)
    | _ => vision          (* None or the empty string *)
    end in
  {| vision_engine := vision'; audio_engine := audio;
     connector := connector app |}.

(** [lifespan], after the [yield]. *)
Definition lifespan_shutdown (out : Outside) (app : App) : result unit * App :=
  let '(r1, vision') := Vision.stop_all (cameras_env out) (vision_engine app) in
  match r1 with
  | Raise e => (Raise e, {| vision_engine := vision';
                            audio_engine := audio_engine app;
                            connector := connector app |})
  | Return _ =>
      let '(r2, audio') := Audio.stop_all (audio_env out) (audio_engine app) in
      match r2 with
      | Raise e => (Raise e, {| vision_engine := vision';
                                audio_engine := audio';
                                connector := connector app |})
      | Return _ =>
          let '(r3, connector') :=
            Connector.close (backend out) (connector app) in
          (r3, {| vision_engine := vision'; audio_engine := audio';
                  connector := connector' |})
      end
  end.

End Endpoints.

End Main.

(* ===================================================================== *)
(** * Vocabulary of the statements, and the scenarios they are run on *)
(* ===================================================================== *)

Import Audio.
Import Vision.

(** Events whose timestamps climb by at least [c] from one to the next,
    the first one at least [c] after [t0]. *)
Inductive spaced (c : Z) : Z -> list AudioEvent -> Prop :=
| spaced_nil t0 : spaced c t0 []
| spaced_cons t0 e evs :
    c <= timestamp e - t0 -> spaced c (timestamp e) evs ->
    spaced c t0 (e :: evs).

(** No two events of the list are less than [c] apart. *)
Definition separated (c : Z) (evs : list AudioEvent) : Prop :=
  forall (i j : nat) (ei ej : AudioEvent),
    i <> j -> nth_error evs i = Some ei -> nth_error evs j = Some ej ->
    c <= Z.abs (timestamp ei - timestamp ej).

(** The frames of the successful reads, in order. *)
Definition frames_read (reads : list (option Frame)) : list Frame :=
  flat_map (fun rd => match rd with Some f => [f] | None => [] end) reads.



(** A listener as [add_listener] makes it, wired to the recording
    callback. *)
Definition recording_listener : AudioListener (list AudioEvent) :=
  Audio.init Config.defaults "mic-1" None (Some recorder).

(** An environment in which every library call succeeds: the camera
    opens, threads start, releases return, the model loads and finds
    nothing, and the JPEG encoder returns the three bytes of "Man". *)
Definition quiet_model : YOLO :=
  {| infer := fun _ => Return []; names := fun _ => None |}.

Definition fair_weather : Vision.Env := {|
  cv2_VideoCapture := fun src => Return {| cap_source := src |};
  isOpened := fun _ => true;
  capture_release := fun _ => Return tt;
  Vision.thread_start := fun _ => Return tt;
  YOLO_load := fun _ => Return quiet_model;
  cv2_cvtColor_BGR2RGB := fun f => Return f;
  Image_fromarray := fun f => Return f;
  Image_save_JPEG := fun _ _ => Return [Byte.x4d; Byte.x61; Byte.x6e]
|}.

(** A one-pixel frame that carries its number. *)
Definition frame_no (k : Z) : Frame := [[(k, k, k)]].

(** A camera handler after a successful [start]. *)
Definition started_camera {W : Type} : CameraHandler W :=
  snd (start fair_weather (Vision.init "cam-1" (SourceInt 0) None)).

(** A callback that appends every detection it receives, with the camera
    id, to a list. *)
Definition detection_recorder : Vision.Callback (list (string * Detection)) :=
  fun camera_id detection w => (Return tt, w ++ [(camera_id, detection)]).

(** A 4 x 4 frame whose pixel at row [r], column [c] is [(r, c, 0)]. *)
Definition grid4 : Frame :=
  map (fun r => map (fun c => (r, c, 0)) [0; 1; 2; 3]) [0; 1; 2; 3].

(** A person box with confidence 0.9 whose left edge lies three pixels
    outside the frame. *)
Definition box_left_of_frame : Box :=
  {| cls := 0%float; conf := 0.9%float;
     xyxy := ((-3)%float, 0%float, 3%float, 2%float) |}.

Definition recording_camera : CameraHandler (list (string * Detection)) :=
  snd (start fair_weather
         (Vision.init "cam-1" (SourceInt 0) (Some detection_recorder))).

(** All rows of the frame have the same length. *)
Definition rectangular (f : Frame) : Prop :=
  Forall (fun row => Z.of_nat (List.length row) = width f) f.

(** The coordinates lie in the pixel range of the frame. *)
Definition within_frame (f : Frame) (b : Z * Z * Z * Z) : Prop :=
  let '(x1, y1, x2, y2) := b in
  0 <= x1 <= x2 /\ x2 <= width f /\ 0 <= y1 <= y2 /\ y2 <= height f.

(** An audio subsystem in which every call succeeds. *)
Definition fair_audio : Audio.Env := {|
  PYAUDIO_AVAILABLE := true;
  pyaudio_PyAudio := Return {| pa_handle := 1 |};
  pyaudio_open := fun _ _ _ _ => Return {| stream_handle := 1 |};
  stream_stop_stream := fun _ => Return tt;
  stream_close := fun _ => Return tt;
  pyaudio_terminate := fun _ => Return tt;
  Audio.thread_start := fun _ => Return tt
|}.

(** A vision engine after [set_detection_callback] and one successful
    [add_camera]. *)
Definition one_camera : VisionEngine (list (string * Detection)) :=
  snd (add_camera fair_weather "cam-1" (SourceStr "rtsp://door")
         (set_detection_callback detection_recorder Vision.engine_init)).

(** An audio engine after [set_event_callback] and one successful
    [add_listener]. *)
Definition one_listener : AudioEngine (list AudioEvent) :=
  snd (add_listener fair_audio Config.defaults "mic-1" None
         (set_event_callback recorder Audio.engine_init)).

(** A camera environment in which no source can be opened, and an audio
    environment in which opening the input stream throws. *)
Definition no_camera : Vision.Env := {|
  cv2_VideoCapture := fun src => Return {| cap_source := src |};
  isOpened := fun _ => false;
  capture_release := fun _ => Return tt;
  Vision.thread_start := fun _ => Return tt;
  YOLO_load := fun _ => Return quiet_model;
  cv2_cvtColor_BGR2RGB := fun f => Return f;
  Image_fromarray := fun f => Return f;
  Image_save_JPEG := fun _ _ => Return []
|}.

Definition no_microphone : Audio.Env := {|
  PYAUDIO_AVAILABLE := true;
  pyaudio_PyAudio := Return {| pa_handle := 1 |};
  pyaudio_open := fun _ _ _ _ => Raise OtherException;
  stream_stop_stream := fun _ => Return tt;
  stream_close := fun _ => Return tt;
  pyaudio_terminate := fun _ => Return tt;
  Audio.thread_start := fun _ => Return tt
|}.

(** The camera environment in which [release] throws, and the audio
    environment in which every release call throws. *)
Definition release_throws : Vision.Env := {|
  cv2_VideoCapture := cv2_VideoCapture fair_weather;
  isOpened := isOpened fair_weather;
  capture_release := fun _ => Raise OtherException;
  Vision.thread_start := Vision.thread_start fair_weather;
  YOLO_load := YOLO_load fair_weather;
  cv2_cvtColor_BGR2RGB := cv2_cvtColor_BGR2RGB fair_weather;
  Image_fromarray := Image_fromarray fair_weather;
  Image_save_JPEG := Image_save_JPEG fair_weather
|}.

Definition audio_release_throws : Audio.Env := {|
  PYAUDIO_AVAILABLE := true;
  pyaudio_PyAudio := pyaudio_PyAudio fair_audio;
  pyaudio_open := pyaudio_open fair_audio;
  stream_stop_stream := fun _ => Raise OtherException;
  stream_close := fun _ => Raise OtherException;
  pyaudio_terminate := fun _ => Raise OtherException;
  Audio.thread_start := Audio.thread_start fair_audio
|}.

(** Registries with two running handlers each. *)
Definition two_cameras : VisionEngine (list (string * Detection)) :=
  snd (add_camera fair_weather "cam-2" (SourceInt 1) one_camera).

Definition two_listeners : AudioEngine (list AudioEvent) :=
  snd (add_listener fair_audio Config.defaults "mic-2" (Some 1) one_listener).

(** The thread of the handler, if any, has been started: [join] on it
    returns. *)
Definition joinable (t : option Thread) : Prop :=
  match t with
  | Some t => started t = true
  | None => True
  end.

(** A listener after a successful [start]. *)
Definition started_listener : AudioListener (list AudioEvent) :=
  snd (Audio.start fair_audio recording_listener).

(** A backend that answers every request with the given status, and one
    that cannot be reached. *)
Definition backend_answering (status : Z) : Connector.Env := {|
  Connector.post := fun _ _ _ =>
    Return {| Connector.status_code := status; Connector.text := "body" |};
  Connector.get := fun _ _ =>
    Return {| Connector.status_code := status; Connector.text := "body" |};
  Connector.aclose := fun _ => Return tt;
  Connector.now_ms := 1700000000000
|}.

Definition backend_unreachable : Connector.Env := {|
  Connector.post := fun _ _ _ => Raise RequestError;
  Connector.get := fun _ _ => Raise RequestError;
  Connector.aclose := fun _ => Return tt;
  Connector.now_ms := 1700000000000
|}.

Definition the_connector : Connector.ServiceConnector :=
  Connector.init Config.defaults.

(** The image has no pixel. *)
Definition empty_image (f : Frame) : bool :=
  match f with
  | [] => true
  | [] :: _ => true
  | _ => false
  end.

(** As [fair_weather], but the colour conversion throws on an image
    without pixels, as OpenCV does. *)
Definition cv2_rejects_empty : Vision.Env := {|
  cv2_VideoCapture := cv2_VideoCapture fair_weather;
  isOpened := isOpened fair_weather;
  capture_release := capture_release fair_weather;
  Vision.thread_start := Vision.thread_start fair_weather;
  YOLO_load := YOLO_load fair_weather;
  cv2_cvtColor_BGR2RGB :=
    fun f => if empty_image f then Raise OtherException else Return f;
  Image_fromarray := Image_fromarray fair_weather;
  Image_save_JPEG := Image_save_JPEG fair_weather
|}.

(** A person box of zero width. *)
Definition box_of_no_width : Box :=
  {| cls := 0%float; conf := 0.9%float;
     xyxy := (2%float, 0%float, 2%float, 2%float) |}.

(** The world as a capture thread sees it: not on the loop's thread. *)
Definition on_capture_thread (scheduled : list Main.Coroutine) : Main.World :=
  {| Main.on_loop_thread := false; Main.tasks := scheduled |}.

(** A camera and a listener as [lifespan] wires them: the engines get the
    two synchronous wrappers as callbacks before any device is added. *)
Definition wired_camera : CameraHandler Main.World :=
  snd (start fair_weather
         (Vision.init "cam-1" (SourceInt 0) (Some Main.sync_visual_callback))).

Definition wired_listener : AudioListener Main.World :=
  snd (Audio.start fair_audio
         (Audio.init Config.defaults "mic-1" None
            (Some Main.sync_audio_callback))).

(** A frame on which the model finds one person with confidence 0.9. *)
Definition person_box : Box :=
  {| cls := 0%float; conf := 0.9%float;
     xyxy := (1%float, 0%float, 3%float, 2%float) |}.

Definition person_model : YOLO :=
  {| infer := fun _ => Return [{| boxes := Some [person_box] |}];
     names := fun k => if k =? 0 then Some "person" else None |}.

(** Every listener of the registry is filed under its own device id, is
    running, and has a thread that can be joined; no id occurs twice. *)
Definition audio_registry_ok {W : Type} (e : AudioEngine W) : Prop :=
  NoDup (Py.keys (listeners e)) /\
  Forall (fun kl => l_device_id (snd kl) = fst kl /\
                    Audio._running (snd kl) = true /\
                    joinable (Audio._thread (snd kl)))
         (listeners e).

(** Every camera of the registry is filed under its own camera id; no id
    occurs twice. *)
Definition vision_registry_ok {W : Type} (e : VisionEngine W) : Prop :=
  NoDup (Py.keys (cameras e)) /\
  Forall (fun kh => camera_id (snd kh) = fst kh) (cameras e).

(** What holds of a detection that camera [cid] reports from a frame: it is
    filed under the camera's id, its class is a target class, its
    confidence reaches the configured one, and its image is the encoding
    of the frame cropped at its own box. *)
Definition genuine_detection (env : Vision.Env) (settings : Config.Settings)
    (cid : string) (frame : Frame) (report : string * Detection) : Prop :=
  fst report = cid /\
  mem (class_id (snd report)) (Config.target_classes settings) = true /\
  (Config.detection_confidence settings <=? confidence (snd report))%float
    = true /\
  cropped_image_base64 (snd report) =
    (let '(x1, y1, x2, y2) := bbox (snd report) in
     _encode_image env (crop frame x1 y1 x2 y2)).

(** A base64 digit or the padding character. *)
Definition base64_char (c : ascii) : Prop :=
  In c (list_ascii_of_string Base64.alphabet) \/ c = "="%char.

(** Three audio devices: a microphone, a loudspeaker without input
    channels, and a line input that does not tell its name or rate. *)
Definition three_devices : Queries := {|
  get_device_count := fun _ => Return 3;
  get_device_info_by_index := fun _ i =>
    if i =? 0 then
      Return {| maxInputChannels := Some 2; Audio.name := Some "Microphone";
                defaultSampleRate := Some 48000%float |}
    else if i =? 1 then
      Return {| maxInputChannels := Some 0; Audio.name := Some "Speakers";
                defaultSampleRate := Some 44100%float |}
    else
      Return {| maxInputChannels := Some 1; Audio.name := None;
                defaultSampleRate := None |}
|}.

(** Everything outside the process behaving well, with a backend that
    answers 200. *)
Definition calm_outside : Main.Outside := {|
  Main.cameras_env := fair_weather;
  Main.audio_env := fair_audio;
  Main.audio_queries := three_devices;
  Main.backend := backend_answering 200
|}.

(** The process after start-up with the default settings and one
    [POST /api/cameras] for camera ["lobby"] on device 0. *)
Definition app_with_lobby (int_of_str : string -> result Z) : Main.App :=
  snd (Main.add_camera int_of_str calm_outside "lobby" "0"
         (Main.lifespan_startup Config.defaults calm_outside
            (Main.app_init Config.defaults))).

(** A stand-in for [int] on the strings used in the scenarios. *)
Definition int_of_sample (s : string) : result Z :=
  if String.eqb s "0" then Return 0
  else if String.eqb s "1" then Return 1
  else Raise ValueError.

(** A model that finds one person, in a box of no width. *)
Definition no_width_model : YOLO :=
  {| infer := fun _ => Return [{| boxes := Some [box_of_no_width] |}];
     names := fun k => if k =? 0 then Some "person" else None |}.

(** The detection made from the box of no width: its image is empty. *)
Definition imageless_person : Detection :=
  {| class_id := 0; class_name := "person"; confidence := 0.9%float;
     bbox := (2, 0, 2, 2); cropped_image_base64 := EmptyString |}.

(* ===================================================================== *)
(** * Properties *)
(* ===================================================================== *)

(** ** The Python primitives on sample values *)

Example int_of_float_samples :
  Py.int_of_float 2.75%float = Return 2 /\
  Py.int_of_float (-2.75)%float = Return (-2) /\
  Py.int_of_float (-0.5)%float = Return 0 /\
  Py.int_of_float 1e3%float = Return 1000 /\
  Py.int_of_float infinity = Raise OverflowError /\
  Py.int_of_float nan = Raise ValueError.
Proof. repeat split; reflexivity. Qed.

Example slice_samples :
  Py.slice [10; 11; 12; 13] (-3) 3 = [11; 12] /\
  Py.slice [10; 11; 12; 13] 1 10 = [11; 12; 13] /\
  Py.slice [10; 11; 12; 13] 3 1 = [] /\
  Py.slice [10; 11; 12; 13] (-9) 2 = [10; 11].
Proof. repeat split; reflexivity. Qed.

Example mod_samples :
  Py.mod_ 7 2 = Return 1 /\ Py.mod_ (-7) 2 = Return 1 /\
  Py.mod_ 7 (-2) = Return (-1) /\ Py.mod_ 7 0 = Raise ZeroDivisionError.
Proof. repeat split; reflexivity. Qed.

(** ** Comparisons of binary64 values *)

Lemma SFcompare_swap (x y : spec_float) :
  SFcompare y x = option_map CompOpp (SFcompare x y).
Proof.
  destruct x as [sx|sx| |sx mx ex], y as [sy|sy| |sy my ey];
    simpl; try reflexivity;
    try (destruct sx; reflexivity); try (destruct sy; reflexivity);
    try (destruct sx, sy; reflexivity).
  destruct sx, sy; simpl; try reflexivity;
    rewrite (Z.compare_antisym ex ey);
    destruct (ex ?= ey) eqn:E; simpl; try reflexivity;
    rewrite (Pos.compare_cont_antisym mx my Eq); simpl; reflexivity.
Qed.

Lemma float_ltb_not_leb (a b : float) :
  (a <? b)%float = true -> (b <=? a)%float = false.
Proof.
  rewrite ltb_spec, leb_spec. unfold SFltb, SFleb.
  rewrite (SFcompare_swap (Prim2SF a) (Prim2SF b)).
  destruct (SFcompare (Prim2SF a) (Prim2SF b)) as [[| |]|]; simpl;
    congruence.
Qed.

Lemma float_not_leb_ltb (a b c : float) :
  (c <=? a)%float = true -> (b <=? b)%float = true ->
  (b <=? a)%float = false -> (a <? b)%float = true.
Proof.
  rewrite !leb_spec, ltb_spec. unfold SFltb, SFleb.
  rewrite (SFcompare_swap (Prim2SF a) (Prim2SF b)).
  destruct (Prim2SF a), (Prim2SF b), (Prim2SF c); simpl; try congruence;
    repeat match goal with
           | |- context [if ?s then _ else _] => destruct s; simpl
           | |- context [match ?s with true => _ | false => _ end] =>
               destruct s; simpl
           end; try congruence;
    repeat match goal with
           | |- context [(?x ?= ?y)%Z] => destruct (x ?= y)%Z; simpl
           | |- context [Pos.compare_cont Eq ?x ?y] =>
               destruct (Pos.compare_cont Eq x y); simpl
           end; congruence.
Qed.

(** ** The audio listener: amplitude bands and cooldown *)

Section AudioFacts.
Context {W : Type}.
Implicit Types (l : AudioListener W) (w : W).

Lemma handle_detection_suppressed l w now a :
  now - _last_event_time l < _cooldown_ms l ->
  _handle_detection now a l w = (l, w).
Proof.
  intros H. unfold _handle_detection.
  apply Z.ltb_lt in H. now rewrite H.
Qed.

Lemma handle_detection_accepted l w now a cb :
  on_event l = Some cb ->
  _cooldown_ms l <= now - _last_event_time l ->
  _handle_detection now a l w =
    (set_last_event_time now l,
     snd (cb {| timestamp := now; amplitude := a;
                description := describe a;
                device_id := l_device_id l |} w)).
Proof.
  intros Hcb H. unfold _handle_detection.
  apply Z.ltb_ge in H. rewrite H. simpl. rewrite Hcb.
  now destruct (cb _ w).
Qed.

(** The listener's own state after a detection does not depend on the
    callback or on what the callback acts on. *)
Lemma handle_detection_state l w now a :
  fst (_handle_detection now a l w) =
    if now - _last_event_time l <? _cooldown_ms l then l
    else set_last_event_time now l.
Proof.
  unfold _handle_detection.
  destruct (now - _last_event_time l <? _cooldown_ms l); [reflexivity|].
  simpl. destruct (on_event l) as [cb|]; [|reflexivity].
  now destruct (cb _ w).
Qed.

End AudioFacts.

Lemma describe_loud a :
  (Py.float32 0.9 <=? a)%float = true ->
  describe a = "Loud noise detected - possible scream or alarm".
Proof. intros H. unfold describe, Py.ge32. now rewrite H. Qed.

Lemma describe_high a :
  (Py.float32 0.8 <=? a)%float = true ->
  (a <? Py.float32 0.9)%float = true ->
  describe a = "High amplitude sound detected".
Proof.
  intros H1 H2. unfold describe, Py.ge32.
  now rewrite (float_ltb_not_leb _ _ H2), H1.
Qed.

Lemma describe_otherwise a :
  (Py.float32 0.9 <=? a)%float = false ->
  ((Py.float32 0.8 <=? a) && (a <? Py.float32 0.9))%float = false ->
  describe a = "Audio threshold exceeded".
Proof.
  intros H1 H2. unfold describe, Py.ge32. rewrite H1.
  destruct (Py.float32 0.8 <=? a)%float eqn:H3; [|reflexivity].
  simpl in H2.
  assert (Hnn : (Py.float32 0.9 <=? Py.float32 0.9)%float = true)
    by (vm_compute; reflexivity).
  rewrite (float_not_leb_ltb a (Py.float32 0.9) (Py.float32 0.8) H3 Hnn H1)
    in H2.
  discriminate.
Qed.

(** C8, as the code has it: the amplitude is a float32 and the two marks
    are compared with it in float32, so the bands are cut at the float32
    values nearest to 0.9 and to 0.8, which are 0.8999999761581421 and
    0.800000011920929.  An accepted detection of amplitude [a] hands the
    callback an event whose description is "Loud noise detected - possible
    scream or alarm" when [a >= float32(0.9)], "High amplitude sound
    detected" when [float32(0.8) <= a < float32(0.9)], and "Audio threshold
    exceeded" otherwise. *)
Theorem C8_description_by_float32_band :
  forall (W : Type) (l : AudioListener W) (cb : Audio.Callback W) (w : W)
         (now : Z) (a : float),
    on_event l = Some cb ->
    _cooldown_ms l <= now - _last_event_time l ->
    exists d : string,
      _handle_detection now a l w =
        (set_last_event_time now l,
         snd (cb {| timestamp := now; amplitude := a; description := d;
                    device_id := l_device_id l |} w)) /\
      ((Py.float32 0.9 <=? a)%float = true ->
         d = "Loud noise detected - possible scream or alarm") /\
      ((Py.float32 0.8 <=? a)%float = true ->
       (a <? Py.float32 0.9)%float = true ->
         d = "High amplitude sound detected") /\
      ((Py.float32 0.9 <=? a)%float = false ->
       ((Py.float32 0.8 <=? a) && (a <? Py.float32 0.9))%float = false ->
         d = "Audio threshold exceeded") /\
      Py.float32 0.9 = 0x1.ccccccp-1%float /\
      Py.float32 0.8 = 0x1.99999ap-1%float.
Proof.
  intros W l cb w now a Hcb Hok.
  exists (describe a). split.
  - now apply handle_detection_accepted.
  - split; [apply describe_loud|].
    split; [apply describe_high|].
    split; [apply describe_otherwise|].
    split; vm_compute; reflexivity.
Qed.

Lemma C8_description_by_float32_band_witness :
  exists d : string,
    _handle_detection 1700000000000 (Py.float32 0.85) recording_listener [] =
      (set_last_event_time 1700000000000 recording_listener,
       snd (recorder {| timestamp := 1700000000000;
                        amplitude := Py.float32 0.85;
                        description := d; device_id := "mic-1" |} [])) /\
    ((Py.float32 0.8 <=? Py.float32 0.85)%float = true ->
     (Py.float32 0.85 <? Py.float32 0.9)%float = true ->
       d = "High amplitude sound detected").
Proof.
  destruct (C8_description_by_float32_band (list AudioEvent)
              recording_listener recorder [] 1700000000000 (Py.float32 0.85)
              eq_refl ltac:(vm_compute; discriminate))
    as (d & Hrun & _ & Hhigh & _).
  exists d. split; [exact Hrun | exact Hhigh].
Defined.

(** C8 fails as stated: 0.8999999761581421 is a float32 amplitude with
    [0.8 <= a < 0.9], and the event made for it says "Loud noise
    detected - possible scream or alarm", not "High amplitude sound
    detected". *)
Lemma C8_just_below_09_is_loud :
  Py.float32 0x1.ccccccp-1 = 0x1.ccccccp-1%float /\
  (0.8 <=? 0x1.ccccccp-1)%float = true /\
  (0x1.ccccccp-1 <? 0.9)%float = true /\
  snd (_handle_detection 1700000000000 0x1.ccccccp-1%float
         recording_listener [])
  = [{| timestamp := 1700000000000; amplitude := 0x1.ccccccp-1%float;
        description := "Loud noise detected - possible scream or alarm";
        device_id := "mic-1" |}].
Proof. repeat split; vm_compute; reflexivity. Qed.

(** The three amplitudes of the scenario as float32 values, through the
    threshold test of the listen loop with the default threshold 0.7. *)
Example amplitude_095 :
  snd (listen_step 1700000000000 (Py.float32 0.95) recording_listener []) =
    [{| timestamp := 1700000000000; amplitude := Py.float32 0.95;
        description := "Loud noise detected - possible scream or alarm";
        device_id := "mic-1" |}].
Proof. vm_compute. reflexivity. Qed.

Example amplitude_085 :
  snd (listen_step 1700000000000 (Py.float32 0.85) recording_listener []) =
    [{| timestamp := 1700000000000; amplitude := Py.float32 0.85;
        description := "High amplitude sound detected";
        device_id := "mic-1" |}].
Proof. vm_compute. reflexivity. Qed.

Example amplitude_072 :
  snd (listen_step 1700000000000 (Py.float32 0.72) recording_listener []) =
    [{| timestamp := 1700000000000; amplitude := Py.float32 0.72;
        description := "Audio threshold exceeded";
        device_id := "mic-1" |}].
Proof. vm_compute. reflexivity. Qed.

Example amplitude_below_threshold :
  snd (listen_step 1700000000000 (Py.float32 0.69) recording_listener [])
    = [].
Proof. vm_compute. reflexivity. Qed.

(** The float32 nearest to the threshold 0.7 lies below 0.7 and passes the
    threshold test. *)
Example amplitude_at_float32_threshold :
  Py.float32 0.7 = 0x1.666666p-1%float /\
  (0x1.666666p-1 <? 0.7)%float = true /\
  map description
    (snd (listen_step 1700000000000 0x1.666666p-1%float recording_listener []))
    = ["Audio threshold exceeded"].
Proof. repeat split; vm_compute; reflexivity. Qed.

Lemma spaced_lower c t0 evs :
  0 <= c -> spaced c t0 evs ->
  Forall (fun e => c <= timestamp e - t0) evs.
Proof.
  intros Hc H. induction H as [t0|t0 e evs Hle Hsp IH]; constructor.
  - exact Hle.
  - eapply Forall_impl; [|exact IH]. simpl. intros e' He'. lia.
Qed.

Lemma spaced_separated c t0 evs :
  0 <= c -> spaced c t0 evs -> separated c evs.
Proof.
  intros Hc H. induction H as [t0|t0 e evs Hle Hsp IH].
  - intros [|i] j ei ej _ Hi; discriminate.
  - pose proof (spaced_lower c _ evs Hc Hsp) as Hlow.
    rewrite Forall_forall in Hlow.
    intros [|i] [|j] ei ej Hne Hi Hj; simpl in Hi, Hj.
    + congruence.
    + injection Hi as <-. apply nth_error_In in Hj.
      specialize (Hlow _ Hj). lia.
    + injection Hj as <-. apply nth_error_In in Hi.
      specialize (Hlow _ Hi). lia.
    + apply (IH i j); auto.
Qed.

Lemma handle_detections_spaced (ds : list (Z * float)) :
  forall (l : AudioListener (list AudioEvent)) (w0 : list AudioEvent),
    on_event l = Some recorder ->
    exists evs,
      snd (handle_detections ds l w0) = w0 ++ evs /\
      spaced (_cooldown_ms l) (_last_event_time l) evs.
Proof.
  induction ds as [|[t a] ds IH]; intros l w0 Hcb; simpl.
  - exists []. split; [now rewrite app_nil_r | constructor].
  - destruct (Z.lt_ge_cases (t - _last_event_time l) (_cooldown_ms l))
      as [Hlt|Hge].
    + rewrite (handle_detection_suppressed l w0 t a Hlt). now apply IH.
    + rewrite (handle_detection_accepted l w0 t a recorder Hcb Hge).
      simpl.
      destruct (IH (set_last_event_time t l)
                  (w0 ++ [{| timestamp := t; amplitude := a;
                             description := describe a;
                             device_id := l_device_id l |}]) Hcb)
        as (evs & Hrun & Hsp).
      eexists (_ :: evs). split.
      * rewrite Hrun, <- app_assoc. reflexivity.
      * constructor; [exact Hge | exact Hsp].
Qed.

(** C3: on one listener, whatever the sequence of above-threshold
    detections and clock readings, no two events handed to the callback have
    timestamps less than [_cooldown_ms] apart; a detection that comes fewer
    than [_cooldown_ms] after the last accepted one changes nothing (no
    event, last-event time kept), and an accepted one sets the last-event
    time to its own timestamp.  A new listener has [_cooldown_ms] = 2000. *)
Theorem C3_cooldown_separates_events :
  forall (l : AudioListener (list AudioEvent)) (ds : list (Z * float))
         (w0 : list AudioEvent) (now : Z) (a : float),
    on_event l = Some recorder ->
    0 <= _cooldown_ms l ->
    (exists evs,
        snd (handle_detections ds l w0) = w0 ++ evs /\
        separated (_cooldown_ms l) evs) /\
    (now - _last_event_time l < _cooldown_ms l ->
       _handle_detection now a l w0 = (l, w0)) /\
    (_cooldown_ms l <= now - _last_event_time l ->
       exists e,
         _handle_detection now a l w0 = (set_last_event_time now l, w0 ++ [e]) /\
         timestamp e = now) /\
    (forall settings id idx cb,
        _cooldown_ms (Audio.init (W := list AudioEvent) settings id idx cb)
          = 2000).
Proof.
  intros l ds w0 now a Hcb Hc. split; [|split; [|split]].
  - destruct (handle_detections_spaced ds l w0 Hcb) as (evs & Hrun & Hsp).
    exists evs. split; [exact Hrun|].
    now apply (spaced_separated _ (_last_event_time l)).
  - apply handle_detection_suppressed.
  - intros Hge. eexists. split.
    + rewrite (handle_detection_accepted l w0 now a recorder Hcb Hge).
      reflexivity.
    + reflexivity.
  - reflexivity.
Qed.

Lemma C3_cooldown_separates_events_witness :
  exists evs,
    snd (handle_detections
           [(1700000000000, 0.95%float); (1700000001999, 0.95%float);
            (1700000002000, 0.85%float); (1700000001000, 0.72%float)]
           recording_listener []) = [] ++ evs /\
    separated 2000 evs.
Proof.
  exact (proj1 (C3_cooldown_separates_events recording_listener
                  [(1700000000000, 0.95%float); (1700000001999, 0.95%float);
                   (1700000002000, 0.85%float); (1700000001000, 0.72%float)]
                  [] 0 0.95%float eq_refl ltac:(vm_compute; discriminate))).
Defined.

(** The run of the witness: the second detection comes 1999 ms after the
    first and is dropped, the third 2000 ms after it and is kept, the fourth
    reads an earlier clock value and is dropped. *)
Example cooldown_run :
  map timestamp
    (snd (handle_detections
            [(1700000000000, 0.95%float); (1700000001999, 0.95%float);
             (1700000002000, 0.85%float); (1700000001000, 0.72%float)]
            recording_listener [])) =
  [1700000000000; 1700000002000].
Proof. vm_compute. reflexivity. Qed.

(** ** The camera capture loop: frame skipping *)

Section CaptureLoopFacts.
Context {W : Type}.
Variables (env : Vision.Env) (settings : Config.Settings) (model : YOLO).
Hypothesis skip_nonzero : Config.frame_skip settings <> 0.

Lemma loop_condition_set_frame_count (h : CameraHandler W) n :
  loop_condition env (set_frame_count n h) = loop_condition env h.
Proof. reflexivity. Qed.


End CaptureLoopFacts.



(** With [frame_skip] 2 and five frames read, the second and the fourth are
    processed; a failed read in between is not counted. *)
Example five_frames_skip_two :
  submitted (_capture_loop fair_weather Config.defaults
               [Some (frame_no 1); Some (frame_no 2); None; Some (frame_no 3);
                Some (frame_no 4); Some (frame_no 5)]
               (started_camera (W := unit)) tt)
  = [frame_no 2; frame_no 4].
Proof. vm_compute. reflexivity. Qed.

(** With [frame_skip] 0 the remainder raises outside the [try] and the
    loop ends with the first frame. *)
Example frame_skip_zero_ends_loop :
  ended (_capture_loop fair_weather
           {| Config.backend_url := Config.backend_url Config.defaults;
              Config.api_key := Config.api_key Config.defaults;
              Config.model_path := Config.model_path Config.defaults;
              Config.detection_confidence := 0.6%float;
              Config.target_classes := [0];
              Config.frame_skip := 0;
              Config.audio_threshold := 0.7%float;
              Config.audio_sample_rate := 44100;
              Config.audio_chunk_size := 1024;
              Config.default_camera_url := None |}
           [Some (frame_no 1); Some (frame_no 2)]
           (started_camera (W := unit)) tt)
  = Raise ZeroDivisionError.
Proof. vm_compute. reflexivity. Qed.

(** ** Cropping: Python slices and the box coordinates *)

Lemma adjust_index_range len i :
  0 <= len -> 0 <= Py.adjust_index len i <= len.
Proof.
  intros Hlen. unfold Py.adjust_index.
  destruct (Z.ltb_spec i 0).
  - destruct (Z.ltb_spec (i + len) 0); [lia|].
    destruct (Z.ltb_spec len (i + len)); lia.
  - destruct (Z.ltb_spec i 0); [lia|].
    destruct (Z.ltb_spec len i); lia.
Qed.

Lemma adjust_index_inside len i :
  0 <= i <= len -> Py.adjust_index len i = i.
Proof.
  intros H. unfold Py.adjust_index.
  destruct (Z.ltb_spec i 0); [lia|].
  destruct (Z.ltb_spec i 0); [lia|].
  destruct (Z.ltb_spec len i); lia.
Qed.

Lemma slice_length_le {A} (l : list A) a b :
  (List.length (Py.slice l a b) <= List.length l)%nat.
Proof.
  unfold Py.slice, Py.slice_indices.
  rewrite length_firstn, length_skipn. lia.
Qed.

Lemma slice_inside {A} (l : list A) a b :
  0 <= a <= b -> b <= Z.of_nat (List.length l) ->
  Py.slice l a b = firstn (Z.to_nat (b - a)) (skipn (Z.to_nat a) l) /\
  Z.of_nat (List.length (Py.slice l a b)) = b - a.
Proof.
  intros Hab Hb. unfold Py.slice, Py.slice_indices.
  rewrite !adjust_index_inside by lia. split; [reflexivity|].
  rewrite length_firstn, length_skipn. lia.
Qed.

Lemma slice_incl {A} (l : list A) a b x :
  In x (Py.slice l a b) -> In x l.
Proof.
  unfold Py.slice, Py.slice_indices. intros H.
  set (lo := Z.to_nat (Py.adjust_index (Z.of_nat (List.length l)) a)) in *.
  set (n := Z.to_nat _) in H.
  rewrite <- (firstn_skipn lo l). apply in_or_app. right.
  rewrite <- (firstn_skipn n (skipn lo l)). apply in_or_app. now left.
Qed.

Lemma crop_rows_le frame x1 y1 x2 y2 :
  height (crop frame x1 y1 x2 y2) <= height frame.
Proof.
  unfold crop, height. rewrite length_map.
  pose proof (slice_length_le frame y1 y2). lia.
Qed.

Lemma crop_inside frame x1 y1 x2 y2 :
  rectangular frame ->
  0 <= x1 <= x2 -> x2 <= width frame ->
  0 <= y1 <= y2 -> y2 <= height frame ->
  height (crop frame x1 y1 x2 y2) = y2 - y1 /\
  Forall (fun row => Z.of_nat (List.length row) = x2 - x1)
         (crop frame x1 y1 x2 y2).
Proof.
  intros Hrect Hx Hx2 Hy Hy2. unfold crop, height. split.
  - rewrite length_map. now apply slice_inside.
  - apply Forall_map, Forall_forall. intros row Hrow.
    apply slice_incl in Hrow.
    unfold rectangular in Hrect. rewrite Forall_forall in Hrect.
    apply slice_inside; [lia|]. rewrite (Hrect row Hrow). lia.
Qed.

Lemma crop_columns_le frame x1 y1 x2 y2 :
  rectangular frame ->
  Forall (fun row => Z.of_nat (List.length row) <= width frame)
         (crop frame x1 y1 x2 y2).
Proof.
  intros Hrect. unfold crop. apply Forall_map, Forall_forall.
  intros row Hrow. apply slice_incl in Hrow.
  unfold rectangular in Hrect. rewrite Forall_forall in Hrect.
  rewrite <- (Hrect row Hrow).
  pose proof (slice_length_le row x1 x2). lia.
Qed.

(** What [process_box] does with a box that passes the class and
    confidence tests and whose coordinates convert to integers. *)
Lemma process_box_qualifying {W} (env : Vision.Env) (settings : Config.Settings)
    (h : CameraHandler W) (cb : Vision.Callback W) (frame : Frame)
    (model : YOLO) (box : Box) (w : W)
    (fx1 fy1 fx2 fy2 : float) (id x1 y1 x2 y2 : Z) :
  on_detection h = Some cb ->
  Py.int_of_float (cls box) = Return id ->
  mem id (Config.target_classes settings) = true ->
  (Config.detection_confidence settings <=? conf box)%float = true ->
  xyxy box = (fx1, fy1, fx2, fy2) ->
  Py.int_of_float fx1 = Return x1 -> Py.int_of_float fy1 = Return y1 ->
  Py.int_of_float fx2 = Return x2 -> Py.int_of_float fy2 = Return y2 ->
  process_box env settings h frame model box w =
    (Return tt,
     snd (cb (camera_id h)
            {| class_id := id;
               class_name := match names model id with
                             | Some n => n
                             | None => "unknown"
                             end;
               confidence := conf box;
               bbox := (x1, y1, x2, y2);
               cropped_image_base64 :=
                 _encode_image env (crop frame x1 y1 x2 y2) |} w)).
Proof.
  intros Hcb Hid Hmem Hconf Hxy H1 H2 H3 H4. unfold process_box.
  rewrite Hid, Hmem, Hconf, Hxy, H1, H2, H3, H4, Hcb. simpl.
  now destruct (cb _ _ w).
Qed.

(** C2, as the code has it: for a qualifying box the crop coordinates are
    the four box coordinates truncated to integers and used as they are,
    for [bbox] and for the slice [frame[y1:y2, x1:x2]]; the loop does not
    clamp them.  The slice is clipped by the slicing itself, so the crop
    never has more rows or columns than the frame, and when the coordinates
    lie within the frame the crop is [y2 - y1] rows of [x2 - x1] pixels. *)
Theorem C2_crop_uses_truncated_coordinates :
  forall (W : Type) (env : Vision.Env) (settings : Config.Settings)
         (h : CameraHandler W) (cb : Vision.Callback W) (frame : Frame)
         (model : YOLO) (box : Box) (w : W)
         (fx1 fy1 fx2 fy2 : float) (id x1 y1 x2 y2 : Z),
    on_detection h = Some cb ->
    Py.int_of_float (cls box) = Return id ->
    mem id (Config.target_classes settings) = true ->
    (Config.detection_confidence settings <=? conf box)%float = true ->
    xyxy box = (fx1, fy1, fx2, fy2) ->
    Py.int_of_float fx1 = Return x1 -> Py.int_of_float fy1 = Return y1 ->
    Py.int_of_float fx2 = Return x2 -> Py.int_of_float fy2 = Return y2 ->
    process_box env settings h frame model box w =
      (Return tt,
       snd (cb (camera_id h)
              {| class_id := id;
                 class_name := match names model id with
                               | Some n => n
                               | None => "unknown"
                               end;
                 confidence := conf box;
                 bbox := (x1, y1, x2, y2);
                 cropped_image_base64 :=
                   _encode_image env (crop frame x1 y1 x2 y2) |} w)) /\
    height (crop frame x1 y1 x2 y2) <= height frame /\
    (rectangular frame ->
       Forall (fun row => Z.of_nat (List.length row) <= width frame)
              (crop frame x1 y1 x2 y2)) /\
    (rectangular frame -> within_frame frame (x1, y1, x2, y2) ->
       height (crop frame x1 y1 x2 y2) = y2 - y1 /\
       Forall (fun row => Z.of_nat (List.length row) = x2 - x1)
              (crop frame x1 y1 x2 y2)).
Proof.
  intros W env settings h cb frame model box w fx1 fy1 fx2 fy2 id x1 y1 x2 y2
         Hcb Hid Hmem Hconf Hxy H1 H2 H3 H4.
  split; [|split; [|split]].
  - now apply (process_box_qualifying env settings h cb frame model box w
                 fx1 fy1 fx2 fy2).
  - apply crop_rows_le.
  - apply crop_columns_le.
  - intros Hrect (Hx & Hx2 & Hy & Hy2). now apply crop_inside.
Qed.

Lemma C2_crop_uses_truncated_coordinates_witness :
  process_box fair_weather Config.defaults recording_camera grid4 quiet_model
    box_left_of_frame [] =
    (Return tt,
     snd (detection_recorder "cam-1"
            {| class_id := 0; class_name := "unknown";
               confidence := 0.9%float; bbox := (-3, 0, 3, 2);
               cropped_image_base64 :=
                 _encode_image fair_weather (crop grid4 (-3) 0 3 2) |} [])).
Proof.
  exact (proj1 (C2_crop_uses_truncated_coordinates _ fair_weather
                  Config.defaults recording_camera detection_recorder grid4
                  quiet_model box_left_of_frame []
                  (-3)%float 0%float 3%float 2%float 0 (-3) 0 3 2
                  eq_refl eq_refl eq_refl eq_refl eq_refl
                  eq_refl eq_refl eq_refl eq_refl)).
Defined.

(** C2 fails as stated: a qualifying box whose left edge is at -3 reaches
    the callback with [x1 = -3], outside the frame, and the slice taken is
    columns 1 and 2 (the index -3 counts from the right edge of the
    4-pixel rows), not the columns 0 to 2 that clamping would give. *)
Lemma C2_coordinates_not_clamped :
  exists d : Detection,
    snd (process_box fair_weather Config.defaults recording_camera grid4
           quiet_model box_left_of_frame []) = [("cam-1", d)] /\
    bbox d = (-3, 0, 3, 2) /\
    ~ within_frame grid4 (bbox d) /\
    crop grid4 (-3) 0 3 2 = [[(0, 1, 0); (0, 2, 0)]; [(1, 1, 0); (1, 2, 0)]] /\
    crop grid4 (-3) 0 3 2 <> crop grid4 0 0 3 2.
Proof.
  eexists. split; [vm_compute; reflexivity|].
  split; [reflexivity|].
  split; [|split].
  - cbn. lia.
  - vm_compute. reflexivity.
  - vm_compute. discriminate.
Qed.

(** ** Dicts *)

Section DictFacts.
Context {V : Type}.
Implicit Types (d : list (string * V)) (k : string) (v : V).

Lemma get_setitem_same d k v : Py.get (Py.setitem d k v) k = Some v.
Proof.
  induction d as [|[k' v'] d IH]; simpl.
  - now rewrite String.eqb_refl.
  - destruct (String.eqb k' k) eqn:E; simpl; rewrite E; auto.
Qed.

Lemma get_setitem_other d k k' v :
  k' <> k -> Py.get (Py.setitem d k v) k' = Py.get d k'.
Proof.
  intros Hne. induction d as [|[k0 v0] d IH]; simpl.
  - destruct (String.eqb_spec k k'); congruence.
  - destruct (String.eqb_spec k0 k) as [->|Hk]; simpl.
    + destruct (String.eqb_spec k k'); congruence.
    + destruct (String.eqb k0 k'); auto.
Qed.

Lemma setitem_absent d k v :
  Py.contains d k = false -> Py.setitem d k v = d ++ [(k, v)].
Proof.
  unfold Py.contains. induction d as [|[k' v'] d IH]; simpl; [reflexivity|].
  destruct (String.eqb k' k); [discriminate|].
  intros H. now rewrite IH.
Qed.

Lemma contains_get d k :
  Py.contains d k = true <-> exists v, Py.get d k = Some v.
Proof.
  unfold Py.contains. destruct (Py.get d k) as [v|]; split.
  - eauto.
  - reflexivity.
  - discriminate.
  - intros [v H]. discriminate.
Qed.

End DictFacts.

(** ** The registries: [add_camera] and [add_listener] *)

Lemma camera_start_keeps {W} (env : Vision.Env) (h : CameraHandler W) :
  camera_id (snd (start env h)) = camera_id h /\
  source (snd (start env h)) = source h /\
  on_detection (snd (start env h)) = on_detection h.
Proof.
  unfold start. destruct (Vision._running h); [auto|].
  destruct (cv2_VideoCapture env (source h)) as [c|e]; [|auto].
  destruct (isOpened env c); simpl; [|auto].
  destruct (Vision.thread_start env _); auto.
Qed.

Lemma camera_start_true_running {W} (env : Vision.Env) (h : CameraHandler W) :
  fst (start env h) = true -> Vision._running (snd (start env h)) = true.
Proof.
  unfold start. destruct (Vision._running h) eqn:R; [auto|].
  destruct (cv2_VideoCapture env (source h)) as [c|e]; [|discriminate].
  destruct (isOpened env c); simpl; [|discriminate].
  destruct (Vision.thread_start env _); simpl; [auto|discriminate].
Qed.

Lemma listener_start_keeps {W} (env : Audio.Env) (l : AudioListener W) :
  l_device_id (snd (Audio.start env l)) = l_device_id l /\
  device_index (snd (Audio.start env l)) = device_index l /\
  on_event (snd (Audio.start env l)) = on_event l.
Proof.
  assert (Hc : forall l0 : AudioListener W,
             l_device_id (snd (_cleanup env l0)) = l_device_id l0 /\
             device_index (snd (_cleanup env l0)) = device_index l0 /\
             on_event (snd (_cleanup env l0)) = on_event l0).
  { intros l0. unfold _cleanup, _cleanup_pyaudio.
    destruct (_stream l0) as [s|]; simpl.
    - destruct (try_except _ _); simpl; [|auto].
      destruct (_pyaudio l0) as [p|]; simpl; [|auto].
      destruct (try_except _ _); simpl; auto.
    - destruct (_pyaudio l0) as [p|]; simpl; [|auto].
      destruct (try_except _ _); simpl; auto. }
  unfold Audio.start. destruct (PYAUDIO_AVAILABLE env); simpl; [|auto].
  destruct (Audio._running l); [auto|].
  destruct (pyaudio_PyAudio env) as [p|e]; simpl; [|apply Hc].
  destruct (pyaudio_open env p _ _ _) as [s|e]; simpl;
    [|apply (Hc (set_pyaudio (Some p) l))].
  destruct (Audio.thread_start env _); simpl; [auto|].
  apply (Hc (Audio.set_thread _ (Audio.set_running true
               (set_stream (Some s) (set_pyaudio (Some p) l))))).
Qed.

Lemma listener_start_true_running {W} (env : Audio.Env) (l : AudioListener W) :
  fst (Audio.start env l) = true -> Audio._running (snd (Audio.start env l)) = true.
Proof.
  unfold Audio.start. destruct (PYAUDIO_AVAILABLE env); simpl; [|discriminate].
  destruct (Audio._running l) eqn:R; [auto|].
  destruct (pyaudio_PyAudio env) as [p|e]; simpl; [|discriminate].
  destruct (pyaudio_open env p _ _ _) as [s|e]; simpl; [|discriminate].
  destruct (Audio.thread_start env _); simpl; [auto|discriminate].
Qed.

(** C5: in both registries, adding an identifier that is already present
    returns [False] and changes nothing; otherwise a handler wired to the
    installed callback is made and started, the call returns what [start]
    returned, and the identifier is in the registry afterwards exactly when
    [start] returned [True]: then the started handler is appended under it,
    and after a failed start the registry is as before. *)
Theorem C5_add_registers_iff_start_succeeds :
  forall (V W : Type) (venv : Vision.Env) (aenv : Audio.Env)
         (settings : Config.Settings)
         (ve : VisionEngine V) (ae : AudioEngine W)
         (cid did : string) (src : Source) (idx : option Z),
    (Py.contains (cameras ve) cid = true ->
       add_camera venv cid src ve = (false, ve)) /\
    (Py.contains (cameras ve) cid = false ->
       let started :=
         start venv (Vision.init cid src (_detection_callback ve)) in
       let ve' := snd (add_camera venv cid src ve) in
       fst (add_camera venv cid src ve) = fst started /\
       on_detection (snd started) = _detection_callback ve /\
       source (snd started) = src /\
       Py.contains (cameras ve') cid = fst started /\
       _detection_callback ve' = _detection_callback ve /\
       (fst started = true ->
          cameras ve' = cameras ve ++ [(cid, snd started)] /\
          Vision._running (snd started) = true) /\
       (fst started = false -> ve' = ve)) /\
    (Py.contains (listeners ae) did = true ->
       add_listener aenv settings did idx ae = (false, ae)) /\
    (Py.contains (listeners ae) did = false ->
       let started :=
         Audio.start aenv (Audio.init settings did idx (_event_callback ae)) in
       let ae' := snd (add_listener aenv settings did idx ae) in
       fst (add_listener aenv settings did idx ae) = fst started /\
       on_event (snd started) = _event_callback ae /\
       device_index (snd started) = idx /\
       Py.contains (listeners ae') did = fst started /\
       _event_callback ae' = _event_callback ae /\
       (fst started = true ->
          listeners ae' = listeners ae ++ [(did, snd started)] /\
          Audio._running (snd started) = true) /\
       (fst started = false -> ae' = ae)).
Proof.
  intros V W venv aenv settings ve ae cid did src idx.
  split; [|split; [|split]].
  - intros Hin. unfold add_camera. now rewrite Hin.
  - intros Hnew. cbv zeta. unfold add_camera. rewrite Hnew.
    pose proof (camera_start_keeps venv
                  (Vision.init cid src (_detection_callback ve)))
      as (_ & Hsrc & Hcb).
    pose proof (camera_start_true_running venv
                  (Vision.init cid src (_detection_callback ve))) as Hrun.
    destruct (start venv (Vision.init cid src (_detection_callback ve)))
      as [ok h'].
    simpl in *. destruct ok; simpl.
    + repeat split; auto.
      * unfold Py.contains. now rewrite get_setitem_same.
      * now apply setitem_absent.
      * discriminate.
    + repeat split; auto. discriminate.
  - intros Hin. unfold add_listener. now rewrite Hin.
  - intros Hnew. cbv zeta. unfold add_listener. rewrite Hnew.
    pose proof (listener_start_keeps aenv
                  (Audio.init settings did idx (_event_callback ae)))
      as (_ & Hidx & Hcb).
    pose proof (listener_start_true_running aenv
                  (Audio.init settings did idx (_event_callback ae))) as Hrun.
    destruct (Audio.start aenv (Audio.init settings did idx (_event_callback ae)))
      as [ok l'].
    simpl in *. destruct ok; simpl.
    + repeat split; auto.
      * unfold Py.contains. now rewrite get_setitem_same.
      * now apply setitem_absent.
      * discriminate.
    + repeat split; auto. discriminate.
Qed.

Lemma C5_add_registers_iff_start_succeeds_witness :
  add_camera fair_weather "cam-1" (SourceStr "rtsp://yard") one_camera
    = (false, one_camera) /\
  add_listener fair_audio Config.defaults "mic-1" (Some 3) one_listener
    = (false, one_listener).
Proof.
  pose proof (C5_add_registers_iff_start_succeeds _ _ fair_weather fair_audio
                Config.defaults one_camera one_listener "cam-1" "mic-1"
                (SourceStr "rtsp://yard") (Some 3))
    as (Hv & _ & Ha & _).
  split; [apply Hv | apply Ha]; reflexivity.
Defined.

(** Adding ["cam-1"] twice: the second call fails and the status still
    shows the first source. *)
Example add_twice_keeps_first_source :
  let '(ok, e) := add_camera fair_weather "cam-1" (SourceStr "rtsp://yard")
                    one_camera in
  ok = false /\
  get_camera_status "cam-1" e = Some ("cam-1", SourceStr "rtsp://door", true).
Proof. vm_compute. split; reflexivity. Qed.

(** A camera that does not open, and a microphone whose stream cannot be
    opened, leave their registries empty. *)
Example failed_start_leaves_no_entry :
  add_camera no_camera "cam-9" (SourceInt 4)
    (set_detection_callback detection_recorder Vision.engine_init)
  = (false, set_detection_callback detection_recorder Vision.engine_init) /\
  add_listener no_microphone Config.defaults "mic-9" None
    (set_event_callback recorder Audio.engine_init)
  = (false, set_event_callback recorder Audio.engine_init).
Proof. split; reflexivity. Qed.

(** ** Stopping handlers *)



Lemma cleanup_returns {W} (env : Audio.Env) (l : AudioListener W) :
  fst (_cleanup env l) = Return tt /\
  _stream (snd (_cleanup env l)) = None /\
  _pyaudio (snd (_cleanup env l)) = None /\
  Audio._running (snd (_cleanup env l)) = Audio._running l /\
  Audio._thread (snd (_cleanup env l)) = Audio._thread l.
Proof.
  destruct l as [did idx cb run th pa st thr sr cs lt cd].
  unfold _cleanup, _cleanup_pyaudio. simpl.
  destruct st as [s|]; simpl.
  - destruct (stream_stop_stream env s); simpl;
      [destruct (stream_close env s); simpl|];
      destruct pa as [p|]; simpl; auto;
      destruct (pyaudio_terminate env p); simpl; auto.
  - destruct pa as [p|]; simpl; auto.
    destruct (pyaudio_terminate env p); simpl; auto.
Qed.



(** The audio variant swallows every release error: with a thread that can
    be joined, [stop] returns whatever the release calls do. *)
Lemma listener_stop_swallows {W} (env : Audio.Env) (l : AudioListener W) :
  joinable (Audio._thread l) -> fst (Audio.stop env l) = Return tt.
Proof.
  intros Hj. unfold Audio.stop. cbn [Audio._thread Audio.set_running].
  destruct (Audio._thread l) as [t|]; simpl in Hj.
  - unfold join. rewrite Hj. apply cleanup_returns.
  - apply cleanup_returns.
Qed.



(** ** Release errors in [stop] and in the [stop_all] sweep *)

(** C9 fails on the camera variant: [CameraHandler.stop] has no [try]
    around [release], so a throwing release leaves [stop] as an exception,
    with the capture still held; [VisionEngine.stop_all] is left at the
    first such handler, the second camera keeps running and the registry
    is not cleared.  The audio variant, whose [_cleanup] puts every release
    under [try], returns and its sweep empties the registry. *)
Theorem C9_camera_stop_lets_release_error_out :
  fst (stop release_throws (started_camera (W := unit)))
    = Raise OtherException /\
  _capture (snd (stop release_throws (started_camera (W := unit))))
    = Some {| cap_source := SourceInt 0 |} /\
  fst (stop_all release_throws two_cameras) = Raise OtherException /\
  map (fun kh => (fst kh, Vision._running (snd kh)))
      (cameras (snd (stop_all release_throws two_cameras)))
    = [("cam-1", false); ("cam-2", true)] /\
  Audio.stop_all audio_release_throws two_listeners
    = (Return tt, {| listeners := []; _event_callback := Some recorder |}).
Proof. vm_compute. repeat split; reflexivity. Qed.

(** The sweep of the audio registry returns and clears the registry
    whatever the release calls do, as long as every thread can be
    joined. *)
Lemma audio_stop_all_completes {W} (env : Audio.Env) (e : AudioEngine W) :
  Forall (fun kl => joinable (Audio._thread (snd kl))) (listeners e) ->
  Audio.stop_all env e
    = (Return tt, {| listeners := []; _event_callback := _event_callback e |}).
Proof.
  intros H. unfold Audio.stop_all.
  assert (Hs : fst (Audio.stop_each env (listeners e)) = Return tt).
  { induction H as [|[k l] d Hl Hd IH]; simpl; [reflexivity|].
    pose proof (listener_stop_swallows env l Hl) as Hr.
    destruct (Audio.stop env l) as [r l']. simpl in Hr. subst r.
    destruct (Audio.stop_each env d) as [r' d']. exact IH. }
  destruct (Audio.stop_each env (listeners e)) as [r d]. simpl in Hs.
  now subst r.
Qed.

(** ** The alert delivery client *)

Lemma get_client_keeps_url (self : Connector.ServiceConnector) :
  Connector.alerts_url (snd (Connector._get_client self))
    = Connector.alerts_url self /\
  Connector.health_url (snd (Connector._get_client self))
    = Connector.health_url self.
Proof.
  unfold Connector._get_client.
  destruct (Connector.client self); split; reflexivity.
Qed.

Lemma send_alert_returns (env : Connector.Env)
    (self : Connector.ServiceConnector)
    (camera_id alert_type description image_base64 : string)
    (timestamp : option Z) :
  exists b : bool,
    fst (Connector.send_alert env self camera_id alert_type description
           image_base64 timestamp) = Return b.
Proof.
  unfold Connector.send_alert.
  destruct (Connector._get_client self) as [client self'].
  destruct (Connector.post env client _ _) as [r|e].
  - destruct (_ || _); eexists; reflexivity.
  - destruct (Py.is_RequestError e); eexists; reflexivity.
Qed.

(** C4: [send_alert] always returns a boolean and never raises; the boolean
    is [True] exactly when the POST to [backend_url + "/api/v1/alerts"]
    produced a response with status 200 or 201, so it is [False] for every
    other status and whenever the request raised; the payload's timestamp
    is the argument when given and the current time in milliseconds
    otherwise. *)
Theorem C4_send_alert_true_iff_200_or_201 :
  forall (env : Connector.Env) (self : Connector.ServiceConnector)
         (camera_id alert_type description image_base64 : string)
         (timestamp : option Z),
    let client := fst (Connector._get_client self) in
    let payload := Connector.build_payload env camera_id alert_type
                     description image_base64 timestamp in
    let url := String.append (Connector.backend_url self) "/api/v1/alerts" in
    exists b : bool,
      fst (Connector.send_alert env self camera_id alert_type description
             image_base64 timestamp) = Return b /\
      (b = true <->
         exists r, Connector.post env client url payload = Return r /\
                   (Connector.status_code r = 200 \/
                    Connector.status_code r = 201)) /\
      (forall e, Connector.post env client url payload = Raise e ->
                 b = false) /\
      Connector.timestamp payload =
        match timestamp with
        | Some t => t
        | None => Connector.now_ms env
        end /\
      Connector.cameraId payload = camera_id /\
      Connector.alertType payload = alert_type /\
      Connector.description payload = description /\
      Connector.imageBase64 payload = image_base64.
Proof.
  intros env self camera_id alert_type description image_base64 timestamp.
  cbv zeta. unfold Connector.send_alert.
  pose proof (get_client_keeps_url self) as [Hurl _].
  unfold Connector.alerts_url in Hurl at 2.
  destruct (Connector._get_client self) as [client self'].
  cbn [fst snd] in *. rewrite Hurl.
  destruct (Connector.post env client _ _) as [r|e] eqn:Hpost.
  - destruct ((Connector.status_code r =? 200)
              || (Connector.status_code r =? 201)) eqn:Hst.
    + exists true. cbn [fst]. repeat split; try discriminate.
      intros _. exists r. split; [reflexivity|].
      apply orb_true_iff in Hst. destruct Hst as [H|H];
        apply Z.eqb_eq in H; auto.
    + exists false. cbn [fst]. repeat split; try discriminate.
      intros (r' & Hr' & Hs). injection Hr' as <-.
      apply orb_false_iff in Hst. destruct Hst as [H1 H2].
      apply Z.eqb_neq in H1, H2. destruct Hs; contradiction.
  - exists false.
    destruct (Py.is_RequestError e); cbn [fst]; repeat split;
      try discriminate; intros (r' & Hr' & _); discriminate.
Qed.

Lemma C4_send_alert_true_iff_200_or_201_witness :
  exists b : bool,
    fst (Connector.send_alert (backend_answering 503) the_connector
           "cam-1" "VISUAL" "Person detected" "TWFu" None) = Return b /\
    (b = true <->
       exists r,
         Connector.post (backend_answering 503)
           (fst (Connector._get_client the_connector))
           "http://management-server:8080/api/v1/alerts"
           (Connector.build_payload (backend_answering 503) "cam-1" "VISUAL"
              "Person detected" "TWFu" None) = Return r /\
         (Connector.status_code r = 200 \/ Connector.status_code r = 201)).
Proof.
  destruct (C4_send_alert_true_iff_200_or_201 (backend_answering 503)
              the_connector "cam-1" "VISUAL" "Person detected" "TWFu" None)
    as (b & Hret & Hiff & _).
  exists b. split; [exact Hret | exact Hiff].
Defined.

(** Status 503: [send_alert] and [health_check] both return [False]. *)
Example backend_503 :
  fst (Connector.send_alert (backend_answering 503) the_connector
         "cam-1" "VISUAL" "Person detected" "TWFu" None) = Return false /\
  fst (Connector.health_check (backend_answering 503) the_connector)
    = Return false.
Proof. split; reflexivity. Qed.

Example backend_201 :
  fst (Connector.send_alert (backend_answering 201) the_connector
         "mic-1" "AUDIO" "Audio threshold exceeded" EmptyString (Some 5))
    = Return true.
Proof. reflexivity. Qed.

(** Status 204 is a success status of HTTP but not one the client
    accepts. *)
Example backend_204 :
  fst (Connector.send_alert (backend_answering 204) the_connector
         "mic-1" "AUDIO" "Audio threshold exceeded" EmptyString (Some 5))
    = Return false.
Proof. reflexivity. Qed.

Example backend_down :
  fst (Connector.send_alert backend_unreachable the_connector
         "cam-1" "VISUAL" "Person detected" "TWFu" None) = Return false.
Proof. reflexivity. Qed.

(** ** Encoding the crop *)

Example b64encode_Man :
  Base64.b64encode [Byte.x4d; Byte.x61; Byte.x6e] = "TWFu" /\
  Base64.b64encode [Byte.x4d; Byte.x61] = "TWE=" /\
  Base64.b64encode [Byte.x4d] = "TQ==".
Proof. repeat split; reflexivity. Qed.

Lemma encode_image_cases (env : Vision.Env) (image : Frame) :
  (exists rgb pil buffer,
      cv2_cvtColor_BGR2RGB env image = Return rgb /\
      Image_fromarray env rgb = Return pil /\
      Image_save_JPEG env pil 85 = Return buffer /\
      _encode_image env image = Base64.b64encode buffer) \/
  ((Py.raises (cv2_cvtColor_BGR2RGB env image) = true \/
    (exists rgb,
        cv2_cvtColor_BGR2RGB env image = Return rgb /\
        (Py.raises (Image_fromarray env rgb) = true \/
         exists pil,
           Image_fromarray env rgb = Return pil /\
           Py.raises (Image_save_JPEG env pil 85) = true))) /\
   _encode_image env image = EmptyString).
Proof.
  unfold _encode_image.
  destruct (cv2_cvtColor_BGR2RGB env image) as [rgb|e] eqn:H1; simpl.
  - destruct (Image_fromarray env rgb) as [pil|e] eqn:H2; simpl.
    + destruct (Image_save_JPEG env pil 85) as [buffer|e] eqn:H3; simpl.
      * left. exists rgb, pil, buffer. auto.
      * right. split; [|reflexivity]. right. exists rgb. split; [auto|].
        right. exists pil. rewrite H3. auto.
    + right. split; [|reflexivity]. right. exists rgb. rewrite H2. auto.
  - right. split; [|reflexivity]. now left.
Qed.

(** C10 fails on the code in its last clause.  [_encode_image] does return
    for every image: the base64 text of the JPEG bytes when the colour
    conversion, the PIL conversion and the JPEG encoding all return, the
    empty string as soon as one of them raises.  A box whose crop cannot be
    encoded does reach the callback as a [Detection] with an empty image.
    But the callback that [lifespan] installs calls [asyncio.create_task]
    on the capture thread: it raises, the error is swallowed, and no alert
    is scheduled for the detection.  Had the same frame been processed on
    the loop's own thread, the task would have been scheduled and would
    send the alert with [imageBase64] empty. *)
Theorem C10_imageless_detection_is_not_dispatched :
  (forall (env : Vision.Env) (image : Frame),
      (exists rgb pil buffer,
          cv2_cvtColor_BGR2RGB env image = Return rgb /\
          Image_fromarray env rgb = Return pil /\
          Image_save_JPEG env pil 85 = Return buffer /\
          _encode_image env image = Base64.b64encode buffer) \/
      ((Py.raises (cv2_cvtColor_BGR2RGB env image) = true \/
        (exists rgb,
            cv2_cvtColor_BGR2RGB env image = Return rgb /\
            (Py.raises (Image_fromarray env rgb) = true \/
             exists pil,
               Image_fromarray env rgb = Return pil /\
               Py.raises (Image_save_JPEG env pil 85) = true))) /\
       _encode_image env image = EmptyString)) /\
  _process_frame cv2_rejects_empty Config.defaults recording_camera grid4
    no_width_model []
  = (Return tt, [("cam-1", imageless_person)]) /\
  _process_frame cv2_rejects_empty Config.defaults wired_camera grid4
    no_width_model (on_capture_thread [])
  = (Return tt, on_capture_thread []) /\
  Main.tasks
    (snd (_process_frame cv2_rejects_empty Config.defaults wired_camera grid4
            no_width_model
            {| Main.on_loop_thread := true; Main.tasks := [] |}))
  = [Main.handle_visual_detection_call "cam-1" imageless_person] /\
  (forall capitalize format_percent env connector,
      Main.run_task capitalize format_percent env connector
        (Main.handle_visual_detection_call "cam-1" imageless_person)
      = (Return tt,
         snd (Connector.send_alert env connector "cam-1" "VISUAL"
                (String.append (capitalize "person")
                   (String.append " detected with "
                      (String.append (format_percent 0.9%float)
                         " confidence")))
                EmptyString None))).
Proof.
  split; [exact encode_image_cases|].
  split; [vm_compute; reflexivity|].
  split; [vm_compute; reflexivity|].
  split; [vm_compute; reflexivity|].
  intros capitalize format_percent env connector.
  unfold Main.run_task, Main.handle_visual_detection. simpl.
  pose proof (send_alert_returns env connector "cam-1" "VISUAL"
                (String.append (capitalize "person")
                   (String.append " detected with "
                      (String.append (format_percent 0.9%float)
                         " confidence")))
                EmptyString None) as [b Hb].
  destruct (Connector.send_alert _ _ _ _ _ _ _) as [sent connector'].
  simpl in *. now subst sent.
Qed.

(** A crop that encodes, and one that does not. *)
Example encode_image_examples :
  _encode_image cv2_rejects_empty (crop grid4 0 0 2 2) = "TWFu" /\
  _encode_image cv2_rejects_empty (crop grid4 2 0 2 2) = EmptyString.
Proof. split; reflexivity. Qed.

(** ** The hand-off from capture threads to the event loop *)

(** C1 fails on the code: both synchronous wrappers call
    [asyncio.create_task] themselves, on the thread that fired the callback.
    On a capture thread, which runs no event loop, the call raises
    [RuntimeError] and schedules nothing; the handlers' [try] around the
    callback swallows the error, so a detected person and a loud noise both
    leave the loop's task list empty.  The same frame processed on the
    loop's own thread does schedule the delivery. *)
Theorem C1_capture_thread_schedules_nothing :
  (forall camera_id detection scheduled,
      Main.sync_visual_callback camera_id detection
        (on_capture_thread scheduled)
      = (Raise RuntimeError, on_capture_thread scheduled)) /\
  (forall event scheduled,
      Main.sync_audio_callback event (on_capture_thread scheduled)
      = (Raise RuntimeError, on_capture_thread scheduled)) /\
  _process_frame fair_weather Config.defaults wired_camera grid4 person_model
    (on_capture_thread [])
  = (Return tt, on_capture_thread []) /\
  _handle_detection 1700000000000 0.95%float wired_listener
    (on_capture_thread [])
  = (set_last_event_time 1700000000000 wired_listener,
     on_capture_thread []) /\
  Main.tasks
    (snd (_process_frame fair_weather Config.defaults wired_camera grid4
            person_model
            {| Main.on_loop_thread := true; Main.tasks := [] |}))
  = [Main.handle_visual_detection_call "cam-1"
       {| class_id := 0; class_name := "person"; confidence := 0.9%float;
          bbox := (1, 0, 3, 2); cropped_image_base64 := "TWFu" |}].
Proof.
  split; [reflexivity|]. split; [reflexivity|].
  split; [vm_compute; reflexivity|].
  split; vm_compute; reflexivity.
Qed.

(** ** The listen loop *)

Section ListenLoopFacts.
Context {W : Type}.
Implicit Types (l : AudioListener W) (w : W).

(** The listen loop changes nothing of a listener but its last-event
    time. *)
Lemma handle_detection_keeps l w now a :
  let l' := fst (_handle_detection now a l w) in
  l_device_id l' = l_device_id l /\ on_event l' = on_event l /\
  threshold l' = threshold l /\ _cooldown_ms l' = _cooldown_ms l /\
  Audio._running l' = Audio._running l /\ _stream l' = _stream l /\
  _pyaudio l' = _pyaudio l /\ Audio._thread l' = Audio._thread l.
Proof.
  cbv zeta. rewrite handle_detection_state.
  destruct (now - _last_event_time l <? _cooldown_ms l);
    repeat split; reflexivity.
Qed.

Lemma listen_step_keeps l w now a :
  let l' := fst (listen_step now a l w) in
  l_device_id l' = l_device_id l /\ on_event l' = on_event l /\
  threshold l' = threshold l /\ _cooldown_ms l' = _cooldown_ms l /\
  Audio._running l' = Audio._running l /\ _stream l' = _stream l /\
  _pyaudio l' = _pyaudio l /\ Audio._thread l' = Audio._thread l.
Proof.
  unfold listen_step. destruct (Py.ge32 a (threshold l)).
  - apply handle_detection_keeps.
  - repeat split; reflexivity.
Qed.

End ListenLoopFacts.

(** X1: readings that fail the threshold test as the loop makes it (in
    float32, against the float32 nearest to the threshold; every [nan]
    fails it) and failed reads never produce an event and leave the
    listener as it was, whatever the callback. *)
Theorem listen_loop_quiet_below_threshold :
  forall (W : Type) (turns : list (result float * Z)) (l : AudioListener W)
         (w : W),
    (forall a now, In (Return a, now) turns ->
                   (Py.float32 (threshold l) <=? a)%float = false) ->
    _listen_loop turns l w = (l, w).
Proof.
  intros W turns l w. induction turns as [|[rd now] turns IH]; intros H.
  - reflexivity.
  - simpl.
    destruct (Audio._running l && _); [|reflexivity].
    destruct rd as [a|e].
    + unfold listen_step, Py.ge32. rewrite (H a now) by (left; reflexivity).
      apply IH. intros a' now' Hin. apply (H a' now'). now right.
    + apply IH. intros a' now' Hin. apply (H a' now'). now right.
Qed.

Lemma listen_loop_quiet_below_threshold_witness :
  _listen_loop [(Return (Py.float32 0.69), 1700000000000);
                (Raise OtherException, 1700000000100);
                (Return nan, 1700000000200)]
    started_listener [] = (started_listener, []).
Proof.
  apply (listen_loop_quiet_below_threshold _
           [(Return (Py.float32 0.69), 1700000000000);
            (Raise OtherException, 1700000000100);
            (Return nan, 1700000000200)] started_listener []).
  intros a now [H|[H|[H|[]]]]; inversion H; subst; vm_compute; reflexivity.
Defined.

(** What the recording callback has seen after a run of the listen loop. *)
Lemma listen_loop_events (turns : list (result float * Z)) :
  forall (l : AudioListener (list AudioEvent)) (w0 : list AudioEvent),
    on_event l = Some recorder ->
    exists evs,
      snd (_listen_loop turns l w0) = w0 ++ evs /\
      spaced (_cooldown_ms l) (_last_event_time l) evs /\
      Forall (fun e =>
                device_id e = l_device_id l /\
                (Py.float32 (threshold l) <=? amplitude e)%float = true /\
                description e = describe (amplitude e) /\
                In (Return (amplitude e), timestamp e) turns) evs.
Proof.
  induction turns as [|[rd now] turns IH]; intros l w0 Hcb.
  - exists []. simpl. rewrite app_nil_r. repeat split; constructor.
  - assert (Hweak : forall l' w',
               on_event l' = Some recorder ->
               l_device_id l' = l_device_id l ->
               threshold l' = threshold l ->
               _cooldown_ms l' = _cooldown_ms l ->
               exists evs,
                 snd (_listen_loop turns l' w') = w' ++ evs /\
                 spaced (_cooldown_ms l) (_last_event_time l') evs /\
                 Forall (fun e =>
                           device_id e = l_device_id l /\
                           (Py.float32 (threshold l) <=? amplitude e)%float = true /\
                           description e = describe (amplitude e) /\
                           In (Return (amplitude e), timestamp e)
                              ((rd, now) :: turns)) evs).
    { intros l' w' Hcb' Hd Ht Hc.
      destruct (IH l' w' Hcb') as (evs & Hrun & Hsp & Hall).
      exists evs. rewrite <- Hd, <- Ht, <- Hc.
      split; [exact Hrun|]. split; [exact Hsp|].
      eapply Forall_impl; [|exact Hall]. simpl.
      intros e (H1 & H2 & H3 & H4). auto. }
    simpl.
    destruct (Audio._running l && _).
    2:{ exists []. simpl. rewrite app_nil_r. repeat split; constructor. }
    destruct rd as [a|e]; [|now apply Hweak].
    unfold listen_step.
    unfold Py.ge32.
    destruct (Py.float32 (threshold l) <=? a)%float eqn:Hthr;
      [|now apply Hweak].
    destruct (Z.lt_ge_cases (now - _last_event_time l) (_cooldown_ms l))
      as [Hlt|Hge].
    + rewrite (handle_detection_suppressed l w0 now a Hlt).
      now apply Hweak.
    + rewrite (handle_detection_accepted l w0 now a recorder Hcb Hge).
      cbn [snd recorder].
      destruct (Hweak (set_last_event_time now l)
                  (w0 ++ [{| timestamp := now; amplitude := a;
                             description := describe a;
                             device_id := l_device_id l |}])
                  Hcb eq_refl eq_refl eq_refl)
        as (evs & Hrun & Hsp & Hall).
      eexists (_ :: evs). split; [|split].
      * rewrite Hrun, <- app_assoc. reflexivity.
      * constructor; [exact Hge | exact Hsp].
      * constructor; [|exact Hall]. simpl. auto.
Qed.

(** X2: every event the listen loop hands to the callback carries the
    listener's device id, an amplitude that is at least the float32 nearest
    to the threshold, the description of that amplitude's float32 band, and
    the clock value of the turn that produced it. *)
Theorem listen_loop_events_are_genuine :
  forall (turns : list (result float * Z))
         (l : AudioListener (list AudioEvent)) (w0 : list AudioEvent),
    on_event l = Some recorder ->
    exists evs,
      snd (_listen_loop turns l w0) = w0 ++ evs /\
      Forall (fun e =>
                device_id e = l_device_id l /\
                (Py.float32 (threshold l) <=? amplitude e)%float = true /\
                description e = describe (amplitude e) /\
                In (Return (amplitude e), timestamp e) turns) evs.
Proof.
  intros turns l w0 Hcb.
  destruct (listen_loop_events turns l w0 Hcb) as (evs & Hrun & _ & Hall).
  exists evs. split; assumption.
Qed.

Lemma listen_loop_events_are_genuine_witness :
  exists evs,
    snd (_listen_loop [(Return (Py.float32 0.95), 1700000000000);
                       (Return 0.5%float, 1700000002500);
                       (Return 0x1.666666p-1%float, 1700000003000)]
           started_listener []) = [] ++ evs /\
    Forall (fun e =>
              device_id e = "mic-1" /\
              (Py.float32 0.7 <=? amplitude e)%float = true /\
              description e = describe (amplitude e) /\
              In (Return (amplitude e), timestamp e)
                 [(Return (Py.float32 0.95), 1700000000000);
                  (Return 0.5%float, 1700000002500);
                  (Return 0x1.666666p-1%float, 1700000003000)]) evs.
Proof.
  exact (listen_loop_events_are_genuine
           [(Return (Py.float32 0.95), 1700000000000);
            (Return 0.5%float, 1700000002500);
            (Return 0x1.666666p-1%float, 1700000003000)]
           started_listener [] eq_refl).
Defined.

Lemma spaced_span c t0 e evs hi :
  spaced c t0 (e :: evs) ->
  Forall (fun e' => timestamp e' <= hi) (e :: evs) ->
  timestamp e + Z.of_nat (List.length evs) * c <= hi.
Proof.
  revert t0 e. induction evs as [|e' evs IH]; intros t0 e Hsp Hhi.
  - inversion Hhi; subst. simpl. lia.
  - inversion Hsp as [|? ? ? Hle Hsp']; subst.
    inversion Hhi as [|? ? _ Hhi']; subst.
    specialize (IH _ _ Hsp' Hhi').
    inversion Hsp' as [|? ? ? Hle' _]; subst.
    cbn [List.length]. lia.
Qed.

(** X3: the cooldown bounds the alert rate: when all clock readings of a
    run lie between [lo] and [hi], the run hands at most
    [(hi - lo) / cooldown + 1] events to the callback. *)
Theorem listen_loop_rate_bound :
  forall (turns : list (result float * Z))
         (l : AudioListener (list AudioEvent)) (w0 : list AudioEvent)
         (lo hi : Z),
    on_event l = Some recorder ->
    0 < _cooldown_ms l ->
    lo <= hi ->
    (forall rd now, In (rd, now) turns -> lo <= now <= hi) ->
    exists evs,
      snd (_listen_loop turns l w0) = w0 ++ evs /\
      Z.of_nat (List.length evs) <= (hi - lo) / _cooldown_ms l + 1.
Proof.
  intros turns l w0 lo hi Hcb Hc Hlohi Hwin.
  destruct (listen_loop_events turns l w0 Hcb) as (evs & Hrun & Hsp & Hall).
  exists evs. split; [exact Hrun|].
  assert (Hts : Forall (fun e => lo <= timestamp e <= hi) evs).
  { eapply Forall_impl; [|exact Hall]. simpl.
    intros e (_ & _ & _ & Hin). exact (Hwin _ _ Hin). }
  destruct evs as [|e evs].
  - simpl. pose proof (Z.div_pos (hi - lo) (_cooldown_ms l)). lia.
  - assert (Hhi : Forall (fun e' => timestamp e' <= hi) (e :: evs)).
    { eapply Forall_impl; [|exact Hts]. simpl. lia. }
    pose proof (spaced_span _ _ _ _ _ Hsp Hhi) as Hspan.
    inversion Hts as [|? ? Hlo _]; subst.
    cbn [List.length].
    assert (Z.of_nat (List.length evs) <= (hi - lo) / _cooldown_ms l).
    { apply Z.div_le_lower_bound; [exact Hc|]. nia. }
    lia.
Qed.

Lemma listen_loop_rate_bound_witness :
  exists evs,
    snd (_listen_loop [(Return 0.95%float, 1700000000000);
                       (Return 0.95%float, 1700000001000);
                       (Return 0.95%float, 1700000002000);
                       (Return 0.95%float, 1700000003000)]
           started_listener []) = [] ++ evs /\
    Z.of_nat (List.length evs)
      <= (1700000003000 - 1700000000000) / 2000 + 1.
Proof.
  apply (listen_loop_rate_bound
           [(Return 0.95%float, 1700000000000);
            (Return 0.95%float, 1700000001000);
            (Return 0.95%float, 1700000002000);
            (Return 0.95%float, 1700000003000)]
           started_listener [] 1700000000000 1700000003000).
  - reflexivity.
  - vm_compute. reflexivity.
  - lia.
  - intros rd now [H|[H|[H|[H|[]]]]]; inversion H; subst; lia.
Defined.

(** ** Starting handlers *)

(** X4: a listener that is not running starts exactly when PyAudio is
    available, the PyAudio object and the input stream (at the listener's
    rate, device index and chunk size) can be opened, and the thread
    starts; then it is running and holds the stream.  When PyAudio is
    available and the start fails, neither the stream nor the PyAudio
    object is kept. *)
Theorem listener_start_succeeds_iff :
  forall (W : Type) (env : Audio.Env) (l : AudioListener W),
    Audio._running l = false ->
    (fst (Audio.start env l) = true <->
       PYAUDIO_AVAILABLE env = true /\
       exists p s,
         pyaudio_PyAudio env = Return p /\
         pyaudio_open env p (sample_rate l) (device_index l) (chunk_size l)
           = Return s /\
         Audio.thread_start env
           (Thread_new (String.append "audio-" (l_device_id l))) = Return tt) /\
    (fst (Audio.start env l) = true ->
       Audio._running (snd (Audio.start env l)) = true /\
       (exists s, _stream (snd (Audio.start env l)) = Some s) /\
       (exists p, _pyaudio (snd (Audio.start env l)) = Some p) /\
       Audio._thread (snd (Audio.start env l)) =
         Some {| thread_name := String.append "audio-" (l_device_id l);
                 started := true |}) /\
    (PYAUDIO_AVAILABLE env = true -> fst (Audio.start env l) = false ->
       _stream (snd (Audio.start env l)) = None /\
       _pyaudio (snd (Audio.start env l)) = None).
Proof.
  intros W env l Hrun. unfold Audio.start. rewrite Hrun.
  destruct (PYAUDIO_AVAILABLE env) eqn:Hav; simpl.
  2:{ split; [split; [discriminate | intros [? _]; discriminate]|].
      split; discriminate. }
  destruct (pyaudio_PyAudio env) as [p|e] eqn:Hp; simpl.
  2:{ split; [split; [discriminate | intros (_ & p & s & H & _); discriminate]|].
      split; [discriminate|]. intros _ _.
      pose proof (cleanup_returns env l) as (_ & H1 & H2 & _). auto. }
  destruct (pyaudio_open env p _ _ _) as [s|e] eqn:Hs; simpl.
  2:{ split.
      - split; [discriminate|].
        intros (_ & p' & s' & H & H' & _). injection H as <-.
        cbn in Hs. congruence.
      - split; [discriminate|]. intros _ _.
        pose proof (cleanup_returns env (set_pyaudio (Some p) l))
          as (_ & H1 & H2 & _). auto. }
  destruct (Audio.thread_start env _) as [[]|e] eqn:Ht; simpl.
  - split; [|split; [|discriminate]].
    + split; [|reflexivity]. intros _. split; [reflexivity|].
      exists p, s. auto.
    + intros _. repeat split; eauto.
  - split.
    + split; [discriminate|].
      intros (_ & p' & s' & H & H' & H''). cbn in Ht. congruence.
    + split; [discriminate|]. intros _ _.
      match goal with
      | |- context [_cleanup env ?x] =>
          pose proof (cleanup_returns env x) as (_ & H1 & H2 & _)
      end. auto.
Qed.

Lemma listener_start_succeeds_iff_witness :
  fst (Audio.start fair_audio recording_listener) = true <->
    PYAUDIO_AVAILABLE fair_audio = true /\
    exists p s,
      pyaudio_PyAudio fair_audio = Return p /\
      pyaudio_open fair_audio p 44100 None 1024 = Return s /\
      Audio.thread_start fair_audio (Thread_new "audio-mic-1") = Return tt.
Proof.
  exact (proj1 (listener_start_succeeds_iff _ fair_audio recording_listener
                  eq_refl)).
Defined.

(** X5: a camera handler that is not running starts exactly when the
    capture object can be made from its source, reports itself opened, and
    the thread starts; then it is running and holds the capture.  A capture
    that does not report itself opened stays in the handler, unreleased,
    and nothing else changes. *)
Theorem camera_start_succeeds_iff :
  forall (W : Type) (env : Vision.Env) (h : CameraHandler W),
    Vision._running h = false ->
    (fst (start env h) = true <->
       exists c,
         cv2_VideoCapture env (source h) = Return c /\
         isOpened env c = true /\
         Vision.thread_start env
           (Thread_new (String.append "camera-" (camera_id h))) = Return tt) /\
    (fst (start env h) = true ->
       Vision._running (snd (start env h)) = true /\
       (exists c, cv2_VideoCapture env (source h) = Return c /\
                  _capture (snd (start env h)) = Some c) /\
       Vision._thread (snd (start env h)) =
         Some {| thread_name := String.append "camera-" (camera_id h);
                 started := true |}) /\
    (forall c, cv2_VideoCapture env (source h) = Return c ->
               isOpened env c = false ->
               start env h = (false, set_capture (Some c) h)).
Proof.
  intros W env h Hrun. unfold start. rewrite Hrun.
  destruct (cv2_VideoCapture env (source h)) as [c|e] eqn:Hc.
  2:{ split; [split; [discriminate | intros (c & H & _); discriminate]|].
      split; [discriminate|]. intros c H. discriminate. }
  destruct (isOpened env c) eqn:Ho; simpl.
  2:{ split; [split; [discriminate|]|].
      - intros (c' & H & H' & _). injection H as <-. congruence.
      - split; [discriminate|]. intros c' H _. now injection H as <-. }
  destruct (Vision.thread_start env _) as [[]|e] eqn:Ht; simpl.
  - split; [|split].
    + split; [|reflexivity]. intros _. exists c. auto.
    + intros _. repeat split; eauto.
    + intros c' H H'. injection H as <-. congruence.
  - split; [|split].
    + split; [discriminate|].
      intros (c' & H & _ & H''). cbn in Ht. congruence.
    + discriminate.
    + intros c' H H'. injection H as <-. congruence.
Qed.

Lemma camera_start_succeeds_iff_witness :
  start no_camera
    (Vision.init (W := unit) "cam-9" (SourceInt 4) None)
  = (false,
     set_capture (Some {| cap_source := SourceInt 4 |})
       (Vision.init "cam-9" (SourceInt 4) None)).
Proof.
  exact (proj2 (proj2 (camera_start_succeeds_iff unit no_camera
                         (Vision.init "cam-9" (SourceInt 4) None) eq_refl))
           {| cap_source := SourceInt 4 |} eq_refl eq_refl).
Defined.

(** ** More on dicts *)

Section DictMore.
Context {V : Type}.
Implicit Types (d : list (string * V)) (k : string) (v : V).

Lemma contains_false_not_in d k :
  Py.contains d k = false <-> ~ In k (Py.keys d).
Proof.
  unfold Py.contains, Py.keys.
  induction d as [|[k' v'] d IH]; simpl.
  - split; [intros _ []|reflexivity].
  - destruct (String.eqb_spec k' k) as [->|Hne].
    + split; [discriminate|]. intros H. exfalso. apply H. now left.
    + rewrite IH. split.
      * intros H [E|Hin]; [congruence|auto].
      * intros H Hin. apply H. now right.
Qed.

Lemma keys_app d d' : Py.keys (d ++ d') = Py.keys d ++ Py.keys d'.
Proof. unfold Py.keys. apply map_app. Qed.

Lemma keys_setitem_present d k v :
  Py.contains d k = true -> Py.keys (Py.setitem d k v) = Py.keys d.
Proof.
  unfold Py.contains, Py.keys.
  induction d as [|[k' v'] d IH]; simpl; [discriminate|].
  destruct (String.eqb k' k); simpl; [reflexivity|].
  intros H. now rewrite IH.
Qed.

Lemma get_in d k v : Py.get d k = Some v -> In (k, v) d.
Proof.
  induction d as [|[k' v'] d IH]; simpl; [discriminate|].
  destruct (String.eqb_spec k' k) as [->|Hne].
  - intros H. injection H as ->. now left.
  - intros H. right. auto.
Qed.

Lemma in_get d k v : NoDup (Py.keys d) -> In (k, v) d -> Py.get d k = Some v.
Proof.
  unfold Py.keys. induction d as [|[k' v'] d IH]; simpl; [intros _ []|].
  intros Hnd [E|Hin].
  - injection E as -> ->. now rewrite String.eqb_refl.
  - inversion Hnd as [|? ? Hnotin Hnd']; subst.
    destruct (String.eqb_spec k' k) as [->|Hne]; [|auto].
    exfalso. apply Hnotin. apply (in_map fst) in Hin. exact Hin.
Qed.

Lemma keys_delitem_incl d k x :
  In x (Py.keys (Py.delitem d k)) -> In x (Py.keys d).
Proof.
  unfold Py.keys. induction d as [|[k' v'] d IH]; simpl; [auto|].
  destruct (String.eqb k' k); simpl; [auto|].
  intros [E|H]; auto.
Qed.

Lemma delitem_incl d k x : In x (Py.delitem d k) -> In x d.
Proof.
  induction d as [|[k' v'] d IH]; simpl; [auto|].
  destruct (String.eqb k' k); simpl; [auto|].
  intros [E|H]; auto.
Qed.

Lemma nodup_delitem d k :
  NoDup (Py.keys d) -> NoDup (Py.keys (Py.delitem d k)).
Proof.
  unfold Py.keys. induction d as [|[k' v'] d IH]; simpl; [auto|].
  intros Hnd. inversion Hnd as [|? ? Hnotin Hnd']; subst.
  destruct (String.eqb k' k); simpl; [exact Hnd'|].
  constructor; [|auto].
  intros Hin. apply Hnotin. exact (keys_delitem_incl d k k' Hin).
Qed.

Lemma get_delitem_same d k :
  NoDup (Py.keys d) -> Py.get (Py.delitem d k) k = None.
Proof.
  unfold Py.keys. induction d as [|[k' v'] d IH]; simpl; [auto|].
  intros Hnd. inversion Hnd as [|? ? Hnotin Hnd']; subst.
  destruct (String.eqb_spec k' k) as [->|Hne]; simpl.
  - destruct (Py.get d k) as [v|] eqn:E; [|reflexivity].
    exfalso. apply Hnotin. apply get_in in E.
    apply (in_map fst) in E. exact E.
  - destruct (String.eqb_spec k' k); [congruence|auto].
Qed.

Lemma get_delitem_other d k k' :
  k' <> k -> Py.get (Py.delitem d k) k' = Py.get d k'.
Proof.
  intros Hne. induction d as [|[k0 v0] d IH]; simpl; [reflexivity|].
  destruct (String.eqb_spec k0 k) as [->|Hk]; simpl.
  - destruct (String.eqb_spec k k'); congruence.
  - now rewrite IH.
Qed.

Lemma delitem_appended d k v :
  Py.contains d k = false -> Py.delitem (d ++ [(k, v)]) k = d.
Proof.
  unfold Py.contains. induction d as [|[k' v'] d IH]; simpl.
  - now rewrite String.eqb_refl.
  - destruct (String.eqb k' k); [discriminate|].
    intros H. now rewrite IH.
Qed.

Lemma nodup_appended d k v :
  Py.contains d k = false -> NoDup (Py.keys d) ->
  NoDup (Py.keys (d ++ [(k, v)])).
Proof.
  intros Hc Hnd. rewrite keys_app. simpl.
  apply contains_false_not_in in Hc.
  apply NoDup_app; [exact Hnd | repeat constructor; intros [] |].
  intros x Hx [<-|[]]. contradiction.
Qed.

End DictMore.

(** ** Removing from the registries *)

Lemma camera_stop_keeps {W} (env : Vision.Env) (h : CameraHandler W) :
  camera_id (snd (stop env h)) = camera_id h /\
  source (snd (stop env h)) = source h /\
  on_detection (snd (stop env h)) = on_detection h /\
  Vision._running (snd (stop env h)) = false.
Proof.
  destruct h as [cid src cb cap run th fc m]. unfold stop. simpl.
  destruct th as [[name [|]]|]; simpl; auto;
    destruct cap as [c|]; simpl; auto;
    destruct (capture_release env c); simpl; auto.
Qed.

Lemma camera_stop_returns {W} (env : Vision.Env) (h : CameraHandler W) :
  joinable (Vision._thread h) ->
  (forall c, capture_release env c = Return tt) ->
  fst (stop env h) = Return tt.
Proof.
  intros Hj Hrel. destruct h as [cid src cb cap run th fc m].
  unfold stop. simpl in *.
  destruct th as [[name st]|]; simpl in *; [subst st; simpl|];
    destruct cap as [c|]; simpl; auto; now rewrite Hrel.
Qed.

(** X8: [remove_camera] of an id that is not registered returns [False]
    and changes nothing.  For a registered id whose handler's [stop]
    returns, it returns [True], the id is gone and every other entry is as
    before.  When the handler's [stop] raises, the exception leaves
    [remove_camera] and the camera stays registered, stopped. *)
Theorem remove_camera_outcomes :
  forall (W : Type) (env : Vision.Env) (id : string) (e : VisionEngine W)
         (h : CameraHandler W) (ex : exn),
    NoDup (Py.keys (cameras e)) ->
    (Py.get (cameras e) id = None ->
       remove_camera env id e = (Return false, e)) /\
    (Py.get (cameras e) id = Some h -> fst (stop env h) = Return tt ->
       fst (remove_camera env id e) = Return true /\
       Py.get (cameras (snd (remove_camera env id e))) id = None /\
       (forall k, k <> id ->
          Py.get (cameras (snd (remove_camera env id e))) k
            = Py.get (cameras e) k) /\
       _detection_callback (snd (remove_camera env id e))
         = _detection_callback e) /\
    (Py.get (cameras e) id = Some h -> fst (stop env h) = Raise ex ->
       fst (remove_camera env id e) = Raise ex /\
       Py.get (cameras (snd (remove_camera env id e))) id
         = Some (snd (stop env h)) /\
       Vision._running (snd (stop env h)) = false /\
       (forall k, k <> id ->
          Py.get (cameras (snd (remove_camera env id e))) k
            = Py.get (cameras e) k)).
Proof.
  intros W env id e h ex Hnd. unfold remove_camera.
  split; [|split].
  - intros H. now rewrite H.
  - intros H Hstop. rewrite H.
    destruct (stop env h) as [r h']. simpl in Hstop. subst r. simpl.
    split; [reflexivity|]. split; [now apply get_delitem_same|].
    split; [|reflexivity]. intros k Hk. now apply get_delitem_other.
  - intros H Hstop. rewrite H.
    pose proof (camera_stop_keeps env h) as (_ & _ & _ & Hrun).
    destruct (stop env h) as [r h']. simpl in *. subst r. simpl.
    split; [reflexivity|]. split; [apply get_setitem_same|].
    split; [exact Hrun|]. intros k Hk. now apply get_setitem_other.
Qed.

Lemma remove_camera_outcomes_witness :
  fst (remove_camera fair_weather "cam-1" two_cameras) = Return true /\
  Py.get (cameras (snd (remove_camera fair_weather "cam-1" two_cameras)))
    "cam-1" = None /\
  (forall k, k <> "cam-1" ->
     Py.get (cameras (snd (remove_camera fair_weather "cam-1" two_cameras))) k
       = Py.get (cameras two_cameras) k) /\
  _detection_callback (snd (remove_camera fair_weather "cam-1" two_cameras))
    = _detection_callback two_cameras.
Proof.
  refine (proj1 (proj2 (remove_camera_outcomes _ fair_weather "cam-1"
                          two_cameras
                          (snd (start fair_weather
                                  (Vision.init "cam-1" (SourceStr "rtsp://door")
                                     (Some detection_recorder))))
                          OtherException _))
            eq_refl eq_refl).
  vm_compute. repeat constructor; simpl; intuition discriminate.
Defined.

(** X9: [remove_listener] of an id that is not registered returns [False]
    and changes nothing.  For a registered listener whose thread can be
    joined it returns [True] whatever the release calls do, the id is gone
    and every other entry is as before. *)
Theorem remove_listener_outcomes :
  forall (W : Type) (env : Audio.Env) (id : string) (e : AudioEngine W)
         (l : AudioListener W),
    NoDup (Py.keys (listeners e)) ->
    (Py.get (listeners e) id = None ->
       remove_listener env id e = (Return false, e)) /\
    (Py.get (listeners e) id = Some l -> joinable (Audio._thread l) ->
       fst (remove_listener env id e) = Return true /\
       Py.get (listeners (snd (remove_listener env id e))) id = None /\
       (forall k, k <> id ->
          Py.get (listeners (snd (remove_listener env id e))) k
            = Py.get (listeners e) k) /\
       _event_callback (snd (remove_listener env id e)) = _event_callback e).
Proof.
  intros W env id e l Hnd. unfold remove_listener. split.
  - intros H. now rewrite H.
  - intros H Hj. rewrite H.
    pose proof (listener_stop_swallows env l Hj) as Hstop.
    destruct (Audio.stop env l) as [r l']. simpl in Hstop. subst r. simpl.
    split; [reflexivity|]. split; [now apply get_delitem_same|].
    split; [|reflexivity]. intros k Hk. now apply get_delitem_other.
Qed.

Lemma remove_listener_outcomes_witness :
  fst (remove_listener audio_release_throws "mic-1" two_listeners)
    = Return true /\
  Py.get (listeners (snd (remove_listener audio_release_throws "mic-1"
                            two_listeners))) "mic-1" = None /\
  (forall k, k <> "mic-1" ->
     Py.get (listeners (snd (remove_listener audio_release_throws "mic-1"
                               two_listeners))) k
       = Py.get (listeners two_listeners) k) /\
  _event_callback (snd (remove_listener audio_release_throws "mic-1"
                          two_listeners))
    = _event_callback two_listeners.
Proof.
  refine (proj2 (remove_listener_outcomes _ audio_release_throws "mic-1"
                   two_listeners started_listener _)
            eq_refl eq_refl).
  vm_compute. repeat constructor; simpl; intuition discriminate.
Defined.

(** ** Invariants of the registries *)

Lemma setitem_in {V} (d : list (string * V)) k v x :
  In x (Py.setitem d k v) -> x = (k, v) \/ In x d.
Proof.
  induction d as [|[k' v'] d IH]; simpl.
  - intros [E|[]]; auto.
  - destruct (String.eqb_spec k' k) as [->|Hne]; simpl.
    + intros [E|H]; auto.
    + intros [E|H]; auto. destruct (IH H); auto.
Qed.

Lemma listener_start_joinable {W} (env : Audio.Env) (l : AudioListener W) :
  Audio._running l = false -> fst (Audio.start env l) = true ->
  joinable (Audio._thread (snd (Audio.start env l))).
Proof.
  intros Hrun. unfold Audio.start. rewrite Hrun.
  destruct (PYAUDIO_AVAILABLE env); simpl; [|discriminate].
  destruct (pyaudio_PyAudio env) as [p|e]; simpl; [|discriminate].
  destruct (pyaudio_open env p _ _ _) as [s|e]; simpl; [|discriminate].
  destruct (Audio.thread_start env _); simpl; [reflexivity|discriminate].
Qed.

Lemma audio_registry_stays_ok_aux {W} (env : Audio.Env)
    (settings : Config.Settings) (id : string) (idx : option Z)
    (e : AudioEngine W) :
  audio_registry_ok e ->
  audio_registry_ok (snd (add_listener env settings id idx e)) /\
  audio_registry_ok (snd (remove_listener env id e)).
Proof.
  intros [Hnd Hall]. split.
  - unfold add_listener.
    destruct (Py.contains (listeners e) id) eqn:Hin; [split; assumption|].
    pose proof (listener_start_keeps env
                  (Audio.init settings id idx (_event_callback e)))
      as (Hid & _ & _).
    pose proof (listener_start_true_running env
                  (Audio.init settings id idx (_event_callback e))) as Hrun.
    pose proof (listener_start_joinable env
                  (Audio.init settings id idx (_event_callback e)) eq_refl)
      as Hjoin.
    destruct (Audio.start env _) as [[|] l']; simpl in *;
      [|split; assumption].
    rewrite (setitem_absent _ _ _ Hin). split; simpl.
    + now apply nodup_appended.
    + apply Forall_app. split; [exact Hall|].
      constructor; [|constructor]. simpl. auto.
  - unfold remove_listener.
    destruct (Py.get (listeners e) id) as [l|] eqn:Hget; [|split; assumption].
    assert (Hj : joinable (Audio._thread l)).
    { rewrite Forall_forall in Hall.
      apply (Hall (id, l)). now apply get_in. }
    pose proof (listener_stop_swallows env l Hj) as Hstop.
    destruct (Audio.stop env l) as [r l']. simpl in Hstop. subst r.
    split; simpl.
    + now apply nodup_delitem.
    + rewrite Forall_forall in *. intros x Hx.
      apply Hall. exact (delitem_incl _ _ _ Hx).
Qed.

(** X10: the audio registry keeps its entries well formed (each listener
    under its own device id, running, with a joinable thread, no id twice)
    through [set_event_callback], [add_listener], [remove_listener] and
    [stop_all]; on such a registry [remove_listener] never raises and
    [stop_all] returns with the registry empty, whatever the release calls
    do. *)
Theorem audio_registry_stays_ok :
  forall (W : Type) (env : Audio.Env) (settings : Config.Settings)
         (id : string) (idx : option Z) (cb : Audio.Callback W)
         (e : AudioEngine W),
    audio_registry_ok e ->
    audio_registry_ok (set_event_callback cb e) /\
    audio_registry_ok (snd (add_listener env settings id idx e)) /\
    audio_registry_ok (snd (remove_listener env id e)) /\
    audio_registry_ok (snd (Audio.stop_all env e)) /\
    (exists b, fst (remove_listener env id e) = Return b) /\
    Audio.stop_all env e
      = (Return tt, {| listeners := []; _event_callback := _event_callback e |}).
Proof.
  intros W env settings id idx cb e [Hnd Hall].
  assert (Hsweep : Audio.stop_all env e
            = (Return tt, {| listeners := [];
                             _event_callback := _event_callback e |})).
  { apply audio_stop_all_completes.
    eapply Forall_impl; [|exact Hall]. simpl. tauto. }
  split; [split; assumption|].
  split; [|split; [|split; [|split]]].
  - exact (proj1 (audio_registry_stays_ok_aux env settings id idx e
                    (conj Hnd Hall))).
  - exact (proj2 (audio_registry_stays_ok_aux env settings id idx e
                    (conj Hnd Hall))).
  - rewrite Hsweep. split; simpl; constructor.
  - unfold remove_listener.
    destruct (Py.get (listeners e) id) as [l|] eqn:Hget;
      [|exists false; reflexivity].
    assert (Hj : joinable (Audio._thread l)).
    { rewrite Forall_forall in Hall.
      apply (Hall (id, l)). now apply get_in. }
    pose proof (listener_stop_swallows env l Hj) as Hstop.
    destruct (Audio.stop env l) as [r l']. simpl in Hstop. subst r.
    exists true. reflexivity.
  - exact Hsweep.
Qed.

Lemma audio_registry_stays_ok_witness :
  audio_registry_ok
    (snd (remove_listener audio_release_throws "mic-1" two_listeners)) /\
  Audio.stop_all audio_release_throws two_listeners
    = (Return tt, {| listeners := []; _event_callback := Some recorder |}).
Proof.
  assert (H : audio_registry_ok two_listeners).
  { split; vm_compute; repeat constructor; simpl; intuition discriminate. }
  pose proof (audio_registry_stays_ok _ audio_release_throws Config.defaults
                "mic-1" None recorder two_listeners H)
    as (_ & _ & H3 & _ & _ & H6).
  split; [exact H3 | exact H6].
Defined.

Lemma camera_stop_each_keeps {W} (env : Vision.Env)
    (d : list (string * CameraHandler W)) :
  Py.keys (snd (Vision.stop_each env d)) = Py.keys d /\
  (Forall (fun kh => camera_id (snd kh) = fst kh) d ->
   Forall (fun kh => camera_id (snd kh) = fst kh)
          (snd (Vision.stop_each env d))).
Proof.
  induction d as [|[k h] d [IHk IHf]]; simpl; [auto|].
  pose proof (camera_stop_keeps env h) as (Hid & _).
  destruct (stop env h) as [[[]|ex] h']; simpl in *.
  - destruct (Vision.stop_each env d) as [r' d'']. simpl in *.
    split; [unfold Py.keys in *; simpl; now rewrite IHk|].
    intros Hf. inversion Hf; subst. constructor; simpl in *; [congruence|auto].
  - split; [reflexivity|].
    intros Hf. inversion Hf; subst. constructor; simpl in *; [congruence|auto].
Qed.

(** X11: the vision registry keeps every camera under its own camera id
    and no id twice through [set_detection_callback], [add_camera],
    [remove_camera] and [stop_all], also when [remove_camera] or [stop_all]
    is left by an exception. *)
Theorem vision_registry_stays_ok :
  forall (W : Type) (env : Vision.Env) (id : string) (src : Source)
         (cb : Vision.Callback W) (e : VisionEngine W),
    vision_registry_ok e ->
    vision_registry_ok (set_detection_callback cb e) /\
    vision_registry_ok (snd (add_camera env id src e)) /\
    vision_registry_ok (snd (remove_camera env id e)) /\
    vision_registry_ok (snd (Vision.stop_all env e)).
Proof.
  intros W env id src cb e [Hnd Hall].
  split; [split; assumption|]. split; [|split].
  - unfold add_camera.
    destruct (Py.contains (cameras e) id) eqn:Hin; [split; assumption|].
    pose proof (camera_start_keeps env
                  (Vision.init id src (_detection_callback e)))
      as (Hid & _ & _).
    destruct (start env _) as [[|] h']; simpl in *; [|split; assumption].
    rewrite (setitem_absent _ _ _ Hin). split; simpl.
    + now apply nodup_appended.
    + apply Forall_app. split; [exact Hall|].
      constructor; [|constructor]. simpl. auto.
  - unfold remove_camera.
    destruct (Py.get (cameras e) id) as [h|] eqn:Hget; [|split; assumption].
    pose proof (camera_stop_keeps env h) as (Hid & _).
    assert (Hh : camera_id h = id).
    { rewrite Forall_forall in Hall.
      apply (Hall (id, h)). now apply get_in. }
    destruct (stop env h) as [[[]|ex] h']; simpl in *.
    + split; simpl.
      * now apply nodup_delitem.
      * rewrite Forall_forall in *. intros x Hx.
        apply Hall. exact (delitem_incl _ _ _ Hx).
    + split; simpl.
      * rewrite keys_setitem_present; [exact Hnd|].
        unfold Py.contains. now rewrite Hget.
      * rewrite Forall_forall in *. intros x Hx.
        destruct (setitem_in _ _ _ _ Hx) as [->|Hx']; simpl;
          [congruence | auto].
  - unfold Vision.stop_all.
    pose proof (camera_stop_each_keeps env (cameras e)) as [Hk Hf].
    destruct (Vision.stop_each env (cameras e)) as [[[]|ex] d]; simpl in *.
    + split; simpl; constructor.
    + split; simpl; [now rewrite Hk | auto].
Qed.

Lemma vision_registry_stays_ok_witness :
  vision_registry_ok (snd (remove_camera release_throws "cam-1" two_cameras)) /\
  vision_registry_ok (snd (Vision.stop_all release_throws two_cameras)).
Proof.
  assert (H : vision_registry_ok two_cameras).
  { split; vm_compute; repeat constructor; simpl; intuition discriminate. }
  pose proof (vision_registry_stays_ok _ release_throws "cam-1" (SourceInt 7)
                detection_recorder two_cameras H)
    as (_ & _ & H3 & H4).
  split; [exact H3 | exact H4].
Defined.

(** ** Adding, removing, listing *)

Lemma camera_start_joinable {W} (env : Vision.Env) (h : CameraHandler W) :
  Vision._running h = false -> fst (start env h) = true ->
  joinable (Vision._thread (snd (start env h))).
Proof.
  intros Hrun. unfold start. rewrite Hrun.
  destruct (cv2_VideoCapture env (source h)) as [c|e]; [|discriminate].
  destruct (isOpened env c); simpl; [|discriminate].
  destruct (Vision.thread_start env _); simpl; [reflexivity|discriminate].
Qed.

(** X12: a camera that was added under a fresh id and is removed again,
    with a release that returns, leaves the vision engine exactly as it was
    before the add; for a listener the same holds whatever the release
    calls do. *)
Theorem add_then_remove_restores_registry :
  forall (V W : Type) (venv venv' : Vision.Env) (aenv aenv' : Audio.Env)
         (settings : Config.Settings) (ve : VisionEngine V)
         (ae : AudioEngine W) (cid did : string) (src : Source)
         (idx : option Z),
    (Py.contains (cameras ve) cid = false ->
     fst (add_camera venv cid src ve) = true ->
     (forall c, capture_release venv' c = Return tt) ->
     remove_camera venv' cid (snd (add_camera venv cid src ve))
       = (Return true, ve)) /\
    (Py.contains (listeners ae) did = false ->
     fst (add_listener aenv settings did idx ae) = true ->
     remove_listener aenv' did (snd (add_listener aenv settings did idx ae))
       = (Return true, ae)).
Proof.
  intros V W venv venv' aenv aenv' settings ve ae cid did src idx. split.
  - intros Hnew Hok Hrel. unfold add_camera in *. rewrite Hnew in *.
    pose proof (camera_start_joinable venv
                  (Vision.init cid src (_detection_callback ve)) eq_refl)
      as Hj.
    destruct (start venv _) as [[|] h']; simpl in *; [|discriminate].
    unfold remove_camera. simpl. rewrite get_setitem_same.
    pose proof (camera_stop_returns venv' h' (Hj eq_refl) Hrel) as Hstop.
    destruct (stop venv' h') as [r h'']. simpl in Hstop. subst r.
    rewrite (setitem_absent _ _ _ Hnew), (delitem_appended _ _ _ Hnew).
    now destruct ve.
  - intros Hnew Hok. unfold add_listener in *. rewrite Hnew in *.
    pose proof (listener_start_joinable aenv
                  (Audio.init settings did idx (_event_callback ae)) eq_refl)
      as Hj.
    destruct (Audio.start aenv _) as [[|] l']; simpl in *; [|discriminate].
    unfold remove_listener. simpl. rewrite get_setitem_same.
    pose proof (listener_stop_swallows aenv' l' (Hj eq_refl)) as Hstop.
    destruct (Audio.stop aenv' l') as [r l'']. simpl in Hstop. subst r.
    rewrite (setitem_absent _ _ _ Hnew), (delitem_appended _ _ _ Hnew).
    now destruct ae.
Qed.

Lemma add_then_remove_restores_registry_witness :
  remove_camera fair_weather "cam-2"
    (snd (add_camera fair_weather "cam-2" (SourceInt 1) one_camera))
    = (Return true, one_camera) /\
  remove_listener audio_release_throws "mic-2"
    (snd (add_listener fair_audio Config.defaults "mic-2" (Some 1)
            one_listener))
    = (Return true, one_listener).
Proof.
  pose proof (add_then_remove_restores_registry _ _ fair_weather fair_weather
                fair_audio audio_release_throws Config.defaults one_camera
                one_listener "cam-2" "mic-2" (SourceInt 1) (Some 1))
    as [Hv Ha].
  split.
  - exact (Hv eq_refl eq_refl (fun _ => eq_refl)).
  - exact (Ha eq_refl eq_refl).
Defined.

Lemma listing_by_keys {V R} (d : list (string * V)) (f : string -> V -> R) :
  NoDup (Py.keys d) ->
  map (fun k => match Py.get d k with
                | None => None
                | Some v => Some (f k v)
                end) (Py.keys d)
  = map (fun kv => Some (f (fst kv) (snd kv))) d.
Proof.
  intros Hnd. unfold Py.keys. rewrite map_map. apply map_ext_in.
  intros [k v] Hin. simpl. now rewrite (in_get d k v Hnd Hin).
Qed.

(** X13: [get_all_cameras] and [get_all_listeners] return one entry for
    every registered handler, in the order of registration, none of them
    [None]: the id with the handler's source (or threshold) and running
    flag. *)
Theorem listings_follow_registration_order :
  forall (V W : Type) (ve : VisionEngine V) (ae : AudioEngine W),
    NoDup (Py.keys (cameras ve)) ->
    NoDup (Py.keys (listeners ae)) ->
    get_all_cameras ve
      = map (fun kh => Some (fst kh, source (snd kh),
                             Vision._running (snd kh))) (cameras ve) /\
    get_all_listeners ae
      = map (fun kl => Some (fst kl, Audio._running (snd kl),
                             threshold (snd kl))) (listeners ae).
Proof.
  intros V W ve ae Hv Ha. split.
  - unfold get_all_cameras, get_camera_status.
    exact (listing_by_keys (cameras ve)
             (fun k h => (k, source h, Vision._running h)) Hv).
  - unfold get_all_listeners, get_listener_status, Audio.is_running.
    exact (listing_by_keys (listeners ae)
             (fun k l => (k, Audio._running l, threshold l)) Ha).
Qed.

Lemma listings_follow_registration_order_witness :
  get_all_cameras two_cameras
    = map (fun kh => Some (fst kh, source (snd kh), Vision._running (snd kh)))
          (cameras two_cameras) /\
  get_all_listeners two_listeners
    = map (fun kl => Some (fst kl, Audio._running (snd kl),
                           threshold (snd kl))) (listeners two_listeners).
Proof.
  apply (listings_follow_registration_order _ _ two_cameras two_listeners);
    vm_compute; repeat constructor; simpl; intuition discriminate.
Defined.

Example listing_two_cameras :
  get_all_cameras two_cameras
    = [Some ("cam-1", SourceStr "rtsp://door", true);
       Some ("cam-2", SourceInt 1, true)].
Proof. reflexivity. Qed.

(** X14: installing a callback does not touch the handlers already
    registered: they keep the callback they were made with, and only a
    handler added afterwards gets the new one. *)
Theorem set_callback_is_not_retroactive :
  forall (W : Type) (env : Vision.Env) (e : VisionEngine W)
         (cb : Vision.Callback W) (id : string) (src : Source),
    cameras (set_detection_callback cb e) = cameras e /\
    (Py.contains (cameras e) id = false ->
     fst (add_camera env id src (set_detection_callback cb e)) = true ->
     let e' := snd (add_camera env id src (set_detection_callback cb e)) in
     (exists h, Py.get (cameras e') id = Some h /\
                on_detection h = Some cb) /\
     (forall k h0, Py.get (cameras e) k = Some h0 ->
                   Py.get (cameras e') k = Some h0)).
Proof.
  intros W env e cb id src. split; [reflexivity|].
  intros Hnew Hok. cbv zeta. unfold add_camera in *. simpl in *.
  rewrite Hnew in *.
  pose proof (camera_start_keeps env (Vision.init id src (Some cb)))
    as (_ & _ & Hcb).
  destruct (start env _) as [[|] h']; simpl in *; [|discriminate].
  split.
  - exists h'. split; [apply get_setitem_same | exact Hcb].
  - intros k h0 Hk. rewrite get_setitem_other; [exact Hk|].
    intros ->. unfold Py.contains in Hnew. rewrite Hk in Hnew. discriminate.
Qed.

Lemma set_callback_is_not_retroactive_witness :
  let e' := snd (add_camera fair_weather "cam-2" (SourceInt 1)
                   (set_detection_callback (fun _ _ w => (Return tt, w))
                      one_camera)) in
  (exists h, Py.get (cameras e') "cam-2" = Some h /\
             on_detection h = Some (fun _ _ w => (Return tt, w))) /\
  (forall k h0, Py.get (cameras one_camera) k = Some h0 ->
                Py.get (cameras e') k = Some h0).
Proof.
  exact (proj2 (set_callback_is_not_retroactive _ fair_weather one_camera
                  (fun _ _ w => (Return tt, w)) "cam-2" (SourceInt 1))
           eq_refl eq_refl).
Defined.

Lemma camera_sweep_completes {W} (env : Vision.Env) (e : VisionEngine W) :
  Forall (fun kh => joinable (Vision._thread (snd kh))) (cameras e) ->
  (forall c, capture_release env c = Return tt) ->
  Vision.stop_all env e
    = (Return tt, {| cameras := [];
                     _detection_callback := _detection_callback e |}).
Proof.
  intros H Hrel. unfold Vision.stop_all.
  assert (Hs : fst (Vision.stop_each env (cameras e)) = Return tt).
  { induction H as [|[k h] d Hh Hd IH]; simpl; [reflexivity|].
    pose proof (camera_stop_returns env h Hh Hrel) as Hr.
    destruct (stop env h) as [r h']. simpl in Hr. subst r.
    destruct (Vision.stop_each env d) as [r' d']. exact IH. }
  destruct (Vision.stop_each env (cameras e)) as [r d]. simpl in Hs.
  now subst r.
Qed.

(** X15: when every camera's thread can be joined and every release
    returns, [VisionEngine.stop_all] returns and leaves the registry empty,
    the installed callback kept. *)
Theorem vision_stop_all_completes :
  forall (W : Type) (env : Vision.Env) (e : VisionEngine W),
    Forall (fun kh => joinable (Vision._thread (snd kh))) (cameras e) ->
    (forall c, capture_release env c = Return tt) ->
    Vision.stop_all env e
      = (Return tt, {| cameras := [];
                       _detection_callback := _detection_callback e |}).
Proof.
  intros W env e H Hrel. now apply camera_sweep_completes.
Qed.

Lemma vision_stop_all_completes_witness :
  Vision.stop_all fair_weather two_cameras
    = (Return tt, {| cameras := [];
                     _detection_callback := Some detection_recorder |}).
Proof.
  apply (vision_stop_all_completes _ fair_weather two_cameras).
  - repeat constructor.
  - reflexivity.
Defined.

(** ** What the capture loop reports, and what it leaves alone *)

Lemma get_model_keeps {W} (env : Vision.Env) (settings : Config.Settings)
    (h : CameraHandler W) :
  let h' := snd (_get_model env settings h) in
  camera_id h' = camera_id h /\ source h' = source h /\
  on_detection h' = on_detection h /\ _capture h' = _capture h /\
  Vision._running h' = Vision._running h /\
  Vision._thread h' = Vision._thread h /\
  _frame_count h' = _frame_count h.
Proof.
  unfold _get_model. destruct (_model h); simpl; [repeat split|].
  destruct (YOLO_load env _); simpl; repeat split.
Qed.

Lemma capture_iterations_keeps {W} (env : Vision.Env)
    (settings : Config.Settings) (model : YOLO) (reads : list (option Frame)) :
  forall (h : CameraHandler W) (w : W),
    let h' := handler (capture_iterations env settings model reads h w) in
    camera_id h' = camera_id h /\ source h' = source h /\
    on_detection h' = on_detection h /\ _capture h' = _capture h /\
    Vision._running h' = Vision._running h /\
    Vision._thread h' = Vision._thread h /\
    _model h' = _model h /\
    _frame_count h <= _frame_count h'
      <= _frame_count h + Z.of_nat (List.length (frames_read reads)).
Proof.
  induction reads as [|rd reads IH]; intros h w; simpl.
  - repeat split; lia.
  - destruct (loop_condition env h); [|simpl; repeat split; lia].
    destruct rd as [frame|].
    + unfold Py.mod_.
      cbn [frames_read flat_map app List.length].
      change (flat_map _ reads) with (frames_read reads).
      destruct (Config.frame_skip settings =? 0).
      { simpl. repeat split; lia. }
      destruct (negb _).
      * specialize (IH (set_frame_count (_frame_count h + 1) h) w).
        cbn [camera_id source on_detection _capture Vision._running
             Vision._thread _model _frame_count set_frame_count] in IH.
        destruct IH as (H1 & H2 & H3 & H4 & H5 & H6 & H7 & H8).
        repeat split; try assumption; lia.
      * destruct (_process_frame env settings _ frame model w) as [r w'].
        specialize (IH (set_frame_count (_frame_count h + 1) h) w').
        cbn [camera_id source on_detection _capture Vision._running
             Vision._thread _model _frame_count set_frame_count
             handler] in *.
        destruct IH as (H1 & H2 & H3 & H4 & H5 & H6 & H7 & H8).
        repeat split; try assumption; lia.
    + cbn [frames_read flat_map app].
      change (flat_map _ reads) with (frames_read reads).
      apply IH.
Qed.

(** X16: a run of the capture loop, however it ends, never changes the
    handler's id, source, callback, capture, thread or running flag (so
    [is_running] stays as it was even after the loop has died); the frame
    counter only grows, by at most the number of frames read. *)
Theorem capture_loop_leaves_handler_state :
  forall (W : Type) (env : Vision.Env) (settings : Config.Settings)
         (reads : list (option Frame)) (h : CameraHandler W) (w : W),
    let h' := handler (_capture_loop env settings reads h w) in
    camera_id h' = camera_id h /\ source h' = source h /\
    on_detection h' = on_detection h /\ _capture h' = _capture h /\
    Vision.is_running h' = Vision.is_running h /\
    Vision._thread h' = Vision._thread h /\
    _frame_count h <= _frame_count h'
      <= _frame_count h + Z.of_nat (List.length (frames_read reads)).
Proof.
  intros W env settings reads h w. cbv zeta. unfold _capture_loop, Vision.is_running.
  pose proof (get_model_keeps env settings h)
    as (G1 & G2 & G3 & G4 & G5 & G6 & G7).
  destruct (_get_model env settings h) as [[model|e] h0]; simpl in *.
  - pose proof (capture_iterations_keeps env settings model reads h0 w)
      as (H1 & H2 & H3 & H4 & H5 & H6 & _ & H8).
    cbv zeta in *.
    rewrite H1, H2, H3, H4, H5, H6, <- G7.
    repeat split; try assumption; lia.
  - repeat split; try assumption; lia.
Qed.

Section NoCallback.
Context {W : Type}.
Variables (env : Vision.Env) (settings : Config.Settings).

Lemma process_box_silent (h : CameraHandler W) frame model box (w : W) :
  on_detection h = None ->
  snd (process_box env settings h frame model box w) = w.
Proof.
  intros Hcb. unfold process_box.
  destruct (Py.int_of_float (cls box)); [|reflexivity].
  destruct (_ && _); [|reflexivity].
  destruct (xyxy box) as [[[fx1 fy1] fx2] fy2].
  destruct (Py.int_of_float fx1); simpl; [|reflexivity].
  destruct (Py.int_of_float fy1); simpl; [|reflexivity].
  destruct (Py.int_of_float fx2); simpl; [|reflexivity].
  destruct (Py.int_of_float fy2); simpl; [|reflexivity].
  now rewrite Hcb.
Qed.

Lemma process_boxes_silent (h : CameraHandler W) frame model bs :
  on_detection h = None ->
  forall w : W, snd (process_boxes env settings h frame model bs w) = w.
Proof.
  intros Hcb. induction bs as [|box bs IH]; intros w; simpl; [reflexivity|].
  pose proof (process_box_silent h frame model box w Hcb) as H.
  destruct (process_box env settings h frame model box w) as [[[]|e] w'];
    simpl in *; subst w'; [apply IH | reflexivity].
Qed.

Lemma process_frame_silent (h : CameraHandler W) frame model :
  on_detection h = None ->
  forall w : W, snd (_process_frame env settings h frame model w) = w.
Proof.
  intros Hcb w. unfold _process_frame.
  destruct (infer model frame) as [rs|e]; [|reflexivity].
  revert w. induction rs as [|r rs IH]; intros w; simpl; [reflexivity|].
  destruct (boxes r) as [bs|]; [|apply IH].
  pose proof (process_boxes_silent h frame model bs Hcb w) as H.
  destruct (process_boxes env settings h frame model bs w) as [[[]|e] w'];
    simpl in *; subst w'; [apply IH | reflexivity].
Qed.

End NoCallback.

(** X17: a handler made without a callback (added before
    [set_detection_callback]) never acts on the world: whatever is read and
    detected, the run of its capture loop leaves the world as it was. *)
Theorem capture_loop_without_callback_is_silent :
  forall (W : Type) (env : Vision.Env) (settings : Config.Settings)
         (reads : list (option Frame)) (h : CameraHandler W) (w : W),
    on_detection h = None ->
    world (_capture_loop env settings reads h w) = w.
Proof.
  intros W env settings reads h w Hcb. unfold _capture_loop.
  pose proof (get_model_keeps env settings h) as (_ & _ & G3 & _).
  destruct (_get_model env settings h) as [[model|e] h0]; simpl in *;
    [|reflexivity].
  rewrite <- G3 in Hcb. clear G3 h.
  revert h0 w Hcb. induction reads as [|rd reads IH]; intros h w Hcb; simpl.
  - reflexivity.
  - destruct (loop_condition env h); [|reflexivity].
    destruct rd as [frame|]; [|now apply IH].
    destruct (Py.mod_ _ _) as [m|e]; [|reflexivity].
    destruct (negb _); [now apply IH|].
    pose proof (process_frame_silent env settings
                  (set_frame_count (_frame_count h + 1) h) frame model
                  Hcb w) as H.
    destruct (_process_frame env settings _ frame model w) as [r w'].
    simpl in *. subst w'. now apply IH.
Qed.

Lemma capture_loop_without_callback_is_silent_witness :
  world (_capture_loop fair_weather Config.defaults
           [Some grid4; Some grid4]
           (snd (start fair_weather
                   (Vision.init (W := list (string * Detection))
                      "cam-0" (SourceInt 0) None))) [])
  = [].
Proof.
  exact (capture_loop_without_callback_is_silent _ fair_weather
           Config.defaults [Some grid4; Some grid4]
           (snd (start fair_weather
                   (Vision.init "cam-0" (SourceInt 0) None))) [] eq_refl).
Defined.

(** X18: loading the model happens at most once per handler: once
    [_get_model] has returned a model, every later call returns the same
    one without loading, whatever the environment and settings then are,
    and a run of the capture loop leaves the handler holding that model; a
    failed load leaves the handler unchanged, so the next call tries
    again. *)
Theorem get_model_loads_once :
  forall (W : Type) (env env' : Vision.Env) (settings settings' : Config.Settings)
         (reads : list (option Frame)) (h : CameraHandler W) (w : W)
         (m : YOLO) (e : exn),
    (fst (_get_model env settings h) = Return m ->
     _get_model env' settings' (snd (_get_model env settings h))
       = (Return m, snd (_get_model env settings h)) /\
     _model (handler (_capture_loop env settings reads h w)) = Some m) /\
    (fst (_get_model env settings h) = Raise e ->
     snd (_get_model env settings h) = h /\
     handler (_capture_loop env settings reads h w) = h /\
     ended (_capture_loop env settings reads h w) = Raise e /\
     submitted (_capture_loop env settings reads h w) = []).
Proof.
  intros W env env' settings settings' reads h w m e.
  unfold _capture_loop, _get_model.
  destruct (_model h) as [m0|] eqn:Hm; simpl.
  - split; [|discriminate]. intros H. injection H as <-.
    rewrite Hm. split; [reflexivity|].
    pose proof (capture_iterations_keeps env settings m0 reads h w)
      as (_ & _ & _ & _ & _ & _ & H7 & _).
    cbv zeta in H7. congruence.
  - destruct (YOLO_load env _) as [m0|e0]; simpl.
    + split; [|discriminate]. intros H. injection H as <-.
      split; [reflexivity|].
      pose proof (capture_iterations_keeps env settings m0 reads
                    (set_model (Some m0) h) w)
        as (_ & _ & _ & _ & _ & _ & H7 & _).
      cbv zeta in H7. exact H7.
    + split; [discriminate|]. intros H. injection H as <-. auto.
Qed.

Lemma get_model_loads_once_witness :
  _get_model no_camera Config.defaults
    (snd (_get_model fair_weather Config.defaults (started_camera (W := unit))))
  = (Return quiet_model,
     snd (_get_model fair_weather Config.defaults started_camera)).
Proof.
  exact (proj1 (proj1 (get_model_loads_once unit fair_weather no_camera
                         Config.defaults Config.defaults [] started_camera tt
                         quiet_model OtherException) eq_refl)).
Defined.

Section Reports.
Variables (env : Vision.Env) (settings : Config.Settings).
Implicit Types (h : CameraHandler (list (string * Detection)))
               (w : list (string * Detection)).

Lemma process_box_reports h frame model box w :
  on_detection h = Some detection_recorder ->
  exists ds,
    snd (process_box env settings h frame model box w) = w ++ ds /\
    Forall (genuine_detection env settings (camera_id h) frame) ds.
Proof.
  intros Hcb. unfold process_box.
  assert (Hnone : exists ds, w = w ++ ds /\
            Forall (genuine_detection env settings (camera_id h) frame) ds).
  { exists []. now rewrite app_nil_r. }
  destruct (Py.int_of_float (cls box)) as [id|e]; [|exact Hnone].
  destruct (mem id _) eqn:Hmem; simpl; [|exact Hnone].
  destruct (_ <=? _)%float eqn:Hconf; [|exact Hnone].
  destruct (xyxy box) as [[[fx1 fy1] fx2] fy2].
  destruct (Py.int_of_float fx1) as [x1|e]; simpl; [|exact Hnone].
  destruct (Py.int_of_float fy1) as [y1|e]; simpl; [|exact Hnone].
  destruct (Py.int_of_float fx2) as [x2|e]; simpl; [|exact Hnone].
  destruct (Py.int_of_float fy2) as [y2|e]; simpl; [|exact Hnone].
  rewrite Hcb. simpl. eexists [_]. split; [reflexivity|].
  constructor; [|constructor].
  unfold genuine_detection. simpl. auto.
Qed.

Lemma process_boxes_reports h frame model bs :
  on_detection h = Some detection_recorder ->
  forall w,
  exists ds,
    snd (process_boxes env settings h frame model bs w) = w ++ ds /\
    Forall (genuine_detection env settings (camera_id h) frame) ds.
Proof.
  intros Hcb. induction bs as [|box bs IH]; intros w; simpl.
  - exists []. now rewrite app_nil_r.
  - destruct (process_box_reports h frame model box w Hcb)
      as (ds1 & H1 & F1).
    destruct (process_box env settings h frame model box w) as [[[]|e] w'];
      simpl in *; subst w'.
    + destruct (IH (w ++ ds1)) as (ds2 & H2 & F2).
      exists (ds1 ++ ds2). rewrite H2, app_assoc. split; [reflexivity|].
      apply Forall_app. now split.
    + exists ds1. now split.
Qed.

Lemma process_frame_reports h frame model w :
  on_detection h = Some detection_recorder ->
  exists ds,
    snd (_process_frame env settings h frame model w) = w ++ ds /\
    Forall (genuine_detection env settings (camera_id h) frame) ds.
Proof.
  intros Hcb. unfold _process_frame.
  destruct (infer model frame) as [rs|e];
    [|exists []; now rewrite app_nil_r].
  revert w. induction rs as [|r rs IH]; intros w; simpl.
  - exists []. now rewrite app_nil_r.
  - destruct (boxes r) as [bs|]; [|apply IH].
    destruct (process_boxes_reports h frame model bs Hcb w)
      as (ds1 & H1 & F1).
    destruct (process_boxes env settings h frame model bs w) as [[[]|e] w'];
      simpl in *; subst w'.
    + destruct (IH (w ++ ds1)) as (ds2 & H2 & F2).
      exists (ds1 ++ ds2). rewrite H2, app_assoc. split; [reflexivity|].
      apply Forall_app. now split.
    + exists ds1. now split.
Qed.

Lemma capture_iterations_reports model (reads : list (option Frame)) :
  forall h w,
    on_detection h = Some detection_recorder ->
    let run := capture_iterations env settings model reads h w in
    exists ds,
      world run = w ++ ds /\
      Forall (fun report =>
                exists frame,
                  In frame (submitted run) /\
                  genuine_detection env settings (camera_id h) frame report)
             ds.
Proof.
  induction reads as [|rd reads IH]; intros h w Hcb; simpl.
  - exists []. now rewrite app_nil_r.
  - destruct (loop_condition env h);
      [|exists []; simpl; now rewrite app_nil_r].
    destruct rd as [frame|]; [|now apply IH].
    destruct (Py.mod_ _ _) as [m|e];
      [|exists []; simpl; now rewrite app_nil_r].
    destruct (negb _).
    + exact (IH (set_frame_count (_frame_count h + 1) h) w Hcb).
    + destruct (process_frame_reports
                  (set_frame_count (_frame_count h + 1) h) frame model w Hcb)
        as (ds1 & H1 & F1).
      destruct (_process_frame env settings _ frame model w) as [r w'].
      simpl in H1. subst w'.
      destruct (IH (set_frame_count (_frame_count h + 1) h) (w ++ ds1) Hcb)
        as (ds2 & H2 & F2).
      cbn [world submitted camera_id set_frame_count] in *.
      exists (ds1 ++ ds2). rewrite H2, app_assoc. split; [reflexivity|].
      apply Forall_app. split.
      * eapply Forall_impl; [|exact F1]. intros rep Hrep.
        exists frame. split; [now left | exact Hrep].
      * eapply Forall_impl; [|exact F2]. intros rep (f & Hin & Hrep).
        exists f. split; [now right | exact Hrep].
Qed.

End Reports.

(** X19: everything a run of the capture loop hands to the callback is a
    genuine detection of one of the frames that were submitted to
    inference: it is filed under the handler's camera id, its class is a
    target class, its confidence reaches [detection_confidence], and its
    image is the encoding of that frame cropped at the detection's own
    box. *)
Theorem capture_loop_reports_only_genuine_detections :
  forall (env : Vision.Env) (settings : Config.Settings)
         (reads : list (option Frame))
         (h : CameraHandler (list (string * Detection)))
         (w : list (string * Detection)),
    on_detection h = Some detection_recorder ->
    let run := _capture_loop env settings reads h w in
    exists ds,
      world run = w ++ ds /\
      Forall (fun report =>
                exists frame,
                  In frame (submitted run) /\
                  genuine_detection env settings (camera_id h) frame report)
             ds.
Proof.
  intros env settings reads h w Hcb. cbv zeta. unfold _capture_loop.
  pose proof (get_model_keeps env settings h) as (G1 & _ & G3 & _).
  destruct (_get_model env settings h) as [[model|e] h0]; simpl in *.
  - rewrite <- G1.
    apply (capture_iterations_reports env settings model reads h0 w).
    congruence.
  - exists []. now rewrite app_nil_r.
Qed.

Lemma capture_loop_reports_only_genuine_detections_witness :
  let run := _capture_loop fair_weather Config.defaults
               [Some grid4; Some grid4]
               (set_model (Some person_model) recording_camera) [] in
  exists ds,
    world run = [] ++ ds /\
    Forall (fun report =>
              exists frame,
                In frame (submitted run) /\
                genuine_detection fair_weather Config.defaults "cam-1" frame
                  report) ds.
Proof.
  exact (capture_loop_reports_only_genuine_detections fair_weather
           Config.defaults [Some grid4; Some grid4]
           (set_model (Some person_model) recording_camera) [] eq_refl).
Defined.

Example one_person_reported :
  world (_capture_loop fair_weather Config.defaults [Some grid4; Some grid4]
           (set_model (Some person_model) recording_camera) [])
  = [("cam-1",
      {| class_id := 0; class_name := "person"; confidence := 0.9%float;
         bbox := (1, 0, 3, 2); cropped_image_base64 := "TWFu" |})].
Proof. vm_compute. reflexivity. Qed.

(** ** Start, run, stop *)

Lemma listener_is_itself {W} (l : AudioListener W) :
  l = set_last_event_time (_last_event_time l) l.
Proof. now destruct l. Qed.

Lemma listen_loop_touches_only_time {W} (turns : list (result float * Z)) :
  forall (l : AudioListener W) (w : W),
    fst (_listen_loop turns l w)
      = set_last_event_time (_last_event_time (fst (_listen_loop turns l w))) l.
Proof.
  induction turns as [|[rd now] turns IH]; intros l w; simpl.
  - apply listener_is_itself.
  - destruct (Audio._running l && _); [|apply listener_is_itself].
    destruct rd as [a|e]; [|apply IH].
    assert (Hl : fst (listen_step now a l w) = l \/
                 fst (listen_step now a l w) = set_last_event_time now l).
    { unfold listen_step. destruct (Py.ge32 a (threshold l)); [|now left].
      rewrite handle_detection_state.
      destruct (_ <? _); [now left | now right]. }
    destruct (listen_step now a l w) as [l' w']. simpl in Hl.
    rewrite (IH l' w') at 1.
    destruct Hl as [->| ->]; reflexivity.
Qed.

(** X6: a new listener that started, whose thread then ran the listen loop
    for any number of turns, and that is then stopped, is as [__init__]
    made it in every field but the last-event time, which is the one the
    loop left; [stop] returns whatever the release calls do. *)
Theorem listener_start_run_stop :
  forall (W : Type) (env env' : Audio.Env) (settings : Config.Settings)
         (id : string) (idx : option Z) (cb : option (Audio.Callback W))
         (turns : list (result float * Z)) (w : W),
    fst (Audio.start env (Audio.init settings id idx cb)) = true ->
    let l' := fst (_listen_loop turns
                     (snd (Audio.start env (Audio.init settings id idx cb)))
                     w) in
    Audio.stop env' l'
      = (Return tt,
         set_last_event_time (_last_event_time l')
           (Audio.init settings id idx cb)).
Proof.
  intros W env env' settings id idx cb turns w Hstart. cbv zeta.
  rewrite (listen_loop_touches_only_time turns _ w).
  generalize (_last_event_time
                (fst (_listen_loop turns
                        (snd (Audio.start env (Audio.init settings id idx cb)))
                        w))) as t.
  intros t. revert Hstart.
  unfold Audio.start. cbn [Audio._running Audio.init].
  destruct (PYAUDIO_AVAILABLE env); simpl; [|discriminate].
  destruct (pyaudio_PyAudio env) as [p|e]; simpl.
  2:{ unfold _cleanup, _cleanup_pyaudio. simpl. discriminate. }
  destruct (pyaudio_open env p _ _ _) as [s|e]; simpl.
  2:{ unfold _cleanup, _cleanup_pyaudio. simpl.
      destruct (pyaudio_terminate env p); simpl; discriminate. }
  destruct (Audio.thread_start env _) as [[]|e]; simpl.
  - intros _. unfold Audio.stop, _cleanup, _cleanup_pyaudio. simpl.
    destruct (stream_stop_stream env' s); simpl;
      [destruct (stream_close env' s); simpl|];
      destruct (pyaudio_terminate env' p); reflexivity.
  - unfold _cleanup, _cleanup_pyaudio. simpl.
    destruct (stream_stop_stream env s); simpl;
      [destruct (stream_close env s); simpl|];
      destruct (pyaudio_terminate env p); simpl; discriminate.
Qed.

Lemma listener_start_run_stop_witness :
  Audio.stop audio_release_throws
    (fst (_listen_loop [(Return (Py.float32 0.95), 1700000000000)]
            (snd (Audio.start fair_audio
                    (Audio.init Config.defaults "mic-1" None (Some recorder))))
            []))
  = (Return tt,
     set_last_event_time 1700000000000
       (Audio.init Config.defaults "mic-1" None (Some recorder))).
Proof.
  exact (listener_start_run_stop _ fair_audio audio_release_throws
           Config.defaults "mic-1" None (Some recorder)
           [(Return (Py.float32 0.95), 1700000000000)] [] eq_refl).
Defined.

Lemma capture_loop_touches_only_count_and_model {W} (env : Vision.Env)
    (settings : Config.Settings) (reads : list (option Frame))
    (h : CameraHandler W) (w : W) :
  let h' := handler (_capture_loop env settings reads h w) in
  h' = set_model (_model h') (set_frame_count (_frame_count h') h).
Proof.
  cbv zeta. unfold _capture_loop.
  pose proof (get_model_keeps env settings h)
    as (G1 & G2 & G3 & G4 & G5 & G6 & _).
  destruct (_get_model env settings h) as [[model|e] h0]; simpl in *.
  - pose proof (capture_iterations_keeps env settings model reads h0 w)
      as (H1 & H2 & H3 & H4 & H5 & H6 & _).
    cbv zeta in *.
    destruct (handler (capture_iterations env settings model reads h0 w)).
    destruct h, h0. simpl in *. subst. reflexivity.
  - destruct h, h0. simpl in *. subst. reflexivity.
Qed.

(** X7: a new camera handler that started, whose thread then ran the
    capture loop over any reads, and that is then stopped with a release
    that returns, is as [__init__] made it in every field but the frame
    counter and the model, which are the ones the loop left. *)
Theorem camera_start_run_stop :
  forall (W : Type) (env env' env'' : Vision.Env) (settings : Config.Settings)
         (id : string) (src : Source) (cb : option (Vision.Callback W))
         (reads : list (option Frame)) (w : W),
    fst (start env (Vision.init id src cb)) = true ->
    (forall c, capture_release env' c = Return tt) ->
    let h' := handler (_capture_loop env'' settings reads
                         (snd (start env (Vision.init id src cb))) w) in
    stop env' h'
      = (Return tt,
         set_model (_model h')
           (set_frame_count (_frame_count h') (Vision.init id src cb))).
Proof.
  intros W env env' env'' settings id src cb reads w Hstart Hrel. cbv zeta.
  rewrite (capture_loop_touches_only_count_and_model env'' settings reads _ w).
  generalize (_model (handler (_capture_loop env'' settings reads
                (snd (start env (Vision.init id src cb))) w))) as m.
  generalize (_frame_count (handler (_capture_loop env'' settings reads
                (snd (start env (Vision.init id src cb))) w))) as n.
  intros n m. revert Hstart.
  unfold start. cbn [Vision._running Vision.init].
  destruct (cv2_VideoCapture env _) as [c|e]; simpl; [|discriminate].
  destruct (isOpened env c); simpl; [|discriminate].
  destruct (Vision.thread_start env _) as [[]|e]; simpl; [|discriminate].
  intros _. unfold stop. simpl. now rewrite Hrel.
Qed.

Lemma camera_start_run_stop_witness :
  stop fair_weather
    (handler (_capture_loop fair_weather Config.defaults
                [Some (frame_no 1); Some (frame_no 2)]
                (snd (start fair_weather
                        (Vision.init (W := unit) "cam-1" (SourceInt 0) None)))
                tt))
  = (Return tt,
     set_model (Some quiet_model)
       (set_frame_count 2 (Vision.init "cam-1" (SourceInt 0) None))).
Proof.
  exact (camera_start_run_stop unit fair_weather fair_weather fair_weather
           Config.defaults "cam-1" (SourceInt 0) None
           [Some (frame_no 1); Some (frame_no 2)] tt eq_refl
           (fun _ => eq_refl)).
Defined.

(** ** The encoded image as text *)

Lemma b64encode_ind (P : list Byte.byte -> Prop) :
  P [] -> (forall a, P [a]) -> (forall a b, P [a; b]) ->
  (forall a b c rest, P rest -> P (a :: b :: c :: rest)) ->
  forall bs, P bs.
Proof.
  intros H0 H1 H2 H3.
  assert (H : forall bs, P bs /\ (forall a, P (a :: bs))
                         /\ (forall a b, P (a :: b :: bs))).
  { induction bs as [|c bs (IH0 & IH1 & IH2)].
    - auto.
    - split; [apply IH1|]. split; [intros a; apply IH2|].
      intros a b. now apply H3. }
  intros bs. apply H.
Qed.

Lemma string_get_in n s c :
  String.get n s = Some c -> In c (list_ascii_of_string s).
Proof.
  revert n. induction s as [|c' s IH]; intros n; simpl; [discriminate|].
  destruct n as [|n]; simpl.
  - intros H. injection H as ->. now left.
  - intros H. right. exact (IH n H).
Qed.

Lemma digit_base64 n : base64_char (Base64.digit n).
Proof.
  unfold Base64.digit, base64_char.
  destruct (String.get _ _) eqn:E; [left; exact (string_get_in _ _ _ E)|].
  now right.
Qed.

Lemma b64encode_shape (bs : list Byte.byte) :
  String.length (Base64.b64encode bs)
    = (4 * ((List.length bs + 2) / 3))%nat /\
  Forall base64_char (list_ascii_of_string (Base64.b64encode bs)) /\
  (Base64.b64encode bs = EmptyString <-> bs = []).
Proof.
  induction bs as [|a|a b|a b c rest (IHl & IHc & IHe)] using b64encode_ind.
  - repeat split; constructor.
  - split; [reflexivity|]. split; [|split; discriminate].
    cbn [Base64.b64encode list_ascii_of_string].
    do 2 (constructor; [apply digit_base64|]).
    do 2 (constructor; [right; reflexivity|]). constructor.
  - split; [reflexivity|]. split; [|split; discriminate].
    cbn [Base64.b64encode list_ascii_of_string].
    do 3 (constructor; [apply digit_base64|]).
    constructor; [right; reflexivity|]. constructor.
  - split; [|split; [|split; discriminate]].
    + cbn [Base64.b64encode String.length List.length]. rewrite IHl.
      replace (S (S (S (List.length rest))) + 2)%nat
        with (1 * 3 + (List.length rest + 2))%nat by lia.
      rewrite Nat.div_add_l by discriminate. lia.
    + cbn [Base64.b64encode list_ascii_of_string].
      do 4 (constructor; [apply digit_base64|]). exact IHc.
Qed.

(** X20: the text [_encode_image] returns is empty exactly when a step
    raised or the JPEG buffer was empty; it is always made of base64 digits
    and [=], and its length is a multiple of four. *)
Theorem encode_image_text :
  forall (env : Vision.Env) (image : Frame),
    (_encode_image env image = EmptyString <->
       forall rgb pil buffer,
         cv2_cvtColor_BGR2RGB env image = Return rgb ->
         Image_fromarray env rgb = Return pil ->
         Image_save_JPEG env pil 85 = Return buffer ->
         buffer = []) /\
    Forall base64_char (list_ascii_of_string (_encode_image env image)) /\
    (String.length (_encode_image env image) mod 4 = 0)%nat.
Proof.
  intros env image. unfold _encode_image.
  destruct (cv2_cvtColor_BGR2RGB env image) as [rgb|e] eqn:H1; cbn [Py.bind].
  2:{ split; [split; [discriminate | reflexivity]|].
      split; [constructor | reflexivity]. }
  destruct (Image_fromarray env rgb) as [pil|e] eqn:H2; cbn [Py.bind].
  2:{ split; [split; [|reflexivity]|].
      - intros _ rgb' pil' buffer' H. injection H as <-. congruence.
      - split; [constructor | reflexivity]. }
  destruct (Image_save_JPEG env pil 85) as [buffer|e] eqn:H3; cbn [Py.bind].
  2:{ split; [split; [|reflexivity]|].
      - intros _ rgb' pil' buffer' H H'. injection H as <-.
        rewrite H2 in H'. injection H' as <-. congruence.
      - split; [constructor | reflexivity]. }
  destruct (b64encode_shape buffer) as (Hl & Hc & He).
  split; [|split; [exact Hc|]].
  - rewrite He. split.
    + intros -> rgb' pil' buffer' H H' H''. injection H as <-.
      rewrite H2 in H'. injection H' as <-. congruence.
    + intros H. exact (H rgb pil buffer eq_refl H2 H3).
  - rewrite Hl, Nat.mul_comm. apply Nat.Div0.mod_mul.
Qed.

(** ** More on the alert delivery client *)

(** X21: [health_check] always returns a boolean and never raises; it is
    [True] exactly when the GET of [backend_url + "/actuator/health"]
    produced a response with status 200. *)
Theorem health_check_true_iff_200 :
  forall (env : Connector.Env) (self : Connector.ServiceConnector),
    exists b : bool,
      fst (Connector.health_check env self) = Return b /\
      (b = true <->
         exists r,
           Connector.get env (fst (Connector._get_client self))
             (String.append (Connector.backend_url self) "/actuator/health")
             = Return r /\
           Connector.status_code r = 200).
Proof.
  intros env self. unfold Connector.health_check.
  pose proof (get_client_keeps_url self) as [_ Hurl].
  unfold Connector.health_url in Hurl at 2.
  destruct (Connector._get_client self) as [client self'].
  cbn [fst snd] in *. rewrite Hurl.
  destruct (Connector.get env client _) as [r|e].
  - exists (Connector.status_code r =? 200). split; [reflexivity|].
    rewrite Z.eqb_eq. split.
    + intros H. exists r. auto.
    + intros (r' & Hr & Hs). now injection Hr as ->.
  - exists false. split; [reflexivity|].
    split; [discriminate | intros (r & Hr & _); discriminate].
Qed.

(** X22: the HTTP client is made on first use and then kept: after
    [send_alert] or [health_check] the connector holds the client the call
    used, a later call uses that same client, and the backend URL and the
    API key never change.  A client made by the connector has the 30 second
    timeout and carries the API key in the [X-API-KEY] header. *)
Theorem client_is_made_once :
  forall (env : Connector.Env) (self : Connector.ServiceConnector)
         (camera_id alert_type description image_base64 : string)
         (timestamp : option Z),
    let used := fst (Connector._get_client self) in
    let after_alert :=
      snd (Connector.send_alert env self camera_id alert_type description
             image_base64 timestamp) in
    let after_health := snd (Connector.health_check env self) in
    Connector.client after_alert = Some used /\
    Connector.client after_health = Some used /\
    Connector._get_client after_alert = (used, after_alert) /\
    after_health = after_alert /\
    Connector.backend_url after_alert = Connector.backend_url self /\
    Connector.api_key after_alert = Connector.api_key self /\
    (Connector.client self = None ->
       Connector.timeout_seconds used = 30 /\
       Py.get (Connector.headers used) "X-API-KEY"
         = Some (Connector.api_key self) /\
       Py.get (Connector.headers used) "Content-Type"
         = Some "application/json").
Proof.
  intros env self camera_id alert_type description image_base64 timestamp.
  cbv zeta. unfold Connector.send_alert, Connector.health_check,
    Connector._get_client.
  destruct self as [url key [c|]]; simpl.
  - destruct (Connector.post env c _ _) as [r|e];
      [destruct (_ || _) | destruct (Py.is_RequestError e)];
      destruct (Connector.get env c _); simpl;
      repeat split; discriminate.
  - destruct (Connector.post env _ _ _) as [r|e];
      [destruct (_ || _) | destruct (Py.is_RequestError e)];
      destruct (Connector.get env _ _); simpl;
      repeat split; reflexivity.
Qed.

Lemma client_is_made_once_witness :
  Connector.timeout_seconds (fst (Connector._get_client the_connector)) = 30 /\
  Py.get (Connector.headers (fst (Connector._get_client the_connector)))
    "X-API-KEY" = Some "changeme-api-key" /\
  Py.get (Connector.headers (fst (Connector._get_client the_connector)))
    "Content-Type" = Some "application/json".
Proof.
  pose proof (client_is_made_once backend_unreachable
                the_connector "cam-1" "VISUAL" "Person detected" "TWFu" None)
    as (_ & _ & _ & _ & _ & _ & H).
  exact (H eq_refl).
Defined.

(** X23: [close] on a connector that holds no client returns and changes
    nothing.  When the client's [aclose] returns, the client is dropped (URL
    and key kept) and a second [close] is a no-op; when it raises, the
    exception leaves [close] and the client is kept. *)
Theorem close_outcomes :
  forall (env env' : Connector.Env) (self : Connector.ServiceConnector)
         (c : Connector.Client) (e : exn),
    (Connector.client self = None ->
       Connector.close env self = (Return tt, self)) /\
    (Connector.client self = Some c -> Connector.aclose env c = Return tt ->
       let closed := snd (Connector.close env self) in
       fst (Connector.close env self) = Return tt /\
       Connector.client closed = None /\
       Connector.backend_url closed = Connector.backend_url self /\
       Connector.api_key closed = Connector.api_key self /\
       Connector.close env' closed = (Return tt, closed)) /\
    (Connector.client self = Some c -> Connector.aclose env c = Raise e ->
       Connector.close env self = (Raise e, self)).
Proof.
  intros env env' self c e. unfold Connector.close.
  destruct self as [url key [c0|]]; simpl.
  - split; [discriminate|]. split.
    + intros H Hc. injection H as ->. rewrite Hc. simpl.
      repeat split; reflexivity.
    + intros H Hc. injection H as ->. now rewrite Hc.
  - split; [reflexivity|]. split; discriminate.
Qed.

Lemma close_outcomes_witness :
  fst (Connector.close backend_unreachable
         (snd (Connector.health_check backend_unreachable the_connector)))
    = Return tt /\
  Connector.client
    (snd (Connector.close backend_unreachable
            (snd (Connector.health_check backend_unreachable the_connector))))
    = None.
Proof.
  pose proof (close_outcomes backend_unreachable backend_unreachable
                (snd (Connector.health_check backend_unreachable the_connector))
                (fst (Connector._get_client the_connector)) OtherException)
    as (_ & H & _).
  destruct (H eq_refl eq_refl) as (H1 & H2 & _).
  split; [exact H1 | exact H2].
Defined.

(** ** The two event handlers *)

(** X24: both event handlers give back [None] and never raise, whatever
    the backend does (no answer, any status): that an alert was not
    delivered is not visible to whoever runs the task.  Afterwards the
    connector holds the client the send used, with the URL and the key
    unchanged. *)
Theorem handlers_never_report_failure :
  forall (capitalize : string -> string) (format_percent : float -> string)
         (env : Connector.Env) (self : Connector.ServiceConnector)
         (event : AudioEvent) (camera_id : string) (detection : Detection),
    let after_audio := snd (Main.handle_audio_event env self event) in
    let after_visual :=
      snd (Main.handle_visual_detection capitalize format_percent env self
             camera_id detection) in
    fst (Main.handle_audio_event env self event) = Return tt /\
    fst (Main.handle_visual_detection capitalize format_percent env self
           camera_id detection) = Return tt /\
    Connector.client after_audio
      = Some (fst (Connector._get_client self)) /\
    Connector.client after_visual
      = Some (fst (Connector._get_client self)) /\
    Connector.backend_url after_audio = Connector.backend_url self /\
    Connector.backend_url after_visual = Connector.backend_url self /\
    Connector.api_key after_audio = Connector.api_key self /\
    Connector.api_key after_visual = Connector.api_key self.
Proof.
  intros capitalize format_percent env self event camera_id detection.
  cbv zeta.
  unfold Main.handle_audio_event, Main.handle_visual_detection,
    Connector.send_alert, Connector._get_client.
  destruct self as [url key [c|]]; simpl;
    (destruct (Connector.post env _ _ _) as [r|e];
       [destruct (_ || _) | destruct (Py.is_RequestError e)]);
    (destruct (Connector.post env _ _ _) as [r'|e'];
       [destruct (_ || _) | destruct (Py.is_RequestError e')]);
    simpl; repeat split; reflexivity.
Qed.

Example unreachable_backend_is_silent :
  fst (Main.handle_audio_event backend_unreachable the_connector
         {| timestamp := 1700000000000; amplitude := Py.float32 0.95;
            description := "Loud noise detected - possible scream or alarm";
            device_id := "mic-1" |}) = Return tt.
Proof. reflexivity. Qed.

(** ** Listing the audio input devices *)

Lemma in_range i n : In i (Audio.range n) <-> 0 <= i < n.
Proof.
  unfold Audio.range. rewrite in_map_iff. split.
  - intros (k & <- & Hk). apply in_seq in Hk. lia.
  - intros H. exists (Z.to_nat i). split; [lia|]. apply in_seq. lia.
Qed.

Lemma range_sorted n : StronglySorted Z.lt (Audio.range n).
Proof.
  unfold Audio.range. generalize (Z.to_nat n) as k. intros k.
  generalize 0%nat as a. induction k as [|k IH]; intros a; simpl.
  - constructor.
  - constructor; [apply IH|].
    apply Forall_forall. intros x Hx. apply in_map_iff in Hx.
    destruct Hx as (j & <- & Hj). apply in_seq in Hj. lia.
Qed.

Lemma device_at_some q p i d :
  device_at q p i = Return (Some d) ->
  index d = i /\
  exists info,
    get_device_info_by_index q p i = Return info /\
    0 < match maxInputChannels info with Some n => n | None => 0 end /\
    device_name d = match Audio.name info with
                    | Some s => s
                    | None => "Unknown"
                    end.
Proof.
  unfold device_at.
  destruct (get_device_info_by_index q p i) as [info|e]; simpl;
    [|discriminate].
  destruct (Z.ltb_spec 0 match maxInputChannels info with
                         | Some n => n
                         | None => 0
                         end) as [Hpos|_]; [|discriminate].
  destruct (match defaultSampleRate info with
            | Some f => Py.int_of_float f
            | None => Return 44100
            end) as [rate|e]; simpl; [|discriminate].
  intros H. injection H as <-. simpl. split; [reflexivity|].
  exists info. auto.
Qed.

Lemma collect_devices_spec q p (indices : list Z) :
  Forall (fun d => In (index d) indices /\
                   device_at q p (index d) = Return (Some d))
         (fst (collect_devices q p indices)) /\
  (StronglySorted Z.lt indices ->
   StronglySorted Z.lt (map index (fst (collect_devices q p indices)))) /\
  ((forall i, In i indices -> Py.raises (device_at q p i) = false) ->
   forall i d, In i indices -> device_at q p i = Return (Some d) ->
               In d (fst (collect_devices q p indices))).
Proof.
  induction indices as [|i indices (IHall & IHsorted & IHcomplete)]; simpl.
  - repeat split; try constructor. intros _ i d [].
  - destruct (device_at q p i) as [[d|]|e] eqn:Hat.
    + destruct (device_at_some q p i d Hat) as (Hidx & _).
      destruct (collect_devices q p indices) as [ds fin]. simpl in *.
      split; [|split].
      * constructor; [rewrite Hidx; auto|].
        eapply Forall_impl; [|exact IHall]. simpl. tauto.
      * intros Hs. inversion Hs as [|? ? Hs' Hlt]; subst.
        constructor; [auto|].
        rewrite Forall_forall in *. intros x Hx.
        apply in_map_iff in Hx. destruct Hx as (d' & <- & Hd').
        apply Hlt. exact (proj1 (IHall d' Hd')).
      * intros Hok j d' [<-|Hj] Hd'.
        -- left. congruence.
        -- right. apply (IHcomplete (fun k Hk => Hok k (or_intror Hk)) j);
             assumption.
    + split; [|split].
      * eapply Forall_impl; [|exact IHall]. simpl. tauto.
      * intros Hs. inversion Hs; subst. auto.
      * intros Hok j d' [<-|Hj] Hd'; [congruence|].
        apply (IHcomplete (fun k Hk => Hok k (or_intror Hk)) j); assumption.
    + simpl. split; [constructor|]. split; [constructor|].
      intros Hok. specialize (Hok i (or_introl eq_refl)).
      rewrite Hat in Hok. discriminate.
Qed.

(** X25: [list_devices] lists only devices that report input channels,
    each under its own index below the device count, with the name and
    sample rate read from the device (or the defaults), in increasing order
    of index; when no device query raises, every device with input channels
    is listed.  A raise stops the listing and what was collected is
    returned. *)
Theorem list_devices_lists_input_devices :
  forall (env : Audio.Env) (q : Queries) (p : PyAudioH) (count : Z),
    PYAUDIO_AVAILABLE env = true ->
    pyaudio_PyAudio env = Return p ->
    get_device_count q p = Return count ->
    Forall (fun d =>
              0 <= index d < count /\
              device_at q p (index d) = Return (Some d) /\
              exists info,
                get_device_info_by_index q p (index d) = Return info /\
                0 < match maxInputChannels info with
                    | Some n => n
                    | None => 0
                    end)
           (list_devices env q) /\
    StronglySorted Z.lt (map index (list_devices env q)) /\
    ((forall i, 0 <= i < count -> Py.raises (device_at q p i) = false) ->
     forall i d, 0 <= i < count -> device_at q p i = Return (Some d) ->
                 In d (list_devices env q)).
Proof.
  intros env q p count Hav Hp Hcount. unfold list_devices.
  rewrite Hav, Hp, Hcount. simpl.
  destruct (collect_devices_spec q p (Audio.range count))
    as (Hall & Hsorted & Hcomplete).
  split; [|split].
  - eapply Forall_impl; [|exact Hall]. simpl.
    intros d (Hin & Hat). split; [now apply in_range|]. split; [exact Hat|].
    destruct (device_at_some q p _ d Hat) as (_ & info & Hi & Hpos & _).
    exists info. auto.
  - apply Hsorted, range_sorted.
  - intros Hok i d Hi Hd. apply (Hcomplete) with (i := i).
    + intros j Hj. apply Hok. now apply in_range.
    + now apply in_range.
    + exact Hd.
Qed.
Lemma list_devices_lists_input_devices_witness :
  StronglySorted Z.lt (map index (list_devices fair_audio three_devices)).
Proof.
  exact (proj1 (proj2 (list_devices_lists_input_devices fair_audio
                         three_devices {| pa_handle := 1 |} 3
                         eq_refl eq_refl eq_refl))).
Defined.

Example list_three_devices :
  list_devices fair_audio three_devices
  = [{| index := 0; device_name := "Microphone";
        device_sample_rate := 48000 |};
     {| index := 2; device_name := "Unknown";
        device_sample_rate := 44100 |}].
Proof. vm_compute. reflexivity. Qed.

(** ** The management endpoints *)

(** X26: the camera endpoints.  DELETE and GET of an id that is not
    registered answer 404 and change nothing.  POST of an id that is
    registered answers 400 and changes nothing.  After a POST that
    answered with success, GET shows the camera running, with the device
    index when the source text is an integer and the text itself
    otherwise.  After a DELETE that answered with success, GET answers
    404. *)
Theorem camera_endpoints_agree :
  forall (int_of_str : string -> result Z) (out : Main.Outside)
         (id source : string) (app : Main.App),
    NoDup (Py.keys (cameras (Main.vision_engine app))) ->
    let not_found :=
      String.append "Camera " (String.append id " not found") in
    (Py.contains (cameras (Main.vision_engine app)) id = false ->
       Main.remove_camera out id app = (Main.HTTPException 404 not_found, app) /\
       Main.get_camera id app = Main.HTTPException 404 not_found) /\
    (Py.contains (cameras (Main.vision_engine app)) id = true ->
     (forall e, int_of_str source = Raise e -> e = ValueError) ->
       Main.add_camera int_of_str out id source app
         = (Main.HTTPException 400
              (String.append "Failed to add camera " id), app)) /\
    (forall body,
        fst (Main.add_camera int_of_str out id source app)
          = Main.Respond body ->
        Main.get_camera id (snd (Main.add_camera int_of_str out id source app))
          = Main.Respond
              (id,
               match int_of_str source with
               | Return n => SourceInt n
               | Raise _ => SourceStr source
               end, true)) /\
    (forall body,
        fst (Main.remove_camera out id app) = Main.Respond body ->
        Main.get_camera id (snd (Main.remove_camera out id app))
          = Main.HTTPException 404 not_found).
Proof.
  intros int_of_str out id source app Hnd. cbv zeta.
  destruct app as [ve ae conn]. cbn [Main.vision_engine] in *.
  split; [|split; [|split]].
  - intros Hnew. unfold Py.contains in Hnew.
    unfold Main.remove_camera, Main.get_camera, remove_camera,
      get_camera_status. cbn [Main.vision_engine Main.audio_engine
                              Main.connector].
    destruct (Py.get (cameras ve) id); [discriminate|].
    split; reflexivity.
  - intros Hin Hparse. unfold Main.add_camera.
    assert (Hadd : forall src, add_camera (Main.cameras_env out) id src ve
                               = (false, ve)).
    { intros src. unfold add_camera. now rewrite Hin. }
    cbn [Main.vision_engine Main.audio_engine Main.connector].
    destruct (int_of_str source) as [n|e] eqn:Hs.
    + now rewrite Hadd.
    + rewrite (Hparse e eq_refl). now rewrite Hadd.
  - intros body. unfold Main.add_camera.
    cbn [Main.vision_engine Main.audio_engine Main.connector].
    assert (Hadd : forall src,
              fst (add_camera (Main.cameras_env out) id src ve) = true ->
              get_camera_status id
                (snd (add_camera (Main.cameras_env out) id src ve))
              = Some (id, src, true)).
    { intros src. unfold add_camera, get_camera_status.
      destruct (Py.contains (cameras ve) id); [discriminate|].
      pose proof (camera_start_keeps (Main.cameras_env out)
                    (Vision.init id src (_detection_callback ve)))
        as (_ & Hsrc & _).
      pose proof (camera_start_true_running (Main.cameras_env out)
                    (Vision.init id src (_detection_callback ve))) as Hrun.
      destruct (start _ _) as [[|] h']; simpl in *; [|discriminate].
      intros _. rewrite get_setitem_same, Hsrc, (Hrun eq_refl). reflexivity. }
    destruct (int_of_str source) as [n|[]] eqn:Hs; try discriminate.
    + specialize (Hadd (SourceInt n)).
      destruct (add_camera _ id (SourceInt n) ve) as [[|] ve'];
        simpl in *; [|discriminate].
      intros _. unfold Main.get_camera. cbn [Main.vision_engine].
      now rewrite (Hadd eq_refl).
    + specialize (Hadd (SourceStr source)).
      destruct (add_camera _ id (SourceStr source) ve) as [[|] ve'];
        simpl in *; [|discriminate].
      intros _. unfold Main.get_camera. cbn [Main.vision_engine].
      now rewrite (Hadd eq_refl).
  - intros body. unfold Main.remove_camera, remove_camera.
    cbn [Main.vision_engine Main.audio_engine Main.connector].
    destruct (Py.get (cameras ve) id) as [h|]; [|discriminate].
    destruct (stop _ h) as [[[]|e] h']; simpl; [|discriminate].
    intros _. unfold Main.get_camera, get_camera_status.
    cbn [Main.vision_engine cameras].
    now rewrite (get_delitem_same _ _ Hnd).
Qed.

Lemma camera_endpoints_agree_witness :
  Main.add_camera int_of_sample calm_outside "lobby" "rtsp://yard"
    (app_with_lobby int_of_sample)
  = (Main.HTTPException 400 "Failed to add camera lobby",
     app_with_lobby int_of_sample).
Proof.
  refine (proj1 (proj2 (camera_endpoints_agree int_of_sample calm_outside
                          "lobby" "rtsp://yard"
                          (app_with_lobby int_of_sample) _))
            eq_refl _).
  - vm_compute. repeat constructor. simpl. intuition discriminate.
  - intros e. vm_compute. intros H. now injection H as <-.
Defined.

Example lobby_camera_uses_device_index :
  Main.get_camera "lobby" (app_with_lobby int_of_sample)
  = Main.Respond ("lobby", SourceInt 0, true).
Proof. reflexivity. Qed.

(** X27: [GET /health] always answers, with status "healthy", also when
    the backend cannot be reached; it counts the registered cameras and
    listeners (running or not), reports the backend as connected exactly
    when the backend's health URL answered 200, and leaves both registries
    as they were. *)
Theorem health_endpoint_always_answers :
  forall (app_version : string) (out : Main.Outside) (app : Main.App),
    exists body,
      fst (Main.health_check app_version out app) = Main.Respond body /\
      Main.status body = "healthy" /\
      Main.version body = app_version /\
      Main.cameras_active body
        = Z.of_nat (List.length (cameras (Main.vision_engine app))) /\
      Main.audio_listeners_active body
        = Z.of_nat (List.length (listeners (Main.audio_engine app))) /\
      (Main.backend_connected body = true <->
         exists r,
           Connector.get (Main.backend out)
             (fst (Connector._get_client (Main.connector app)))
             (String.append (Connector.backend_url (Main.connector app))
                "/actuator/health") = Return r /\
           Connector.status_code r = 200) /\
      Main.vision_engine (snd (Main.health_check app_version out app))
        = Main.vision_engine app /\
      Main.audio_engine (snd (Main.health_check app_version out app))
        = Main.audio_engine app.
Proof.
  intros app_version out app. unfold Main.health_check.
  unfold Connector.health_check.
  pose proof (get_client_keeps_url (Main.connector app)) as [_ Hurl].
  unfold Connector.health_url in Hurl at 2.
  destruct (Connector._get_client (Main.connector app)) as [client self'].
  cbn [fst snd] in *. rewrite Hurl.
  destruct (Connector.get (Main.backend out) client _) as [r|e].
  - eexists. split; [reflexivity|]. cbn.
    repeat split; try reflexivity.
    + intros H. exists r. split; [reflexivity|]. now apply Z.eqb_eq.
    + intros (r' & Hr & Hs). injection Hr as ->. now apply Z.eqb_eq.
  - eexists. split; [reflexivity|]. cbn.
    repeat split; try reflexivity; try discriminate.
    intros (r' & Hr & _). discriminate.
Qed.

(** ** Start-up and shutdown *)

(** X28: at start-up both engines get the synchronous wrappers as
    callbacks; without a default camera URL (or with an empty one) nothing
    is registered.  At shutdown, when all threads can be joined and the
    camera releases and the client's [aclose] return, both registries end
    up empty and the HTTP client is dropped.  When the camera sweep raises,
    the shutdown is left at once: the listeners are not stopped and the
    client is not closed. *)
Theorem lifespan_outcomes :
  forall (settings : Config.Settings) (out : Main.Outside) (app : Main.App)
         (e : exn),
    _detection_callback
      (Main.vision_engine (Main.lifespan_startup settings out app))
      = Some Main.sync_visual_callback /\
    _event_callback
      (Main.audio_engine (Main.lifespan_startup settings out app))
      = Some Main.sync_audio_callback /\
    ((Config.default_camera_url settings = None \/
      Config.default_camera_url settings = Some EmptyString) ->
     cameras (Main.vision_engine (Main.lifespan_startup settings out app))
       = cameras (Main.vision_engine app)) /\
    (Forall (fun kh => joinable (Vision._thread (snd kh)))
            (cameras (Main.vision_engine app)) ->
     Forall (fun kl => joinable (Audio._thread (snd kl)))
            (listeners (Main.audio_engine app)) ->
     (forall c, capture_release (Main.cameras_env out) c = Return tt) ->
     (forall c, Connector.aclose (Main.backend out) c = Return tt) ->
     let app' := snd (Main.lifespan_shutdown out app) in
     fst (Main.lifespan_shutdown out app) = Return tt /\
     cameras (Main.vision_engine app') = [] /\
     listeners (Main.audio_engine app') = [] /\
     Connector.client (Main.connector app') = None) /\
    (fst (Vision.stop_all (Main.cameras_env out) (Main.vision_engine app))
       = Raise e ->
     let app' := snd (Main.lifespan_shutdown out app) in
     fst (Main.lifespan_shutdown out app) = Raise e /\
     Main.audio_engine app' = Main.audio_engine app /\
     Main.connector app' = Main.connector app).
Proof.
  intros settings out app e.
  split; [|split; [|split; [|split]]].
  - unfold Main.lifespan_startup. cbn [Main.vision_engine].
    destruct (Config.default_camera_url settings) as [[|c url]|];
      try reflexivity.
    unfold add_camera. cbn [cameras set_detection_callback].
    destruct (Py.contains _ _); [reflexivity|].
    destruct (start _ _) as [[|] h']; reflexivity.
  - reflexivity.
  - unfold Main.lifespan_startup. cbn [Main.vision_engine].
    intros [->| ->]; reflexivity.
  - intros Hcams Hmics Hrel Hclose. cbv zeta. unfold Main.lifespan_shutdown.
    rewrite (camera_sweep_completes _ _ Hcams Hrel).
    rewrite (audio_stop_all_completes _ _ Hmics).
    unfold Connector.close.
    destruct (Connector.client (Main.connector app)) as [c|] eqn:Hc.
    + rewrite Hclose. repeat split.
    + repeat split. exact Hc.
  - intros Hraise. cbv zeta. unfold Main.lifespan_shutdown.
    destruct (Vision.stop_all _ _) as [r ve']. simpl in Hraise. subst r.
    repeat split.
Qed.

Lemma lifespan_outcomes_witness :
  fst (Main.lifespan_shutdown calm_outside (app_with_lobby int_of_sample))
    = Return tt /\
  cameras (Main.vision_engine
             (snd (Main.lifespan_shutdown calm_outside
                     (app_with_lobby int_of_sample)))) = [] /\
  listeners (Main.audio_engine
               (snd (Main.lifespan_shutdown calm_outside
                       (app_with_lobby int_of_sample)))) = [] /\
  Connector.client
    (Main.connector
       (snd (Main.lifespan_shutdown calm_outside
               (app_with_lobby int_of_sample)))) = None.
Proof.
  refine (proj1 (proj2 (proj2 (proj2
            (lifespan_outcomes Config.defaults calm_outside
               (app_with_lobby int_of_sample) OtherException)))) _ _ _ _).
  - repeat constructor.
  - constructor.
  - reflexivity.
  - reflexivity.
Defined.

(** X29: the listener endpoints on a well-formed audio registry.  DELETE
    answers with success or with 404 and never lets an exception out,
    whatever the release calls do; it answers 404 exactly for an id that is
    not registered, and then nothing changes.  POST of a registered id
    answers 400 and changes nothing.  Both leave the registry well
    formed. *)
Theorem listener_endpoints_agree :
  forall (settings : Config.Settings) (out : Main.Outside) (id : string)
         (idx : option Z) (app : Main.App),
    audio_registry_ok (Main.audio_engine app) ->
    let not_found :=
      String.append "Audio listener " (String.append id " not found") in
    (Py.contains (listeners (Main.audio_engine app)) id = false ->
       Main.remove_audio_listener out id app
         = (Main.HTTPException 404 not_found, app)) /\
    (Py.contains (listeners (Main.audio_engine app)) id = true ->
       fst (Main.remove_audio_listener out id app)
         = Main.Respond
             {| Main.success := true;
                Main.message :=
                  String.append "Audio listener "
                    (String.append id " removed successfully") |} /\
       Py.contains
         (listeners (Main.audio_engine
                       (snd (Main.remove_audio_listener out id app)))) id
         = false /\
       Main.add_audio_listener settings out id idx app
         = (Main.HTTPException 400
              (String.append "Failed to add audio listener " id), app)) /\
    audio_registry_ok
      (Main.audio_engine (snd (Main.remove_audio_listener out id app))) /\
    audio_registry_ok
      (Main.audio_engine (snd (Main.add_audio_listener settings out id idx
                                 app))).
Proof.
  intros settings out id idx app Hok. cbv zeta.
  destruct app as [ve ae conn]. cbn [Main.audio_engine] in *.
  assert (Hinv : audio_registry_ok
                   (snd (add_listener (Main.audio_env out) settings id idx ae))
                 /\ audio_registry_ok
                      (snd (remove_listener (Main.audio_env out) id ae))).
  { destruct (audio_registry_stays_ok_aux (Main.audio_env out) settings id idx
                ae Hok) as (H1 & H2). now split. }
  destruct Hinv as [Hadd Hrem].
  split; [|split; [|split]].
  - intros Hnew. unfold Py.contains in Hnew.
    unfold Main.remove_audio_listener, remove_listener.
    cbn [Main.vision_engine Main.audio_engine Main.connector].
    destruct (Py.get (listeners ae) id); [discriminate|]. reflexivity.
  - intros Hin. unfold Py.contains in Hin.
    unfold Main.remove_audio_listener, Main.add_audio_listener,
      remove_listener, add_listener.
    cbn [Main.vision_engine Main.audio_engine Main.connector].
    unfold Py.contains.
    destruct (Py.get (listeners ae) id) as [l|] eqn:Hget; [|discriminate].
    assert (Hj : joinable (Audio._thread l)).
    { destruct Hok as [_ Hall]. rewrite Forall_forall in Hall.
      apply (Hall (id, l)). now apply get_in. }
    pose proof (listener_stop_swallows (Main.audio_env out) l Hj) as Hstop.
    destruct (Audio.stop _ l) as [r l']. simpl in Hstop. subst r.
    cbn [fst snd Main.audio_engine listeners].
    rewrite (get_delitem_same _ _ (proj1 Hok)). repeat split.
  - unfold Main.remove_audio_listener.
    cbn [Main.vision_engine Main.audio_engine Main.connector].
    destruct (remove_listener _ id ae) as [[[|]|e] ae']; exact Hrem.
  - unfold Main.add_audio_listener.
    cbn [Main.vision_engine Main.audio_engine Main.connector].
    destruct (add_listener _ settings id idx ae) as [[|] ae']; exact Hadd.
Qed.

Lemma listener_endpoints_agree_witness :
  Main.remove_audio_listener calm_outside "mic-7"
    (Main.app_init Config.defaults)
  = (Main.HTTPException 404 "Audio listener mic-7 not found",
     Main.app_init Config.defaults).
Proof.
  refine (proj1 (listener_endpoints_agree Config.defaults calm_outside "mic-7"
                   None (Main.app_init Config.defaults) _) eq_refl).
  split; constructor.
Defined.
